(** * stock-pattern-matcher: the pattern similarity search

    A shallow embedding of the two pattern matchers of the repository,
    [stock_pattern_matcher/pattern_matcher.py] (class [CandlePatternMatcher]
    and [calculate_statistics]) and [src/pattern_matcher_gpu.py] (class
    [PatternMatcher]), with the properties of the specification stated
    and proved over it.  The loader of the price frames, the settings,
    the utilities and [print_statistics] are embedded after the
    matchers, and further properties of the code follow those of the
    specification.

    Numbers are IEEE binary64 floats ([PrimFloat.float]), Python integers
    are [Z], a DataFrame of bars is the list of its rows, and a Python
    exception is the [Raise] branch of [Result]. *)

From Stdlib Require Import String ZArith List Bool Lia Permutation Sorted.
From Stdlib Require Import Floats Uint63.
Import ListNotations.

Set Warnings "-inexact-float".

Local Open Scope string_scope.
Local Open Scope Z_scope.

(** ** Python results: a value or a raised exception *)

Inductive PyExc : Type :=
| ValueError
| IndexError
| KeyError.

Inductive Result (A : Type) : Type :=
| Ok (a : A)
| Raise (e : PyExc).

Arguments Ok {A} a.
Arguments Raise {A} e.

Definition bind {A B : Type} (c : Result A) (k : A -> Result B) : Result B :=
  match c with
  | Ok a => k a
  | Raise e => Raise e
  end.

Notation "x <- c ;; k" := (bind c (fun x => k))
  (at level 61, c at next level, right associativity).

(** [try: c except: d], with a bare [except]. *)
Definition try_except {A : Type} (c : Result A) (d : A) : A :=
  match c with
  | Ok a => a
  | Raise _ => d
  end.

Definition is_ok {A : Type} (c : Result A) : bool :=
  match c with
  | Ok _ => true
  | Raise _ => false
  end.

(** [range(lo, hi)]. *)
Definition py_range (lo hi : Z) : list Z :=
  map (fun k => lo + Z.of_nat k) (seq 0 (Z.to_nat (hi - lo))).

(** A [for] loop over [l] whose body may raise. *)
Fixpoint for_each {A S : Type} (l : list A) (s : S) (body : S -> A -> Result S)
  : Result S :=
  match l with
  | [] => Ok s
  | x :: t => s' <- body s x ;; for_each t s' body
  end.

(** [results.append(entry)], when the body reaches it. *)
Definition append_entry {R : Type} (results : list R) (entry : option R) : list R :=
  match entry with
  | Some r => results ++ [r]
  | None => results
  end.

(** ** Floats *)

Definition float_of_nat (n : nat) : float :=
  PrimFloat.of_uint63 (Uint63.of_Z (Z.of_nat n)).

(** [numpy.sum] of a one-dimensional array, as a left-to-right
    accumulation that starts at the first element (numpy switches to
    pairwise blocks on long arrays; no property below depends on the
    order). *)
Definition np_sum (l : list float) : float :=
  match l with
  | [] => 0%float
  | x :: t => fold_left PrimFloat.add t x
  end.

(** [numpy.mean]: the sum over the number of elements ([nan] when empty). *)
Definition np_mean (l : list float) : float :=
  (np_sum l / float_of_nat (length l))%float.

(** Elementwise binary operation of two arrays of one length. *)
Fixpoint zip_with {A B C : Type} (f : A -> B -> C) (a : list A) (b : list B) : list C :=
  match a, b with
  | x :: a', y :: b' => f x y :: zip_with f a' b'
  | _, _ => []
  end.

(** Insertion of [x] before the first element greater than it: the
    step of a stable ascending sort. *)
Fixpoint insert_asc (x : float) (l : list float) : list float :=
  match l with
  | [] => [x]
  | y :: t => if (x <? y)%float then x :: l else y :: insert_asc x t
  end.

Definition sort_asc (l : list float) : list float :=
  fold_left (fun acc x => insert_asc x acc) l [].

(** ** pandas: frames of bars, slices and reductions *)

(** A row of the price frame: the index label (a timestamp) and the
    five columns [ohlc_cols] names by default. *)
Record Bar : Type := mkBar {
  timestamp : Z;
  open : float;
  high : float;
  low : float;
  close : float;
  volume : float
}.

Definition DataFrame : Type := list Bar.

(** A bound of a Python slice over [n] elements: negative bounds count
    from the end, and all bounds are clipped to [0..n]. *)
Definition slice_bound (n k : Z) : Z :=
  if k <? 0 then Z.max (k + n) 0 else Z.min k n.

(** [l.iloc[a:b]]. *)
Definition iloc_slice {A : Type} (l : list A) (a b : Z) : list A :=
  let n := Z.of_nat (length l) in
  let a' := slice_bound n a in
  let b' := slice_bound n b in
  firstn (Z.to_nat (b' - a')) (skipn (Z.to_nat a') l).

(** [l.iloc[0]] and [l.iloc[-1]]; both raise on an empty frame. *)
Definition iloc_first {A : Type} (l : list A) : Result A :=
  match l with
  | [] => Raise IndexError
  | x :: _ => Ok x
  end.

Fixpoint iloc_last {A : Type} (l : list A) : Result A :=
  match l with
  | [] => Raise IndexError
  | [x] => Ok x
  | _ :: t => iloc_last t
  end.

(** pandas reductions skip missing values ([skipna=True]). *)
Definition dropna (l : list float) : list float :=
  filter (fun x => negb (PrimFloat.is_nan x)) l.

(** [Series.min()] and [Series.max()]: [nan] when nothing is left. *)
Definition series_min (l : list float) : float :=
  match dropna l with
  | [] => PrimFloat.nan
  | x :: t => fold_left (fun m y => if (y <? m)%float then y else m) t x
  end.

Definition series_max (l : list float) : float :=
  match dropna l with
  | [] => PrimFloat.nan
  | x :: t => fold_left (fun m y => if (m <? y)%float then y else m) t x
  end.

(** [Series.mean()]. *)
Definition series_mean (l : list float) : float :=
  np_mean (dropna l).

(** [Series.median()]: numpy's median of the values left, the mean of
    the one or two middle elements of the sorted array. *)
Definition series_median (l : list float) : float :=
  let v := sort_asc (dropna l) in
  let n := length v in
  match n with
  | O => PrimFloat.nan
  | _ =>
      if Nat.odd n
      then np_mean (firstn 1 (skipn (Nat.div n 2) v))
      else np_mean (firstn 2 (skipn (Nat.div n 2 - 1)%nat v))
  end.

(** [Series.std()], the sample standard deviation ([ddof=1]) as
    pandas' [nanvar] computes it: with no more than [ddof] values the
    count and the divisor are [nan]. *)
Definition series_std (l : list float) : float :=
  let v := dropna l in
  let n := length v in
  let count := if (n <=? 1)%nat then PrimFloat.nan else float_of_nat n in
  let d := if (n <=? 1)%nat then PrimFloat.nan else float_of_nat (n - 1) in
  let avg := (np_sum v / count)%float in
  let sqr := map (fun x => ((avg - x) * (avg - x))%float) v in
  PrimFloat.sqrt (np_sum sqr / d)%float.

(** [df.head(n)] is [df.iloc[:n]]: the first [n] rows, or all but the
    last [-n] when [n] is negative. *)
Definition head {A : Type} (n : Z) (l : list A) : list A :=
  iloc_slice l 0 n.

(** A frame with derived float columns added to it; the added columns
    are kept in the order of their assignment. *)
Record NormFrame : Type := mkNormFrame {
  frame : DataFrame;
  added : list (string * list float)
}.

Fixpoint lookup_column (cols : list (string * list float)) (name : string)
  : Result (list float) :=
  match cols with
  | [] => Raise KeyError
  | (k, v) :: t => if String.eqb k name then Ok v else lookup_column t name
  end.

(** [df[name].values]: a column of the frame, [KeyError] when absent. *)
Definition get_column (df : NormFrame) (name : string) : Result (list float) :=
  if String.eqb name "open" then Ok (map open (frame df))
  else if String.eqb name "high" then Ok (map high (frame df))
  else if String.eqb name "low" then Ok (map low (frame df))
  else if String.eqb name "close" then Ok (map close (frame df))
  else if String.eqb name "volume" then Ok (map volume (frame df))
  else lookup_column (added df) name.

(** [name in df.columns]. *)
Definition has_column (df : NormFrame) (name : string) : bool :=
  is_ok (get_column df name).

(** ** The numerical libraries the matchers call

    [pearsonr x y] is the coefficient [scipy.stats.pearsonr(x, y)]
    returns first, or the exception it raises.  [sort_values_desc keys]
    is the order in which [DataFrame.sort_values(col, ascending=False)]
    (default [kind]) lists the rows whose [col] holds [keys]: the
    positions of the rows, first row of the result first. *)
Class Libraries : Type := {
  pearsonr : list float -> list float -> Result float;
  sort_values_desc : list float -> list nat;
  (** [numpy.corrcoef(x, y)[0, 1]] of two flat arrays. *)
  np_corrcoef : list float -> list float -> Result float;
  (** [numpy.median] and [numpy.percentile(_, q)] of one column. *)
  np_median : list float -> Result float;
  np_percentile : list float -> Z -> Result float;
  (** [Timestamp.strftime('%Y-%m-%d')]. *)
  strftime : Z -> string
}.

(** ** [CandlePatternMatcher] (stock_pattern_matcher/pattern_matcher.py) *)

Module CandlePatternMatcher.

Section Matcher.

Context {L : Libraries}.

(** [normalize_window]: every price as its change relative to the base
    close (the last close of the window unless one is given), the
    volume relative to the last volume. *)
Definition normalize_window (window_df : DataFrame) (base_close : option float)
  : Result NormFrame :=
  base_close <- match base_close with
                | Some b => Ok b
                | None => iloc_last (map close window_df)
                end ;;
  let rel := fun v => ((v - base_close) / base_close)%float in
  let price_cols :=
    [ ("open_norm", map rel (map open window_df));
      ("high_norm", map rel (map high window_df));
      ("low_norm", map rel (map low window_df));
      ("close_norm", map rel (map close window_df)) ] in
  base_volume <- iloc_last (map volume window_df) ;;
  let volume_norm :=
    if (0 <? base_volume)%float
    then map (fun v => ((v - base_volume) / base_volume)%float) (map volume window_df)
    else map (fun _ => 0%float) window_df in
  Ok (mkNormFrame window_df (price_cols ++ [("volume_norm", volume_norm)])%list).

(** One column of [min_max_normalize]. *)
Definition minmax_column (s : list float) : list float :=
  let min_val := series_min s in
  let max_val := series_max s in
  if negb (max_val =? min_val)%float
  then map (fun v => ((v - min_val) / (max_val - min_val))%float) s
  else map (fun _ => 0.5%float) s.

Definition min_max_normalize (window_df : DataFrame) : NormFrame :=
  mkNormFrame window_df
    [ ("open_minmax", minmax_column (map open window_df));
      ("high_minmax", minmax_column (map high window_df));
      ("low_minmax", minmax_column (map low window_df));
      ("close_minmax", minmax_column (map close window_df));
      ("volume_minmax", minmax_column (map volume window_df)) ].

Definition default_weights : list (string * float) :=
  [ ("close", 0.5%float); ("open", 0.2%float);
    ("high", 0.15%float); ("low", 0.15%float) ].

(** The correlation of one column of the two frames, inside [try]. *)
Definition column_correlation (target_norm comparison_norm : NormFrame)
  (name : string) : Result float :=
  a <- get_column target_norm name ;;
  b <- get_column comparison_norm name ;;
  pearsonr a b.

(** The root mean square difference of one column. *)
Definition column_distance (a b : list float) : float :=
  PrimFloat.sqrt
    (np_mean (map (fun d => (d * d)%float) (zip_with PrimFloat.sub a b))).

Definition calculate_pattern_similarity
  (target_norm comparison_norm : NormFrame) (method : string)
  (weights : option (list (string * float))) : float :=
  if negb (Nat.eqb (length (frame target_norm)) (length (frame comparison_norm)))
  then 0%float
  else
    let weights := match weights with
                   | None => default_weights
                   | Some w => w
                   end in
    if String.eqb method "correlation" then
      try_except
        (corr <- column_correlation target_norm comparison_norm "close_norm" ;;
         Ok (if negb (PrimFloat.is_nan corr) then corr else 0%float))
        0%float
    else if String.eqb method "weighted" then
      let '(total_similarity, total_weight) :=
        fold_left
          (fun acc cw =>
             match column_correlation target_norm comparison_norm
                     (fst cw ++ "_norm") with
             | Ok corr =>
                 if negb (PrimFloat.is_nan corr)
                 then ((fst acc + corr * snd cw)%float, (snd acc + snd cw)%float)
                 else acc
             | Raise _ => acc
             end)
          weights (0%float, 0%float) in
      if (0 <? total_weight)%float
      then (total_similarity / total_weight)%float
      else 0%float
    else if String.eqb method "euclidean" then
      let distances :=
        flat_map
          (fun col =>
             let norm_col := col ++ "_minmax" in
             if has_column target_norm norm_col
                && has_column comparison_norm norm_col
             then
               match get_column target_norm norm_col,
                     get_column comparison_norm norm_col with
               | Ok a, Ok b => [column_distance a b]
               | _, _ => []
               end
             else [])
          ["close"; "open"; "high"; "low"] in
      let avg_distance := match distances with
                          | [] => 1%float
                          | _ => np_mean distances
                          end in
      (1 / (1 + avg_distance))%float
    else 0%float.

(** What is held under ['pattern_data'] and ['future_data']: a window
    of bars, or the missing value (NaN) of a frame cell that holds
    none. *)
Inductive Cell : Type :=
| Window (bars : DataFrame)
| Missing.

(** A recorded candidate: a dictionary of [results], and with the same
    keys a row of the returned frame. *)
Record Match : Type := mkMatch {
  start_date : Z;
  end_date : Z;
  similarity : float;
  future_return_pct : float;   (* 'future_return_%' *)
  max_return_pct : float;      (* 'max_return_%' *)
  min_return_pct : float;      (* 'min_return_%' *)
  pattern_data : Cell;
  future_data : Cell
}.

Definition normalize (normalize_method : string) (window_df : DataFrame)
  : Result NormFrame :=
  if String.eqb normalize_method "relative"
  then normalize_window window_df None
  else Ok (min_max_normalize window_df).

(** The record built for a candidate window and the bars after it. *)
Definition candidate (comp_window future_data : DataFrame) (similarity : float)
  : Result Match :=
  start_price <- iloc_last (map close comp_window) ;;
  end_price <- iloc_last (map close future_data) ;;
  let future_return := ((end_price - start_price) / start_price * 100)%float in
  let max_price := series_max (map high future_data) in
  let min_price := series_min (map low future_data) in
  let max_return := ((max_price - start_price) / start_price * 100)%float in
  let min_return := ((min_price - start_price) / start_price * 100)%float in
  first_label <- iloc_first (map timestamp comp_window) ;;
  last_label <- iloc_last (map timestamp comp_window) ;;
  Ok (mkMatch first_label last_label similarity
        future_return max_return min_return
        (Window comp_window) (Window future_data)).

(** The sliding-window loop at end index [i]: the entry the body
    appends to [results], if it appends one. *)
Definition scan_entry (df : DataFrame)
  (target_end_index window_size lookahead : Z) (min_similarity : float)
  (method normalize_method : string) (target_norm : NormFrame)
  (i : Z) : Result (option Match) :=
  if Z.abs (i - target_end_index) <? window_size then Ok None
  else
    let comp_start := i - window_size + 1 in
    let comp_window := iloc_slice df comp_start (i + 1) in
    comp_norm <- normalize normalize_method comp_window ;;
    let similarity :=
      calculate_pattern_similarity target_norm comp_norm method None in
    if (min_similarity <=? similarity)%float then
      let future_start := i + 1 in
      let future_end := Z.min (i + lookahead + 1) (Z.of_nat (length df)) in
      let future_data := iloc_slice df future_start future_end in
      if Z.of_nat (length future_data) =? lookahead then
        r <- candidate comp_window future_data similarity ;;
        Ok (Some r)
      else Ok None
    else Ok None.

Definition scan_step (df : DataFrame)
  (target_end_index window_size lookahead : Z) (min_similarity : float)
  (method normalize_method : string) (target_norm : NormFrame)
  (results : list Match) (i : Z) : Result (list Match) :=
  entry <- scan_entry df target_end_index window_size lookahead
             min_similarity method normalize_method target_norm i ;;
  Ok (append_entry results entry).

(** The row the returned frame holds for the entry [r] of [results].
    The frame is built from the entries without their two windows
    (line 316), so it has the six scalar columns only.  Lines 323 and
    324 then assign each window through [.at] under a column name the
    frame does not have: pandas adds the column and stores no window in
    it, the cell is left missing (NaN).  That is pandas 1.5 and 2.2;
    pandas 3 refuses the first of these assignments with a
    [ValueError], and the model follows the former. *)
Definition frame_row (r : Match) : Match :=
  mkMatch (start_date r) (end_date r) (similarity r)
          (future_return_pct r) (max_return_pct r) (min_return_pct r)
          Missing Missing.

(** The rows of the returned frame in the order of the sorted frame,
    cut to [top_n]: the row of label [row_idx] is made of
    [results[row_idx]], which the loop of line 322 reads once more for
    the two windows. *)
Fixpoint attach (results : list Match) (labels : list nat) : Result (list Match) :=
  match labels with
  | [] => Ok []
  | row_idx :: t =>
      match nth_error results row_idx with
      | Some r => rest <- attach results t ;; Ok (frame_row r :: rest)
      | None => Raise IndexError
      end
  end.

(** The frame made of [results]: empty when nothing was recorded,
    else sorted by similarity, cut to [top_n] and given the two window
    columns. *)
Definition results_frame (results : list Match) (top_n : Z) : Result (list Match) :=
  match results with
  | [] => Ok []
  | _ => attach results (head top_n (sort_values_desc (map similarity results)))
  end.

(** A negative [target_end_index] counts from the end of the frame. *)
Definition resolve_end_index (df : DataFrame) (target_end_index : Z) : Z :=
  if target_end_index <? 0
  then Z.of_nat (length df) + target_end_index
  else target_end_index.

Definition find_similar_patterns (df : DataFrame)
  (target_end_index window_size lookahead top_n : Z) (min_similarity : float)
  (method normalize_method : string) (exclude_recent_days : Z)
  : Result (list Match * DataFrame) :=
  let target_end_index := resolve_end_index df target_end_index in
  let target_start := Z.max 0 (target_end_index - window_size + 1) in
  let target_window := iloc_slice df target_start (target_end_index + 1) in
  if Z.of_nat (length target_window) <? window_size then Raise ValueError
  else
    target_norm <- normalize normalize_method target_window ;;
    let search_end := Z.of_nat (length df) - lookahead - exclude_recent_days in
    results <- for_each (py_range (window_size - 1) search_end) []
                 (scan_step df target_end_index window_size lookahead
                    min_similarity method normalize_method target_norm) ;;
    results_df <- results_frame results top_n ;;
    Ok (results_df, target_window).

End Matcher.

(** ** [calculate_statistics] *)

Inductive PyValue : Type :=
| PyInt (n : Z)
| PyFloat (x : float).

(** A [dict] with string keys, in insertion order. *)
Definition PyDict : Type := list (string * PyValue).

Fixpoint dict_get (d : PyDict) (key : string) : option PyValue :=
  match d with
  | [] => None
  | (k, v) :: t => if String.eqb k key then Some v else dict_get t key
  end.

Definition calculate_statistics (similar_patterns_df : list Match) : PyDict :=
  if Nat.eqb (length similar_patterns_df) 0 then []
  else
    let returns := map future_return_pct similar_patterns_df in
    let positive := filter (fun x => (0 <? x)%float) returns in
    [ ("count", PyInt (Z.of_nat (length returns)));
      ("mean_return", PyFloat (series_mean returns));
      ("median_return", PyFloat (series_median returns));
      ("std_return", PyFloat (series_std returns));
      ("max_return", PyFloat (series_max returns));
      ("min_return", PyFloat (series_min returns));
      ("positive_rate",
       PyFloat (float_of_nat (length positive)
                / float_of_nat (length returns) * 100)%float);
      ("avg_max_return",
       PyFloat (series_mean (map max_return_pct similar_patterns_df)));
      ("avg_min_return",
       PyFloat (series_mean (map min_return_pct similar_patterns_df))) ].

End CandlePatternMatcher.

(** ** [PatternMatcher] (src/pattern_matcher_gpu.py) *)

Module PatternMatcher.

(** A row of a pattern array: the columns [open, high, low, close]. *)
Record Row4 : Type := mkRow4 {
  c_open : float;
  c_high : float;
  c_low : float;
  c_close : float
}.

(** An array of shape [(n, 4)]. *)
Definition Pattern : Type := list Row4.

Definition row_map (f : float -> float) (r : Row4) : Row4 :=
  mkRow4 (f (c_open r)) (f (c_high r)) (f (c_low r)) (f (c_close r)).

Definition row_map2 (f : float -> float -> float) (a b : Row4) : Row4 :=
  mkRow4 (f (c_open a) (c_open b)) (f (c_high a) (c_high b))
         (f (c_low a) (c_low b)) (f (c_close a) (c_close b)).

(** [pattern.flatten()], row by row. *)
Definition flatten (p : Pattern) : list float :=
  flat_map (fun r => [c_open r; c_high r; c_low r; c_close r]) p.

(** [data[['open', 'high', 'low', 'close']].values]. *)
Definition ohlc_values (df : DataFrame) : Pattern :=
  map (fun b => mkRow4 (open b) (high b) (low b) (close b)) df.

(** numpy's elementwise operation with broadcasting along the first
    axis: equal lengths pair up, a length of one is repeated, anything
    else raises. *)
Definition broadcast {A B C : Type} (f : A -> B -> C) (a : list A) (b : list B)
  : Result (list C) :=
  if Nat.eqb (length a) (length b) then Ok (zip_with f a b)
  else
    match a, b with
    | [x], _ => Ok (map (f x) b)
    | _, [y] => Ok (map (fun x => f x y) a)
    | _, _ => Raise ValueError
    end.

(** [numpy.min] and [numpy.max] of one column: a [nan] is propagated,
    and an empty column raises. *)
Definition np_min (l : list float) : Result float :=
  match l with
  | [] => Raise ValueError
  | x :: t =>
      Ok (fold_left
            (fun m y =>
               if PrimFloat.is_nan m then m
               else if PrimFloat.is_nan y then y
               else if (y <? m)%float then y else m)
            t x)
  end.

Definition np_max (l : list float) : Result float :=
  match l with
  | [] => Raise ValueError
  | x :: t =>
      Ok (fold_left
            (fun m y =>
               if PrimFloat.is_nan m then m
               else if PrimFloat.is_nan y then y
               else if (m <? y)%float then y else m)
            t x)
  end.

(** [numpy.std]: the population standard deviation. *)
Definition np_std (l : list float) : float :=
  let mean := np_mean l in
  PrimFloat.sqrt
    (np_mean (map (fun x => ((x - mean) * (x - mean))%float) l)).

(** A reduction along axis 0 with [keepdims=True]: one value per column. *)
Definition per_column (f : list float -> Result float) (p : Pattern) : Result Row4 :=
  o <- f (map c_open p) ;;
  h <- f (map c_high p) ;;
  l <- f (map c_low p) ;;
  c <- f (map c_close p) ;;
  Ok (mkRow4 o h l c).

(** [numpy.linspace(0.5, 1.0, n)]. *)
Definition linspace_half_one (n : nat) : list float :=
  match n with
  | O => []
  | S O => [0.5%float]
  | _ =>
      let step := (0.5 / float_of_nat (n - 1))%float in
      map (fun i => if Nat.eqb i (n - 1) then 1%float
                    else (float_of_nat i * step + 0.5)%float)
          (seq 0 n)
  end.

(** [numpy.linalg.norm] of a two-dimensional array (Frobenius). *)
Definition linalg_norm (p : Pattern) : float :=
  PrimFloat.sqrt (np_sum (map (fun x => (x * x)%float) (flatten p))).

(** The attributes [__init__] stores; [use_gpu] is the stored flag
    [use_gpu and GPU_AVAILABLE]. *)
Record Config : Type := mkConfig {
  window_size : Z;
  lookahead : Z;
  top_n : Z;
  min_similarity : float;
  method : string;
  use_gpu : bool;
  normalize_method : string
}.


(** The matcher with another number of rows to return. *)
Definition with_top_n (self : Config) (n : Z) : Config :=
  mkConfig (window_size self) (lookahead self) n (min_similarity self)
           (method self) (use_gpu self) (normalize_method self).

(** A price frame as [find_similar_patterns] reads it: the bars and
    the optional ['symbol'] column. *)
Record Frame : Type := mkFrame {
  bars : DataFrame;
  symbol_column : option (list string)
}.

(** An entry of the result list. *)
Record Match : Type := mkMatch {
  symbol : string;
  similarity : float;
  start_date : string;
  end_date : string;
  start_price : float;
  end_price : float;
  future_return : option float;
  match_index : Z
}.

(** [l.iloc[k]] and [l[k]] for an integer [k]: negative positions count
    from the end, positions outside the frame raise. *)
Definition iloc_at {A : Type} (l : list A) (k : Z) : Result A :=
  let n := Z.of_nat (length l) in
  let k' := if k <? 0 then k + n else k in
  if (k' <? 0) || (n <=? k') then Raise IndexError
  else match nth_error l (Z.to_nat k') with
       | Some x => Ok x
       | None => Raise IndexError
       end.

(** [list.sort(key=similarity, reverse=True)]: Python's sort is stable
    and [reverse] keeps the original order of equal keys, so each entry
    goes after every entry whose key is not smaller. *)
Fixpoint insert_desc (x : Match) (l : list Match) : list Match :=
  match l with
  | [] => [x]
  | y :: t =>
      if (similarity y <? similarity x)%float then x :: l
      else y :: insert_desc x t
  end.

Definition sort_desc (l : list Match) : list Match :=
  fold_left (fun acc x => insert_desc x acc) l [].

Section Matcher.

Context {L : Libraries}.
Variable self : Config.

Definition normalize_pattern (pattern : Pattern) : Result Pattern :=
  if String.eqb (normalize_method self) "minmax" then
    min_val <- per_column np_min pattern ;;
    max_val <- per_column np_max pattern ;;
    Ok (map (fun r =>
               row_map2 PrimFloat.div
                 (row_map2 PrimFloat.sub r min_val)
                 (row_map (fun d => (d + 1e-8)%float)
                    (row_map2 PrimFloat.sub max_val min_val)))
            pattern)
  else if String.eqb (normalize_method self) "zscore" then
    mean <- per_column (fun c => Ok (np_mean c)) pattern ;;
    std <- per_column (fun c => Ok (np_std c)) pattern ;;
    Ok (map (fun r =>
               row_map2 PrimFloat.div
                 (row_map2 PrimFloat.sub r mean)
                 (row_map (fun d => (d + 1e-8)%float) std))
            pattern)
  else if String.eqb (normalize_method self) "robust" then
    median <- per_column np_median pattern ;;
    q75 <- per_column (fun c => np_percentile c 75) pattern ;;
    q25 <- per_column (fun c => np_percentile c 25) pattern ;;
    let iqr := row_map2 PrimFloat.sub q75 q25 in
    Ok (map (fun r =>
               row_map2 PrimFloat.div
                 (row_map2 PrimFloat.sub r median)
                 (row_map (fun d => (d + 1e-8)%float) iqr))
            pattern)
  else Ok pattern.

(** [_correlation_gpu]. *)
Definition correlation_gpu (x y : Pattern) : Result float :=
  let x_flat := flatten x in
  let y_flat := flatten y in
  let x_mean := np_mean x_flat in
  let y_mean := np_mean y_flat in
  let x_centered := map (fun v => (v - x_mean)%float) x_flat in
  let y_centered := map (fun v => (v - y_mean)%float) y_flat in
  products <- broadcast PrimFloat.mul x_centered y_centered ;;
  let numerator := np_sum products in
  let denominator :=
    PrimFloat.sqrt
      (np_sum (map (fun v => (v * v)%float) x_centered)
       * np_sum (map (fun v => (v * v)%float) y_centered))%float in
  Ok (numerator / (denominator + 1e-8))%float.

(** The two distance-based scores; the array library ([cupy] or
    [numpy]) computes them alike. *)
Definition euclidean_similarity (pattern1 pattern2 : Pattern) : Result float :=
  diff <- broadcast (row_map2 PrimFloat.sub) pattern1 pattern2 ;;
  Ok (1 / (1 + linalg_norm diff))%float.

Definition weighted_similarity (pattern1 pattern2 : Pattern) : Result float :=
  let weights := linspace_half_one (length pattern1) in
  diff <- broadcast (row_map2 PrimFloat.sub) pattern1 pattern2 ;;
  let squares := map (row_map (fun d => (d * d)%float)) diff in
  weighted <- broadcast (fun w r => row_map (fun v => (w * v)%float) r)
                weights squares ;;
  Ok (1 / (1 + np_sum (flatten weighted)))%float.

Definition calculate_similarity (pattern1 pattern2 : Pattern) : Result float :=
  if use_gpu self then
    if String.eqb (method self) "correlation" then correlation_gpu pattern1 pattern2
    else if String.eqb (method self) "euclidean" then euclidean_similarity pattern1 pattern2
    else if String.eqb (method self) "weighted" then weighted_similarity pattern1 pattern2
    else Ok 0%float
  else
    if String.eqb (method self) "correlation"
    then np_corrcoef (flatten pattern1) (flatten pattern2)
    else if String.eqb (method self) "euclidean" then euclidean_similarity pattern1 pattern2
    else if String.eqb (method self) "weighted" then weighted_similarity pattern1 pattern2
    else Ok 0%float.

(** [symbol if symbol else data['symbol'].iloc[0]]: [None] and the
    empty string are both false. *)
Definition resolve_symbol (data : Frame) (symbol : option string) : Result string :=
  match symbol with
  | Some s => if String.eqb s "" then
                match symbol_column data with
                | Some col => iloc_first col
                | None => Raise KeyError
                end
              else Ok s
  | None => match symbol_column data with
            | Some col => iloc_first col
            | None => Raise KeyError
            end
  end.

(** The sliding-window loop at start index [i]: the entry the body
    appends to [results], if it appends one. *)
Definition scan_entry (data : Frame) (target_normalized : Pattern)
  (symbol : option string) (i : Z) : Result (option Match) :=
  let df := bars data in
  let window_data := ohlc_values (iloc_slice df i (i + window_size self)) in
  window_normalized <- normalize_pattern window_data ;;
  similarity <- calculate_similarity target_normalized window_normalized ;;
  if (min_similarity self <=? similarity)%float then
    let future_data :=
      iloc_slice df (i + window_size self)
                 (i + window_size self + lookahead self) in
    future_return <-
      (if (0 <? length future_data)%nat then
         bar <- iloc_at df (i + window_size self - 1) ;;
         let start_price := close bar in
         end_price <- iloc_last (map close future_data) ;;
         Ok (Some ((end_price - start_price) / start_price)%float)
       else Ok None) ;;
    sym <- resolve_symbol data symbol ;;
    first_label <- iloc_at (map timestamp df) i ;;
    last_label <- iloc_at (map timestamp df) (i + window_size self - 1) ;;
    first_bar <- iloc_at df i ;;
    last_bar <- iloc_at df (i + window_size self - 1) ;;
    Ok (Some (mkMatch sym similarity (strftime first_label)
                (strftime last_label) (close first_bar) (close last_bar)
                future_return i))
  else Ok None.

Definition scan_step (data : Frame) (target_normalized : Pattern)
  (symbol : option string) (results : list Match) (i : Z)
  : Result (list Match) :=
  entry <- scan_entry data target_normalized symbol i ;;
  Ok (append_entry results entry).

Definition find_similar_patterns (data : Frame) (target_pattern : Pattern)
  (symbol : option string) : Result (list Match) :=
  target_normalized <- normalize_pattern target_pattern ;;
  results <- for_each
               (py_range 0 (Z.of_nat (length (bars data)) - window_size self
                            - lookahead self + 1))
               [] (scan_step data target_normalized symbol) ;;
  Ok (head (top_n self) (sort_desc results)).

(** The rows at the given positions, in that order. *)
Definition take_rows {A : Type} (l : list A) (positions : list nat) : list A :=
  flat_map (fun j => match nth_error l j with
                     | Some r => [r]
                     | None => []
                     end) positions.

(** [analyze_all_symbols] without the progress reports: a symbol whose
    search raises is skipped. *)
Definition analyze_all_symbols (symbols_data : list (string * Frame)) : list Match :=
  let all_results :=
    fold_left
      (fun acc sd =>
         let df := snd sd in
         let n := Z.of_nat (length (bars df)) in
         if n <? window_size self + lookahead self then acc
         else
           let target_pattern :=
             ohlc_values (iloc_slice (bars df) (- window_size self) n) in
           match find_similar_patterns df target_pattern (Some (fst sd)) with
           | Ok results => (acc ++ results)%list
           | Raise _ => acc
           end)
      symbols_data [] in
  take_rows all_results (sort_values_desc (map similarity all_results)).

End Matcher.

End PatternMatcher.

(** ** [StockDataLoader] (src/data_loader.py)

    The loader once [load_all_data] has filled [symbols_data], the
    dict from symbol code to frame that [analyze_all_symbols] reads.
    The dict is the list of its items in insertion order. *)

Module StockDataLoader.

Record Loader : Type := mkLoader {
  symbols_data : list (string * PatternMatcher.Frame)
}.

(** [self.symbols_data.get(symbol_code)]. *)
Fixpoint dict_get (items : list (string * PatternMatcher.Frame)) (key : string)
  : option PatternMatcher.Frame :=
  match items with
  | [] => None
  | (k, v) :: t => if String.eqb k key then Some v else dict_get t key
  end.

Definition get_symbol_data (self : Loader) (symbol_code : string)
  : option PatternMatcher.Frame :=
  dict_get (symbols_data self) symbol_code.

(** [{symbol: df for symbol, df in ... if len(df) >= min_records}]. *)
Definition filter_by_min_records (self : Loader) (min_records : Z)
  : list (string * PatternMatcher.Frame) :=
  filter (fun item =>
            min_records <=? Z.of_nat (length (PatternMatcher.bars (snd item))))
         (symbols_data self).

(** [__len__]. *)
Definition len (self : Loader) : Z := Z.of_nat (length (symbols_data self)).

End StockDataLoader.

(** ** [print_statistics] (stock_pattern_matcher/visualizer.py)

    What the function writes to the standard output, line by line, and
    how it ends.  [format value spec] is Python's [format(value, spec)],
    the conversion an f-string applies to a field. *)

Module Visualizer.

(** The lines printed so far and the state of the call. *)
Definition Printed : Type := list string * Result unit.

(** [print(line)]. *)
Definition print (out : Printed) (line : string) : Printed :=
  match snd out with
  | Ok _ => ((fst out ++ [line])%list, Ok tt)
  | Raise _ => out
  end.

(** [stats[key]]: [KeyError] when the key is missing. *)
Definition getitem (stats : CandlePatternMatcher.PyDict) (key : string)
  : Result CandlePatternMatcher.PyValue :=
  match CandlePatternMatcher.dict_get stats key with
  | Some v => Ok v
  | None => Raise KeyError
  end.

(** [sep * n]. *)
Fixpoint repeat_string (sep : string) (n : nat) : string :=
  match n with
  | O => ""
  | S k => sep ++ repeat_string sep k
  end.

Section Printing.

Variable format : CandlePatternMatcher.PyValue -> string -> string.

(** [print(f"{label}{stats[key]:spec}{suffix}")]. *)
Definition print_field (stats : CandlePatternMatcher.PyDict)
  (label key spec suffix : string) (out : Printed) : Printed :=
  match snd out with
  | Ok _ =>
      match getitem stats key with
      | Ok v => print out (label ++ format v spec ++ suffix)
      | Raise e => (fst out, Raise e)
      end
  | Raise _ => out
  end.

(** An empty [stats] is false: the notice is printed and the call
    returns. *)
Definition print_statistics (stats : CandlePatternMatcher.PyDict) : Printed :=
  let out : Printed := ([], Ok tt) in
  match stats with
  | [] => print out "統計情報がありません"
  | _ =>
      let out := print out (repeat_string "=" 70) in
      let out := print out "類似パターン後のリターン統計分析" in
      let out := print out (repeat_string "=" 70) in
      let out := print_field stats "サンプル数:           " "count" "" "" out in
      let out := print_field stats "平均リターン:         " "mean_return" ".2f" "%" out in
      let out := print_field stats "中央値リターン:       " "median_return" ".2f" "%" out in
      let out := print_field stats "標準偏差:             " "std_return" ".2f" "%" out in
      let out := print_field stats "最大リターン:         " "max_return" ".2f" "%" out in
      let out := print_field stats "最小リターン:         " "min_return" ".2f" "%" out in
      let out := print_field stats "上昇確率:             " "positive_rate" ".1f" "%" out in
      let out := print out (repeat_string "-" 70) in
      let out := print_field stats "平均最高値リターン:   " "avg_max_return" ".2f" "%" out in
      let out := print_field stats "平均最低値リターン:   " "avg_min_return" ".2f" "%" out in
      let out := print out (repeat_string "=" 70) in
      out
  end.

End Printing.

End Visualizer.

(** ** [Config] (utils/config.py)

    The settings read from the YAML file, as the tree [yaml.safe_load]
    returns: a dict with string keys, or any other value, which
    [get] and [set] do not look into.  A tree has no dict that is
    reached under two keys: settings that share a dict (through a YAML
    alias, or after a [set] of a dict that a [get] returned) are not
    among the values of the model. *)

Module Settings.

#[warnings="-register-all"] Inductive Value : Type :=
| VNone
| VBool (b : bool)
| VInt (n : Z)
| VFloat (x : float)
| VStr (s : string)
| VList (l : list Value)
| VDict (items : list (string * Value)).

(** [key in d] and [d[key]] of a dict. *)
Fixpoint dict_get (items : list (string * Value)) (key : string) : option Value :=
  match items with
  | [] => None
  | (k, v) :: t => if String.eqb k key then Some v else dict_get t key
  end.

(** [d[key] = value]: the entry of an existing key is replaced where it
    stands, a new key is added at the end. *)
Fixpoint dict_set (items : list (string * Value)) (key : string) (value : Value)
  : list (string * Value) :=
  match items with
  | [] => [(key, value)]
  | (k, v) :: t =>
      if String.eqb k key then (k, value) :: t
      else (k, v) :: dict_set t key value
  end.

(** [key.split('.')]: the pieces between the dots, at least one. *)
Fixpoint split (key : string) : list string :=
  match key with
  | EmptyString => [""]
  | String c rest =>
      if String.eqb (String c "") "." then "" :: split rest
      else match split rest with
           | piece :: pieces => String c piece :: pieces
           | [] => [String c ""]
           end
  end.

(** The loop of [get]: [None] stands for the early [return default]. *)
Fixpoint walk (value : Value) (keys : list string) : option Value :=
  match keys with
  | [] => Some value
  | k :: rest =>
      match value with
      | VDict items =>
          match dict_get items k with
          | Some v => walk v rest
          | None => None
          end
      | _ => None
      end
  end.

Definition get (config : Value) (key : string) (default : Value) : Value :=
  match walk config (split key) with
  | Some value => value
  | None => default
  end.

(** How [set] ends: the tree after the assignment, or [TypeError] when
    the path runs into a value that is no dict (the membership test or
    the item assignment on it fails; nothing has been changed by
    then). *)
Inductive Assigned : Type :=
| Updated (config : Value)
| TypeError.

(** The loop of [set] over [keys[:-1]], then [config[keys[-1]] = value].
    The source assigns in place, in the dicts it walks through; the
    model returns the tree these assignments leave behind. *)
Fixpoint assign (config : Value) (keys : list string) (last : string) (value : Value)
  : Assigned :=
  match config with
  | VDict items =>
      match keys with
      | [] => Updated (VDict (dict_set items last value))
      | k :: rest =>
          let child := match dict_get items k with
                       | Some c => c
                       | None => VDict []
                       end in
          match assign child rest last value with
          | Updated child' => Updated (VDict (dict_set items k child'))
          | TypeError => TypeError
          end
      end
  | _ => TypeError
  end.

Definition set (config : Value) (key : string) (value : Value) : Assigned :=
  let keys := split key in
  assign config (removelast keys) (last keys "") value.

(** The properties with a default. *)
Definition debug_mode (config : Value) : Value :=
  get config "debug.mode" (VBool false).

Definition gpu_enabled (config : Value) : Value :=
  get config "gpu.enabled" (VBool false).

Definition github_owner (config : Value) : Value :=
  get config "github.owner" (VStr "").

Definition github_repo (config : Value) : Value :=
  get config "github.repo" (VStr "").

Definition window_size (config : Value) : Value :=
  get config "analysis.pattern_matching.window_size" (VInt 20).

Definition lookahead (config : Value) : Value :=
  get config "analysis.pattern_matching.lookahead" (VInt 10).

Definition top_n (config : Value) : Value :=
  get config "analysis.pattern_matching.top_n" (VInt 15).

Definition min_similarity (config : Value) : Value :=
  get config "analysis.pattern_matching.min_similarity" (VFloat 0.7).

End Settings.

(** ** Utilities (stock_pattern_matcher/utils.py) *)

Module Utils.

(** The exceptions of the conversions and of the division of Python
    numbers. *)
Inductive Exception : Type :=
| ValueError
| OverflowError
| ZeroDivisionError.

Inductive Outcome (A : Type) : Type :=
| Returns (a : A)
| Raises (e : Exception).

Arguments Returns {A} a.
Arguments Raises {A} e.

(** [int(x)] of a float: the integer part, towards zero; [nan] and
    the infinities have none. *)
Definition int_of_float (x : float) : Outcome Z :=
  match Prim2SF x with
  | S754_zero _ => Returns 0
  | S754_finite s m e =>
      let magnitude := if 0 <=? e then Zpos m * 2 ^ e else Zpos m / 2 ^ (- e) in
      Returns (if s then - magnitude else magnitude)
  | S754_infinity _ => Raises OverflowError
  | S754_nan => Raises ValueError
  end.

(** [float(n)] of an integer. *)
Definition float_of_Z (n : Z) : float :=
  if n <? 0 then (- float_of_nat (Z.to_nat (- n)))%float
  else float_of_nat (Z.to_nat n).

(** [split_train_test]: the rows before [split_index] and the rows
    from it on. *)
Definition split_train_test {A : Type} (df : list A) (train_ratio : float)
  : Outcome (list A * list A) :=
  match int_of_float (float_of_nat (length df) * train_ratio)%float with
  | Returns split_index =>
      let train_df := iloc_slice df 0 split_index in
      let test_df := iloc_slice df split_index (Z.of_nat (length df)) in
      Returns (train_df, test_df)
  | Raises e => Raises e
  end.

(** [calculate_sharpe_ratio]; [risk_free_rate / periods] divides two
    Python numbers and raises on a zero divisor. *)
Definition calculate_sharpe_ratio (returns : list float) (risk_free_rate : float)
  (periods : Z) : Outcome float :=
  if periods =? 0 then Raises ZeroDivisionError
  else
    let per_period := (risk_free_rate / float_of_Z periods)%float in
    let excess_returns := map (fun r => (r - per_period)%float) returns in
    if (series_std excess_returns =? 0)%float then Returns 0%float
    else
      Returns (PrimFloat.sqrt (float_of_Z periods) * series_mean excess_returns
               / series_std excess_returns)%float.

End Utils.

(** ** Reference implementations of the library functions

    Executable models of the library calls, after the libraries'
    documented formulas; the examples evaluate the matchers with them.
    The theorems hold for every implementation. *)

Module Reference.

(** [max(min(r, 1.0), -1.0)]. *)
Definition clip (r : float) : float :=
  let r := if (1 <? r)%float then 1%float else r in
  if (r <? -1)%float then (-1)%float else r.

Definition is_constant (l : list float) : bool :=
  match l with
  | [] => true
  | x :: t => forallb (fun y => (y =? x)%float) t
  end.

Definition centered (l : list float) : list float :=
  map (fun v => (v - np_mean l)%float) l.

Definition sum_of_products (a b : list float) : float :=
  np_sum (zip_with PrimFloat.mul a b).

(** [scipy.stats.pearsonr]: raises on unequal lengths and on fewer
    than two points, is [nan] on a constant input, and otherwise the
    product of the two centered and normalized vectors. *)
Definition pearsonr (x y : list float) : Result float :=
  if negb (Nat.eqb (length x) (length y)) then Raise ValueError
  else if (length x <? 2)%nat then Raise ValueError
  else if is_constant x || is_constant y then Ok PrimFloat.nan
  else
    let xm := centered x in
    let ym := centered y in
    let normxm := PrimFloat.sqrt (sum_of_products xm xm) in
    let normym := PrimFloat.sqrt (sum_of_products ym ym) in
    Ok (clip (sum_of_products (map (fun v => (v / normxm)%float) xm)
                              (map (fun v => (v / normym)%float) ym))).

(** [numpy.corrcoef]: the covariance over the two standard deviations. *)
Definition np_corrcoef (x y : list float) : Result float :=
  if negb (Nat.eqb (length x) (length y)) then Raise ValueError
  else
    let xm := centered x in
    let ym := centered y in
    let fact := float_of_nat (length x - 1) in
    let cov := (sum_of_products xm ym / fact)%float in
    let var_x := (sum_of_products xm xm / fact)%float in
    let var_y := (sum_of_products ym ym / fact)%float in
    Ok (clip (cov / PrimFloat.sqrt var_x / PrimFloat.sqrt var_y)%float).

Definition np_median (l : list float) : Result float :=
  if existsb PrimFloat.is_nan l then Ok PrimFloat.nan
  else
    let v := sort_asc l in
    let n := length v in
    match n with
    | O => Ok PrimFloat.nan
    | _ =>
        if Nat.odd n
        then Ok (np_mean (firstn 1 (skipn (Nat.div n 2) v)))
        else Ok (np_mean (firstn 2 (skipn (Nat.div n 2 - 1)%nat v)))
    end.

(** [numpy.percentile] with linear interpolation between the two
    closest ranks. *)
Definition np_percentile (l : list float) (q : Z) : Result float :=
  if existsb PrimFloat.is_nan l then Ok PrimFloat.nan
  else
    let v := sort_asc l in
    let n := length v in
    match n with
    | O => Ok PrimFloat.nan
    | _ =>
        let position := q * (Z.of_nat n - 1) in
        let below := Z.to_nat (position / 100) in
        let above := Nat.min (below + 1) (n - 1) in
        let t := (float_of_nat (Z.to_nat (position mod 100)) / 100)%float in
        let a := nth below v PrimFloat.nan in
        let b := nth above v PrimFloat.nan in
        if (t <? 0.5)%float
        then Ok (a + (b - a) * t)%float
        else Ok (b - (b - a) * (1 - t))%float
    end.

(** Decimal digits of a number, [width] of them. *)
Fixpoint digits (width : nat) (n : Z) : string :=
  match width with
  | O => ""
  | S w =>
      digits w (n / 10)
      ++ String (Ascii.ascii_of_nat (48 + Z.to_nat (n mod 10))) ""
  end.

(** ['%Y-%m-%d'] of a label counted in days since 1970-01-01. *)
Definition strftime (days : Z) : string :=
  let z := days + 719468 in
  let era := z / 146097 in
  let doe := z - era * 146097 in
  let yoe := (doe - doe / 1460 + doe / 36524 - doe / 146096) / 365 in
  let doy := doe - (365 * yoe + yoe / 4 - yoe / 100) in
  let mp := (5 * doy + 2) / 153 in
  let d := doy - (153 * mp + 2) / 5 + 1 in
  let m := if mp <? 10 then mp + 3 else mp - 9 in
  let y := yoe + era * 400 + (if m <=? 2 then 1 else 0) in
  digits 4 y ++ "-" ++ digits 2 m ++ "-" ++ digits 2 d.

(** Positions by descending key, missing keys last: an insertion sort
    that puts a row after the rows of equal key. *)
Fixpoint insert_key (kj : float * nat) (l : list (float * nat))
  : list (float * nat) :=
  match l with
  | [] => [kj]
  | kj' :: t =>
      if (fst kj' <? fst kj)%float
      then kj :: l
      else kj' :: insert_key kj t
  end.

Definition labelled (keys : list float) : list (float * nat) :=
  combine keys (seq 0 (length keys)).

Definition has_key (kj : float * nat) : bool :=
  negb (PrimFloat.is_nan (fst kj)).

Definition sort_values_desc (keys : list float) : list nat :=
  let present := filter has_key (labelled keys) in
  let missing := filter (fun kj => negb (has_key kj)) (labelled keys) in
  (map snd (fold_left (fun acc kj => insert_key kj acc) present [])
   ++ map snd missing)%list.

Definition libraries : Libraries :=
  Build_Libraries pearsonr sort_values_desc np_corrcoef np_median
                  np_percentile strftime.

End Reference.

(** * Example data *)

Module Examples.

(** A bar whose high and low lie one above and one below its close. *)
Definition bar (t : Z) (c : float) : Bar :=
  mkBar t c (c + 1)%float (c - 1)%float c 1000%float.

(** Ten daily bars. *)
Definition prices : DataFrame :=
  [ bar 0 100; bar 1 102; bar 2 101; bar 3 104; bar 4 103;
    bar 5 105; bar 6 110; bar 7 108; bar 8 111; bar 9 112 ].

(** A [PatternMatcher] with windows of three bars and one bar of
    lookahead, on the CPU. *)
Definition matcher : PatternMatcher.Config :=
  PatternMatcher.mkConfig 3 1 15 0%float "euclidean" false "minmax".

Definition priced : PatternMatcher.Frame :=
  PatternMatcher.mkFrame prices None.

(** A row of a returned frame on its own: a future return of 2.5
    percent, with extremes of 4 and -1 percent. *)
Definition lone_candidate : CandlePatternMatcher.Match :=
  CandlePatternMatcher.mkMatch 0 2 0.9%float 2.5%float 4%float (-1)%float
    CandlePatternMatcher.Missing CandlePatternMatcher.Missing.

(** Four bars that close at 0, between a high of 1 and a low of -1. *)
Definition zero_frame : DataFrame :=
  [ bar 0 0; bar 1 0; bar 2 0; bar 3 0 ].

(** The pattern [analyze_all_symbols] takes from [prices]: its last
    three rows. *)
Definition last_pattern : PatternMatcher.Pattern :=
  PatternMatcher.ohlc_values (iloc_slice prices (-3) 10).

End Examples.

(** * More example data *)

Module Portfolio.

Import Examples.

(** A frame of four bars: too short for a window of three bars and a
    lookahead of two. *)
Definition short_frame : PatternMatcher.Frame :=
  PatternMatcher.mkFrame [ bar 0 50; bar 1 51; bar 2 52; bar 3 53 ] None.

(** Two symbols, the second one with too few bars. *)
Definition symbols : list (string * PatternMatcher.Frame) :=
  [ ("7203", priced); ("6758", short_frame) ].

Definition loader : StockDataLoader.Loader :=
  StockDataLoader.mkLoader symbols.

(** Windows of three bars and two bars of lookahead. *)
Definition analyst : PatternMatcher.Config :=
  PatternMatcher.mkConfig 3 2 15 0%float "euclidean" false "minmax".

End Portfolio.

(** * Formatting in the examples *)

Module Plain.

(** A formatter that writes the format specification, in braces, in
    place of the value. *)
Definition format (v : CandlePatternMatcher.PyValue) (spec : string) : string :=
  "{" ++ spec ++ "}".

End Plain.

(** * The vocabulary of the properties *)

(** ** Loops that append *)

(** The entry of one turn of a loop, as a list. *)
Definition entries_of {R : Type} (entry : option R) : list R :=
  match entry with
  | Some r => [r]
  | None => []
  end.

(** All the entries a loop produces over [l], in order. *)
Fixpoint collect {A R : Type} (entry : A -> Result (option R)) (l : list A)
  : Result (list R) :=
  match l with
  | [] => Ok []
  | x :: t =>
      o <- entry x ;;
      rs <- collect entry t ;;
      Ok (entries_of o ++ rs)%list
  end.

(** ** The order of floats *)

(** The position of a float on the line, as a triple compared
    lexicographically: the class by sign, and for a finite non-zero
    float the exponent and the mantissa, negated below zero. *)
Definition rank (x : spec_float) : Z * Z * Z :=
  match x with
  | S754_zero _ => (0, 0, 0)
  | S754_infinity true => (-2, 0, 0)
  | S754_infinity false => (2, 0, 0)
  | S754_nan => (0, 0, 0)
  | S754_finite false m e => (1, e, Zpos m)
  | S754_finite true m e => (-1, - e, Zneg m)
  end.

Definition key_le (p q : Z * Z * Z) : Prop :=
  fst (fst p) < fst (fst q)
  \/ (fst (fst p) = fst (fst q)
      /\ (snd (fst p) < snd (fst q)
          \/ (snd (fst p) = snd (fst q) /\ snd p <= snd q))).

Definition is_number (x : spec_float) : Prop := x <> S754_nan.

Definition fkey (x : float) : Z * Z * Z := rank (Prim2SF x).

(** The mantissa of 1.0. *)
Definition two52 : positive := 4503599627370496.

(** ** Candidates and entries *)

(** What it takes for the loop to record [r] at end index [i]. *)
Definition recorded_at {L : Libraries} (df : DataFrame)
  (target_end_index window_size lookahead : Z)
  (min_similarity : float) (method normalize_method : string)
  (target_norm : NormFrame) (i : Z) (r : CandlePatternMatcher.Match) : Prop :=
  let comp_window := iloc_slice df (i - window_size + 1) (i + 1) in
  let future_data :=
    iloc_slice df (i + 1) (Z.min (i + lookahead + 1) (Z.of_nat (length df))) in
  window_size <= Z.abs (i - target_end_index) /\
  Z.of_nat (length future_data) = lookahead /\
  exists comp_norm,
    CandlePatternMatcher.normalize normalize_method comp_window = Ok comp_norm /\
    (min_similarity
     <=? CandlePatternMatcher.calculate_pattern_similarity
           target_norm comp_norm method None)%float = true /\
    CandlePatternMatcher.candidate comp_window future_data
      (CandlePatternMatcher.calculate_pattern_similarity
         target_norm comp_norm method None) = Ok r.

(** Where the dates of a candidate place it: they are the labels of
    the first and of the last row of the window of [window_size] rows
    that ends at row [i] of the frame. *)
Definition ends_at (df : DataFrame) (window_size i : Z)
  (r : CandlePatternMatcher.Match) : Prop :=
  let comp_window := iloc_slice df (i - window_size + 1) (i + 1) in
  iloc_first (map timestamp comp_window) = Ok (CandlePatternMatcher.start_date r)
  /\ iloc_last (map timestamp comp_window) = Ok (CandlePatternMatcher.end_date r).

(** The future return the loop stores with an entry. *)
Definition future_return_at (self : PatternMatcher.Config) (df : DataFrame)
  (i : Z) (future_return : option float) : Prop :=
  let future_data :=
    iloc_slice df (i + PatternMatcher.window_size self)
               (i + PatternMatcher.window_size self + PatternMatcher.lookahead self) in
  (future_data = [] /\ future_return = None)
  \/ (exists bar end_price,
        PatternMatcher.iloc_at df (i + PatternMatcher.window_size self - 1) = Ok bar /\
        iloc_last (map close future_data) = Ok end_price /\
        future_return = Some ((end_price - close bar) / close bar)%float).

(** The order of the sorted list of entries: a greater similarity
    first, and of two equal similarities the smaller start index
    first. *)
Definition ranks_before (a b : PatternMatcher.Match) : Prop :=
  (PatternMatcher.similarity b <=? PatternMatcher.similarity a)%float = true
  /\ ((PatternMatcher.similarity a <=? PatternMatcher.similarity b)%float = true ->
      PatternMatcher.match_index a < PatternMatcher.match_index b).

(** An entry whose similarity is a number. *)
Definition has_score (r : PatternMatcher.Match) : Prop :=
  PrimFloat.is_nan (PatternMatcher.similarity r) = false.

(** ** Statistics *)

(** A value of the statistics that is no [nan] and no infinity. *)
Definition finite_value (v : CandlePatternMatcher.PyValue) : Prop :=
  match v with
  | CandlePatternMatcher.PyInt _ => True
  | CandlePatternMatcher.PyFloat x => PrimFloat.is_finite x = true
  end.

(** ** The contract of [sort_values] *)

(** What pandas promises of [sort_values(col, ascending=False)]
    whatever the [kind]: the rows come back, each once, and where no
    key is missing the keys never increase.  The default [kind] is
    ['quicksort'], which pandas documents as not stable (numpy's
    quicksort leaves equal keys in place only on runs short enough for
    its insertion sort), so nothing is promised about rows of equal
    key. *)
Definition sort_is_permutation (L : Libraries) : Prop :=
  forall keys : list float,
    Permutation (sort_values_desc keys) (seq 0 (length keys)).

Definition sort_is_descending (L : Libraries) : Prop :=
  forall keys : list float,
    Forall (fun k => PrimFloat.is_nan k = false) keys ->
    StronglySorted
      (fun j1 j2 =>
         (nth j2 keys PrimFloat.nan <=? nth j1 keys PrimFloat.nan)%float = true)
      (sort_values_desc keys).

(** Pairs of a key and a label, in descending order of key. *)
Definition key_desc (a b : float * nat) : Prop :=
  (fst b <=? fst a)%float = true.

(** ** The analysis of all symbols *)

(** What one symbol adds to [all_results]: nothing when its frame is
    shorter than a window and its lookahead or when its search raises,
    else the entries of the search for its own last window. *)
Definition symbol_results {L : Libraries} (self : PatternMatcher.Config)
  (sd : string * PatternMatcher.Frame) : list PatternMatcher.Match :=
  let df := snd sd in
  let n := Z.of_nat (length (PatternMatcher.bars df)) in
  if n <? PatternMatcher.window_size self + PatternMatcher.lookahead self then []
  else
    match PatternMatcher.find_similar_patterns self df
            (PatternMatcher.ohlc_values
               (iloc_slice (PatternMatcher.bars df)
                  (- PatternMatcher.window_size self) n))
            (Some (fst sd)) with
    | Ok results => results
    | Raise _ => []
    end.

(** Entries in descending order of similarity. *)
Definition by_similarity (a b : PatternMatcher.Match) : Prop :=
  (PatternMatcher.similarity b <=? PatternMatcher.similarity a)%float = true.

(** * Properties *)

(** ** Loops that append *)

Lemma append_entry_app {R : Type} (results : list R) (entry : option R) :
  append_entry results entry = (results ++ entries_of entry)%list.
Proof.
  destruct entry; simpl; [reflexivity | now rewrite app_nil_r].
Qed.

Lemma for_each_collect {A R : Type} (entry : A -> Result (option R)) :
  forall (l : list A) (s : list R),
    for_each l s (fun results x => o <- entry x ;; Ok (append_entry results o))
    = (rs <- collect entry l ;; Ok (s ++ rs)%list).
Proof.
  induction l as [|x t IH]; intros s; simpl.
  - now rewrite app_nil_r.
  - destruct (entry x) as [o|e]; simpl; [|reflexivity].
    rewrite IH, append_entry_app.
    destruct (collect entry t) as [rs|e]; simpl; [|reflexivity].
    now rewrite app_assoc.
Qed.

Lemma collect_In {A R : Type} (entry : A -> Result (option R)) :
  forall (l : list A) (rs : list R) (r : R),
    collect entry l = Ok rs -> In r rs ->
    exists x, In x l /\ entry x = Ok (Some r).
Proof.
  induction l as [|x t IH]; simpl; intros rs r Hc Hin.
  - inversion Hc; subst. contradiction.
  - destruct (entry x) as [o|e] eqn:Ex; simpl in Hc; [|discriminate].
    destruct (collect entry t) as [rs'|e] eqn:Et; simpl in Hc; [|discriminate].
    inversion Hc; subst; clear Hc.
    apply in_app_or in Hin. destruct Hin as [Hin|Hin].
    + destruct o as [r'|]; simpl in Hin; [|contradiction].
      destruct Hin as [->|[]]. exists x. auto.
    + destruct (IH rs' r eq_refl Hin) as (y & Hy & Ey).
      exists y. auto.
Qed.


(** Entries that remember the loop variable come out in its order. *)
Lemma collect_sorted {A R : Type} (entry : A -> Result (option R))
  (key : R -> A) (lt : A -> A -> Prop) :
  (forall x r, entry x = Ok (Some r) -> key r = x) ->
  forall (l : list A) (rs : list R),
    StronglySorted lt l ->
    collect entry l = Ok rs ->
    StronglySorted (fun a b => lt (key a) (key b)) rs.
Proof.
  intros Hkey. induction l as [|x t IH]; simpl; intros rs Hs Hc.
  - inversion Hc; subst. constructor.
  - destruct (entry x) as [o|e] eqn:Ex; simpl in Hc; [|discriminate].
    destruct (collect entry t) as [rs'|e] eqn:Et; simpl in Hc; [|discriminate].
    inversion Hc; subst; clear Hc.
    inversion Hs as [|? ? Hst Hall]; subst.
    specialize (IH rs' Hst eq_refl).
    destruct o as [r|]; simpl; [|exact IH].
    constructor; [exact IH|].
    apply Forall_forall. intros r' Hin.
    destruct (collect_In entry t rs' r' Et Hin) as (y & Hy & Ey).
    rewrite (Hkey x r Ex), (Hkey y r' Ey).
    rewrite Forall_forall in Hall. now apply Hall.
Qed.

(** ** Ranges and slices *)

Lemma py_range_In (lo hi i : Z) : In i (py_range lo hi) <-> lo <= i < hi.
Proof.
  unfold py_range. rewrite in_map_iff. split.
  - intros (k & <- & Hk). apply in_seq in Hk. lia.
  - intros H. exists (Z.to_nat (i - lo)). split; [lia|].
    apply in_seq. lia.
Qed.

Lemma py_range_sorted (lo hi : Z) : StronglySorted Z.lt (py_range lo hi).
Proof.
  unfold py_range. generalize (Z.to_nat (hi - lo)) as n. generalize 0%nat as k.
  intros k n. revert k. induction n as [|n IH]; intros k; simpl.
  - constructor.
  - constructor; [apply IH|].
    apply Forall_forall. intros z Hz. apply in_map_iff in Hz.
    destruct Hz as (j & <- & Hj). apply in_seq in Hj. lia.
Qed.

Lemma slice_bound_range (n k : Z) : 0 <= n -> 0 <= slice_bound n k <= n.
Proof.
  unfold slice_bound. destruct (k <? 0) eqn:E; lia.
Qed.

Lemma iloc_slice_length {A : Type} (l : list A) (a b : Z) :
  Z.of_nat (length (iloc_slice l a b))
  = Z.max 0 (slice_bound (Z.of_nat (length l)) b
             - slice_bound (Z.of_nat (length l)) a).
Proof.
  unfold iloc_slice.
  pose proof (slice_bound_range (Z.of_nat (length l)) a ltac:(lia)).
  pose proof (slice_bound_range (Z.of_nat (length l)) b ltac:(lia)).
  rewrite length_firstn, length_skipn. lia.
Qed.

Lemma firstn_In {A : Type} (n : nat) (l : list A) (x : A) :
  In x (firstn n l) -> In x l.
Proof.
  intros H. rewrite <- (firstn_skipn n l). apply in_or_app. now left.
Qed.

Lemma skipn_In {A : Type} (n : nat) (l : list A) (x : A) :
  In x (skipn n l) -> In x l.
Proof.
  intros H. rewrite <- (firstn_skipn n l). apply in_or_app. now right.
Qed.

Lemma iloc_slice_In {A : Type} (l : list A) (a b : Z) (x : A) :
  In x (iloc_slice l a b) -> In x l.
Proof.
  unfold iloc_slice. intros H.
  eapply skipn_In, firstn_In, H.
Qed.

Lemma head_length {A : Type} (n : Z) (l : list A) :
  Z.of_nat (length (head n l))
  = if n <? 0 then Z.max 0 (Z.of_nat (length l) + n)
    else Z.min n (Z.of_nat (length l)).
Proof.
  unfold head. rewrite iloc_slice_length. unfold slice_bound.
  change (0 <? 0) with false. cbv iota.
  destruct (n <? 0) eqn:E; lia.
Qed.

Lemma head_firstn {A : Type} (n : Z) (l : list A) :
  exists k, head n l = firstn k l.
Proof.
  unfold head, iloc_slice.
  assert (E : slice_bound (Z.of_nat (length l)) 0 = 0).
  { unfold slice_bound. change (0 <? 0) with false. cbv iota. lia. }
  rewrite E. eexists. reflexivity.
Qed.
(** ** The order of floats *)




Lemma SFcompare_finite_cases (e1 e2 : Z) (m1 m2 : positive) :
  match e1 ?= e2 with
  | Lt => Lt
  | Gt => Gt
  | Eq => Pos.compare_cont Eq m1 m2
  end
  = match e1 ?= e2 with
    | Lt => Lt
    | Gt => Gt
    | Eq => (Zpos m1 ?= Zpos m2)
    end.
Proof. reflexivity. Qed.

Lemma SFleb_rank (x y : spec_float) :
  is_number x -> is_number y ->
  (SFleb x y = true <-> key_le (rank x) (rank y)).
Proof.
  unfold is_number, SFleb, SFcompare, key_le.
  destruct x as [sx|sx| |sx mx ex], y as [sy|sy| |sy my ey]; intros Hx Hy;
    try congruence;
    try destruct sx; try destruct sy; simpl;
    try (split; [intros _; lia | intros _; reflexivity]);
    try (split; [discriminate | intros H; lia]).
  - change (Pos.compare_cont Eq mx my) with (Z.pos mx ?= Z.pos my).
    destruct (Z.compare_spec ex ey) as [E|E|E];
      destruct (Z.compare_spec (Z.pos mx) (Z.pos my)) as [F|F|F]; simpl;
      split; try discriminate; try reflexivity; intros; lia.
  - change (Pos.compare_cont Eq mx my) with (Z.pos mx ?= Z.pos my).
    destruct (Z.compare_spec ex ey) as [E|E|E];
      destruct (Z.compare_spec (Z.pos mx) (Z.pos my)) as [F|F|F]; simpl;
      split; try discriminate; try reflexivity; intros; lia.
Qed.

Lemma SFltb_rank (x y : spec_float) :
  is_number x -> is_number y ->
  (SFltb x y = true <-> ~ key_le (rank y) (rank x)).
Proof.
  unfold is_number, SFltb, SFcompare, key_le.
  destruct x as [sx|sx| |sx mx ex], y as [sy|sy| |sy my ey]; intros Hx Hy;
    try congruence;
    try destruct sx; try destruct sy; simpl;
    try (split; [intros _; lia | intros _; reflexivity]);
    try (split; [discriminate | intros H; lia]).
  - change (Pos.compare_cont Eq mx my) with (Z.pos mx ?= Z.pos my).
    destruct (Z.compare_spec ex ey) as [E|E|E];
      destruct (Z.compare_spec (Z.pos mx) (Z.pos my)) as [F|F|F]; simpl;
      split; try discriminate; try reflexivity; intros; lia.
  - change (Pos.compare_cont Eq mx my) with (Z.pos mx ?= Z.pos my).
    destruct (Z.compare_spec ex ey) as [E|E|E];
      destruct (Z.compare_spec (Z.pos mx) (Z.pos my)) as [F|F|F]; simpl;
      split; try discriminate; try reflexivity; intros; lia.
Qed.

Lemma SFeqb_refl (p : spec_float) : is_number p -> SFeqb p p = true.
Proof.
  unfold is_number, SFeqb, SFcompare. destruct p as [s|s| |s m e]; intros H;
    try congruence; try (destruct s; reflexivity).
  destruct s; rewrite Z.compare_refl, Pos.compare_cont_refl; reflexivity.
Qed.

Lemma is_nan_number (x : float) :
  PrimFloat.is_nan x = false <-> is_number (Prim2SF x).
Proof.
  unfold PrimFloat.is_nan. rewrite FloatAxioms.eqb_spec. split.
  - intros H E. unfold is_number in *. rewrite E in H. discriminate.
  - intros H. now rewrite SFeqb_refl.
Qed.

Lemma SFleb_number (p q : spec_float) :
  SFleb p q = true -> is_number p /\ is_number q.
Proof.
  unfold is_number, SFleb, SFltb, SFcompare.
  destruct p, q; intros H; split; (discriminate || congruence).
Qed.

Lemma SFltb_number (p q : spec_float) :
  SFltb p q = true -> is_number p /\ is_number q.
Proof.
  unfold is_number, SFleb, SFltb, SFcompare.
  destruct p, q; intros H; split; (discriminate || congruence).
Qed.

Lemma leb_key (x y : float) :
  (x <=? y)%float = true <->
  PrimFloat.is_nan x = false /\ PrimFloat.is_nan y = false
  /\ key_le (fkey x) (fkey y).
Proof.
  rewrite FloatAxioms.leb_spec, !is_nan_number. unfold fkey. split.
  - intros H. destruct (SFleb_number _ _ H) as [Hx Hy].
    repeat split; trivial. now apply SFleb_rank.
  - intros (Hx & Hy & H). now apply SFleb_rank.
Qed.

Lemma ltb_key (x y : float) :
  (x <? y)%float = true <->
  PrimFloat.is_nan x = false /\ PrimFloat.is_nan y = false
  /\ ~ key_le (fkey y) (fkey x).
Proof.
  rewrite FloatAxioms.ltb_spec, !is_nan_number. unfold fkey. split.
  - intros H. destruct (SFltb_number _ _ H) as [Hx Hy].
    repeat split; trivial. now apply SFltb_rank.
  - intros (Hx & Hy & H). now apply SFltb_rank.
Qed.

Lemma leb_trans (x y z : float) :
  (x <=? y)%float = true -> (y <=? z)%float = true -> (x <=? z)%float = true.
Proof.
  rewrite !leb_key. unfold key_le. intros (Hx & Hy & H1) (_ & Hz & H2).
  repeat split; trivial. lia.
Qed.

Lemma leb_refl (x : float) :
  PrimFloat.is_nan x = false -> (x <=? x)%float = true.
Proof.
  intros H. apply leb_key. unfold key_le. repeat split; trivial. lia.
Qed.

(** Two numbers compare one way or the other. *)
Lemma ltb_false_leb (x y : float) :
  PrimFloat.is_nan x = false -> PrimFloat.is_nan y = false ->
  (x <? y)%float = false -> (y <=? x)%float = true.
Proof.
  intros Hx Hy H. apply leb_key. repeat split; trivial.
  destruct (PrimFloat.ltb x y) eqn:E; [discriminate|].
  assert (N : ~ ~ key_le (fkey y) (fkey x)).
  { intros C. assert (T : (x <? y)%float = true) by (apply ltb_key; auto).
    congruence. }
  unfold key_le in *. lia.
Qed.

Lemma ltb_leb (x y : float) :
  (x <? y)%float = true -> (x <=? y)%float = true.
Proof.
  rewrite ltb_key, leb_key. unfold key_le. intros (Hx & Hy & H).
  repeat split; trivial. lia.
Qed.

Lemma ltb_leb_trans (x y z : float) :
  (x <? y)%float = true -> (y <=? z)%float = true -> (x <? z)%float = true.
Proof.
  rewrite !ltb_key, leb_key. unfold key_le. intros (Hx & Hy & H1) (_ & Hz & H2).
  repeat split; trivial. lia.
Qed.

Lemma leb_ltb_trans (x y z : float) :
  (x <=? y)%float = true -> (y <? z)%float = true -> (x <? z)%float = true.
Proof.
  rewrite !ltb_key, leb_key. unfold key_le. intros (Hx & Hy & H1) (_ & Hz & H2).
  repeat split; trivial. lia.
Qed.

Lemma ltb_irrefl (x : float) : (x <? x)%float = false.
Proof.
  destruct (PrimFloat.ltb x x) eqn:E; [|reflexivity].
  apply ltb_key in E. destruct E as (_ & _ & H). exfalso. apply H.
  unfold key_le. lia.
Qed.

(** ** [CandlePatternMatcher]: what the search returns *)

Module CandleFacts.

Import CandlePatternMatcher.

Section Facts.

Context {L : Libraries}.

(** A row of the frame is the row of an entry of [results]. *)
Lemma attach_In (results : list Match) :
  forall (labels : list nat) (rows : list Match) (r : Match),
    attach results labels = Ok rows -> In r rows ->
    exists entry, In entry results /\ r = frame_row entry.
Proof.
  induction labels as [|j t IH]; simpl; intros rows r Ha Hin.
  - inversion Ha; subst. contradiction.
  - destruct (nth_error results j) as [r0|] eqn:Ej; [|discriminate].
    destruct (attach results t) as [rest|e] eqn:Et; simpl in Ha; [|discriminate].
    inversion Ha; subst; clear Ha.
    destruct Hin as [<-|Hin].
    + exists r0. split; [eapply nth_error_In, Ej|reflexivity].
    + eapply IH; eauto.
Qed.

Lemma attach_length (results : list Match) :
  forall (labels : list nat) (rows : list Match),
    attach results labels = Ok rows -> length rows = length labels.
Proof.
  induction labels as [|j t IH]; simpl; intros rows Ha.
  - now inversion Ha.
  - destruct (nth_error results j) as [r0|]; [|discriminate].
    destruct (attach results t) as [rest|e]; simpl in Ha; [|discriminate].
    inversion Ha; subst. simpl. f_equal. now apply IH.
Qed.

Lemma attach_map (results : list Match) :
  forall (labels : list nat) (rows : list Match),
    attach results labels = Ok rows ->
    map (fun r => Some r) rows
    = map (fun j => option_map frame_row (nth_error results j)) labels.
Proof.
  induction labels as [|j t IH]; simpl; intros rows Ha.
  - now inversion Ha.
  - destruct (nth_error results j) as [r0|]; [|discriminate].
    destruct (attach results t) as [rest|e]; simpl in Ha; [|discriminate].
    inversion Ha; subst. simpl. f_equal. now apply IH.
Qed.


(** The record of a candidate, field by field. *)
Lemma candidate_fields (comp_window future_data : DataFrame) (s : float) (r : Match) :
  candidate comp_window future_data s = Ok r ->
  exists start_price end_price,
    iloc_last (map close comp_window) = Ok start_price /\
    iloc_last (map close future_data) = Ok end_price /\
    iloc_first (map timestamp comp_window) = Ok (start_date r) /\
    iloc_last (map timestamp comp_window) = Ok (end_date r) /\
    similarity r = s /\
    future_return_pct r = ((end_price - start_price) / start_price * 100)%float /\
    max_return_pct r
    = ((series_max (map high future_data) - start_price) / start_price * 100)%float /\
    min_return_pct r
    = ((series_min (map low future_data) - start_price) / start_price * 100)%float /\
    pattern_data r = Window comp_window /\
    CandlePatternMatcher.future_data r = Window future_data.
Proof.
  unfold candidate. intros H.
  destruct (iloc_last (map close comp_window)) as [sp|e]; simpl in H; [|discriminate].
  destruct (iloc_last (map close future_data)) as [ep|e]; simpl in H; [|discriminate].
  destruct (iloc_first (map timestamp comp_window)) as [fl|e]; simpl in H; [|discriminate].
  destruct (iloc_last (map timestamp comp_window)) as [ll|e]; simpl in H; [|discriminate].
  inversion H; subst; clear H. exists sp, ep. simpl. repeat split; reflexivity.
Qed.


Lemma scan_entry_recorded (df : DataFrame) (tei ws la : Z) (m : float)
  (method nm : string) (tn : NormFrame) (i : Z) (r : Match) :
  scan_entry df tei ws la m method nm tn i = Ok (Some r) ->
  recorded_at df tei ws la m method nm tn i r.
Proof.
  unfold scan_entry, recorded_at. intros H.
  destruct (Z.abs (i - tei) <? ws) eqn:Eo; [discriminate|].
  apply Z.ltb_ge in Eo. split; [exact Eo|].
  destruct (normalize nm (iloc_slice df (i - ws + 1) (i + 1))) as [cn|e]; simpl in H;
    [|discriminate].
  destruct (m <=? calculate_pattern_similarity tn cn method None)%float eqn:Es;
    [|discriminate].
  destruct (Z.of_nat (length (iloc_slice df (i + 1)
              (Z.min (i + la + 1) (Z.of_nat (length df))))) =? la) eqn:El;
    [|discriminate].
  apply Z.eqb_eq in El. split; [exact El|].
  exists cn. repeat split; trivial.
  destruct (candidate _ _ _) as [r'|e]; simpl in H; [|discriminate].
  now inversion H.
Qed.

(** The search with its loop read as the list of its entries. *)
Lemma find_similar_patterns_unfold (df : DataFrame) (tei ws la top_n : Z)
  (m : float) (method nm : string) (excl : Z) :
  find_similar_patterns df tei ws la top_n m method nm excl
  = let tei' := resolve_end_index df tei in
    let tw := iloc_slice df (Z.max 0 (tei' - ws + 1)) (tei' + 1) in
    if Z.of_nat (length tw) <? ws then Raise ValueError
    else
      tn <- normalize nm tw ;;
      results <- collect (scan_entry df tei' ws la m method nm tn)
                   (py_range (ws - 1) (Z.of_nat (length df) - la - excl)) ;;
      rows <- results_frame results top_n ;;
      Ok (rows, tw).
Proof.
  unfold find_similar_patterns. cbv zeta.
  destruct (_ <? ws); [reflexivity|].
  destruct (normalize nm _) as [tn|e]; simpl; [|reflexivity].
  unfold scan_step. rewrite for_each_collect.
  destruct (collect _ _) as [results|e]; simpl; reflexivity.
Qed.

(** The search unfolded: the target window, the recorded candidates
    and the rows cut from them. *)
Lemma find_similar_patterns_inv (df : DataFrame) (tei ws la top_n : Z)
  (m : float) (method nm : string) (excl : Z)
  (rows : list Match) (tw : DataFrame) :
  find_similar_patterns df tei ws la top_n m method nm excl = Ok (rows, tw) ->
  exists tn results,
    tw = iloc_slice df (Z.max 0 (resolve_end_index df tei - ws + 1))
           (resolve_end_index df tei + 1) /\
    ws <= Z.of_nat (length tw) /\
    normalize nm tw = Ok tn /\
    collect (scan_entry df (resolve_end_index df tei) ws la m method nm tn)
      (py_range (ws - 1) (Z.of_nat (length df) - la - excl)) = Ok results /\
    results_frame results top_n = Ok rows.
Proof.
  rewrite find_similar_patterns_unfold. cbv zeta. intros H.
  set (tei' := resolve_end_index df tei) in *.
  set (tw0 := iloc_slice df (Z.max 0 (tei' - ws + 1)) (tei' + 1)) in *.
  destruct (Z.of_nat (length tw0) <? ws) eqn:El; [discriminate|].
  apply Z.ltb_ge in El.
  destruct (normalize nm tw0) as [tn|e] eqn:En; simpl in H; [|discriminate].
  destruct (collect _ _) as [results|e] eqn:Ec; simpl in H; [|discriminate].
  exists tn, results.
  destruct (results_frame results top_n) as [rows'|e] eqn:Er;
    simpl in H; [|discriminate].
  inversion H; subst. repeat split; trivial.
Qed.

(** Every returned row is the row of an entry the loop appended at
    some end index of the scan. *)
Lemma returned_scanned (df : DataFrame) (tei ws la top_n : Z)
  (m : float) (method nm : string) (excl : Z)
  (rows : list Match) (tw : DataFrame) (r : Match) :
  find_similar_patterns df tei ws la top_n m method nm excl = Ok (rows, tw) ->
  In r rows ->
  exists tn i entry,
    normalize nm tw = Ok tn /\
    ws - 1 <= i < Z.of_nat (length df) - la - excl /\
    scan_entry df (resolve_end_index df tei) ws la m method nm tn i = Ok (Some entry) /\
    r = frame_row entry.
Proof.
  intros H Hin.
  destruct (find_similar_patterns_inv _ _ _ _ _ _ _ _ _ _ _ H)
    as (tn & results & Htw & Hlen & Hn & Hc & Hr).
  assert (Hres : exists entry, In entry results /\ r = frame_row entry).
  { unfold results_frame in Hr.
    destruct results as [|r0 rest]; [inversion Hr; subst; contradiction|].
    eapply attach_In; eauto. }
  destruct Hres as (entry & Hres & ->).
  destruct (collect_In _ _ _ _ Hc Hres) as (i & Hi & Ei).
  exists tn, i, entry. split; [exact Hn|]. split; [now apply py_range_In|].
  split; [exact Ei|reflexivity].
Qed.

(** The same, with what it takes to append the entry. *)
Lemma returned_recorded (df : DataFrame) (tei ws la top_n : Z)
  (m : float) (method nm : string) (excl : Z)
  (rows : list Match) (tw : DataFrame) (r : Match) :
  find_similar_patterns df tei ws la top_n m method nm excl = Ok (rows, tw) ->
  In r rows ->
  exists tn i entry,
    normalize nm tw = Ok tn /\
    ws - 1 <= i < Z.of_nat (length df) - la - excl /\
    recorded_at df (resolve_end_index df tei) ws la m method nm tn i entry /\
    r = frame_row entry.
Proof.
  intros H Hin.
  destruct (returned_scanned _ _ _ _ _ _ _ _ _ _ _ _ H Hin)
    as (tn & i & entry & Hn & Hi & Ei & Hr).
  exists tn, i, entry. split; [exact Hn|]. split; [exact Hi|].
  split; [now apply scan_entry_recorded|exact Hr].
Qed.

(** With a target index inside the frame, a search that returns has
    read [window_size] rows ending at the target. *)
Lemma returned_target_window (df : DataFrame) (tei ws la top_n : Z) (m : float)
  (method nm : string) (excl : Z)
  (rows : list Match) (tw : DataFrame) :
  0 <= ws ->
  0 <= resolve_end_index df tei ->
  find_similar_patterns df tei ws la top_n m method nm excl = Ok (rows, tw) ->
  let e := resolve_end_index df tei in
  tw = iloc_slice df (e - ws + 1) (e + 1)
  /\ Z.of_nat (length tw) = ws
  /\ (0 < ws -> e < Z.of_nat (length df)).
Proof.
  intros Hws He H e.
  destruct (find_similar_patterns_inv _ _ _ _ _ _ _ _ _ _ _ H)
    as (tn & results & Htw & Hlen & _).
  fold e in Htw, He. rewrite Htw in Hlen. rewrite iloc_slice_length in Hlen.
  unfold slice_bound in Hlen.
  assert (Hs : Z.max 0 (e - ws + 1) = e - ws + 1).
  { destruct (e + 1 <? 0) eqn:E1; destruct (Z.max 0 (e - ws + 1) <? 0) eqn:E2; lia. }
  rewrite Hs in Htw, Hlen. split; [exact Htw|].
  rewrite Htw, iloc_slice_length. unfold slice_bound.
  destruct (e + 1 <? 0) eqn:E1; destruct (e - ws + 1 <? 0) eqn:E2; lia.
Qed.


(** A recorded candidate lies inside the frame: its window has
    [window_size] rows, and [lookahead] rows follow it. *)
Lemma recorded_inside (df : DataFrame) (e ws la excl : Z) (m : float)
  (method nm : string) (tn : NormFrame) (i : Z) (r : Match) :
  0 <= ws -> 0 <= excl ->
  ws - 1 <= i < Z.of_nat (length df) - la - excl ->
  recorded_at df e ws la m method nm tn i r ->
  0 <= la
  /\ i + la + excl < Z.of_nat (length df)
  /\ Z.of_nat (length (iloc_slice df (i - ws + 1) (i + 1))) = ws
  /\ Z.of_nat (length (iloc_slice df (i + 1) (i + la + 1))) = la
  /\ pattern_data r = Window (iloc_slice df (i - ws + 1) (i + 1))
  /\ CandlePatternMatcher.future_data r = Window (iloc_slice df (i + 1) (i + la + 1)).
Proof.
  intros Hws Hex Hi (Hfar & Hlen & cn & _ & _ & Hc).
  destruct (candidate_fields _ _ _ _ Hc)
    as (sp & ep & _ & _ & _ & _ & _ & _ & _ & _ & Hpd & Hfd).
  assert (Hla : 0 <= la) by lia.
  assert (Hmin : Z.min (i + la + 1) (Z.of_nat (length df)) = i + la + 1) by lia.
  rewrite Hmin in Hlen, Hfd.
  split; [exact Hla|]. split; [lia|]. split; [|auto].
  rewrite iloc_slice_length. unfold slice_bound.
  destruct (i + 1 <? 0) eqn:E1; destruct (i - ws + 1 <? 0) eqn:E2; lia.
Qed.

(** The dates and the returns of a recorded candidate, read off the
    frame. *)
Lemma recorded_columns (df : DataFrame) (e ws la : Z) (m : float)
  (method nm : string) (tn : NormFrame) (i : Z) (r : Match) :
  recorded_at df e ws la m method nm tn i r ->
  let comp_window := iloc_slice df (i - ws + 1) (i + 1) in
  let future := iloc_slice df (i + 1) (Z.min (i + la + 1) (Z.of_nat (length df))) in
  ends_at df ws i r
  /\ exists start_price end_price,
       iloc_last (map close comp_window) = Ok start_price
       /\ iloc_last (map close future) = Ok end_price
       /\ future_return_pct r = ((end_price - start_price) / start_price * 100)%float
       /\ max_return_pct r
          = ((series_max (map high future) - start_price) / start_price * 100)%float
       /\ min_return_pct r
          = ((series_min (map low future) - start_price) / start_price * 100)%float.
Proof.
  intros (_ & _ & cn & _ & _ & Hc). cbv zeta.
  destruct (candidate_fields _ _ _ _ Hc)
    as (sp & ep & Hsp & Hep & Hsd & Hed & _ & Hf & Hmax & Hmin & _).
  split; [split; assumption|].
  exists sp, ep. auto 6.
Qed.

End Facts.

End CandleFacts.

(** ** Division by one and by [nan] *)

Lemma bounded_cases (m : positive) (e : Z) :
  bounded prec emax m e = true ->
  e <= 971 /\
  ((-1074 < e /\ Zpos (digits2_pos m) = 53)
   \/ (e = -1074 /\ Zpos (digits2_pos m) <= 53)).
Proof.
  unfold bounded, canonical_mantissa, fexp, SpecFloat.emin, prec, emax.
  intros H. apply andb_true_iff in H. destruct H as [Hc Hb].
  apply Z.eqb_eq in Hc. apply Z.leb_le in Hb. lia.
Qed.

Lemma round_exact (s : bool) (m : positive) (e : Z) :
  bounded prec emax m e = true ->
  binary_round_aux prec emax s (Zpos m) e loc_Exact = S754_finite s m e.
Proof.
  intros Hb. pose proof (bounded_cases m e Hb) as [He Hc].
  unfold binary_round_aux, shr_fexp, Zdigits2, fexp, SpecFloat.emin, prec, emax.
  replace (Z.max (Z.pos (digits2_pos m) + e - 53) (3 - 1024 - 53) - e) with 0 by lia.
  cbn [shr shr_record_of_loc shr_m loc_of_shr_record round_nearest_even Zdigits2].
  replace (Z.max (Z.pos (digits2_pos m) + e - 53) (3 - 1024 - 53) - e) with 0 by lia.
  cbn [shr shr_record_of_loc shr_m].
  replace (e <=? 1024 - 53) with true by (symmetry; apply Z.leb_le; lia).
  reflexivity.
Qed.

Lemma round_exact_shifted (s : bool) (m : positive) (e : Z) :
  bounded prec emax m e = true -> -1074 < e ->
  binary_round_aux prec emax s (Zpos m~0) (e - 1) loc_Exact = S754_finite s m e.
Proof.
  intros Hb Hn. pose proof (bounded_cases m e Hb) as [He Hc].
  assert (Hd : Z.pos (digits2_pos m) = 53) by lia.
  unfold binary_round_aux, shr_fexp, Zdigits2, fexp, SpecFloat.emin, prec, emax.
  cbn [digits2_pos]. rewrite Pos2Z.inj_succ.
  replace (Z.max (Z.succ (Z.pos (digits2_pos m)) + (e - 1) - 53) (3 - 1024 - 53) - (e - 1))
    with 1 by lia.
  cbn [shr shr_record_of_loc iter_pos shr_1 orb shr_m loc_of_shr_record
       round_nearest_even Zdigits2].
  replace (e - 1 + 1) with e by lia.
  replace (Z.max (Z.pos (digits2_pos m) + e - 53) (3 - 1024 - 53) - e) with 0 by lia.
  cbn [shr shr_record_of_loc shr_m].
  replace (e <=? 1024 - 53) with true by (symmetry; apply Z.leb_le; lia).
  reflexivity.
Qed.


Lemma div_eucl_mul (a b : Z) : b <> 0 -> Z.div_eucl (b * a) b = (a, 0).
Proof.
  intros Hb. pose proof (Z.div_mul a b Hb) as Hq.
  pose proof (Z.mod_mul a b Hb) as Hr.
  unfold Z.div, Z.modulo in Hq, Hr. rewrite (Z.mul_comm b a).
  destruct (Z.div_eucl (a * b) b) as [q r]. simpl in Hq, Hr. now subst.
Qed.

Lemma div_core_one (m : positive) (e : Z) :
  bounded prec emax m e = true ->
  SFdiv_core_binary prec emax (Zpos m) e (Zpos two52) (-52)
  = if -1074 <? e then (Zpos m~0, e - 1, loc_Exact) else (Zpos m, e, loc_Exact).
Proof.
  intros Hb. pose proof (bounded_cases m e Hb) as [He Hc].
  unfold SFdiv_core_binary, Zdigits2, fexp, SpecFloat.emin, prec, emax.
  change (Z.pos (digits2_pos two52)) with 53.
  destruct (-1074 <? e) eqn:E.
  - apply Z.ltb_lt in E.
    replace (Z.min (Z.max (Z.pos (digits2_pos m) + e - (53 + -52) - 53) (3 - 1024 - 53))
               (e - -52)) with (e - 1) by lia.
    replace (e - -52 - (e - 1)) with 53 by lia.
    change (Z.shiftl (Z.pos m) 53) with (Zpos two52 * Zpos m~0).
    rewrite div_eucl_mul by discriminate. reflexivity.
  - apply Z.ltb_ge in E.
    replace (Z.min (Z.max (Z.pos (digits2_pos m) + e - (53 + -52) - 53) (3 - 1024 - 53))
               (e - -52)) with e by lia.
    replace (e - -52 - e) with 52 by lia.
    change (Z.shiftl (Z.pos m) 52) with (Zpos two52 * Zpos m).
    rewrite div_eucl_mul by discriminate. reflexivity.
Qed.

Lemma SFdiv_one (p : spec_float) :
  valid_binary p = true ->
  (exists s, p = S754_zero s) \/ (exists s m e, p = S754_finite s m e) ->
  SF64div p (S754_finite false two52 (-52)) = p.
Proof.
  intros Hv [[s ->]|(s & m & e & ->)]; unfold SF64div, SFdiv.
  - now destruct s.
  - simpl in Hv. rewrite (div_core_one m e Hv).
    assert (Es : xorb s false = s) by now destruct s.
    rewrite Es. destruct (-1074 <? e) eqn:E.
    + apply round_exact_shifted; trivial. now apply Z.ltb_lt.
    + now apply round_exact.
Qed.

Lemma Prim2SF_one : Prim2SF 1%float = S754_finite false two52 (-52).
Proof. reflexivity. Qed.

Lemma Prim2SF_nan : Prim2SF PrimFloat.nan = S754_nan.
Proof. reflexivity. Qed.

Lemma is_finite_cases (x : float) :
  PrimFloat.is_finite x = true ->
  (exists s, Prim2SF x = S754_zero s)
  \/ (exists s m e, Prim2SF x = S754_finite s m e).
Proof.
  unfold PrimFloat.is_finite, PrimFloat.is_nan, PrimFloat.is_infinity.
  rewrite !FloatAxioms.eqb_spec, abs_spec.
  change (Prim2SF infinity) with (S754_infinity false).
  destruct (Prim2SF x) as [s|s| |s m e]; simpl; intros H.
  - left. now exists s.
  - destruct s; discriminate.
  - discriminate.
  - right. now exists s, m, e.
Qed.

(** Dividing a float by one gives it back: a finite float exactly,
    an infinity and [nan] as they are. *)
Lemma div_one (x : float) : (x / 1)%float = x.
Proof.
  apply Prim2SF_inj. rewrite FloatAxioms.div_spec, Prim2SF_one.
  pose proof (Prim2SF_valid x) as Hv.
  destruct (Prim2SF x) as [s|s| |s m e].
  - apply SFdiv_one; [exact Hv|left; now exists s].
  - unfold SF64div, SFdiv. now destruct s.
  - reflexivity.
  - apply SFdiv_one; [exact Hv|right; now exists s, m, e].
Qed.

(** There is one [nan]. *)
Lemma is_nan_eq (x : float) : PrimFloat.is_nan x = true -> x = PrimFloat.nan.
Proof.
  intros H. apply Prim2SF_inj. rewrite Prim2SF_nan.
  destruct (Prim2SF x) as [s|s| |s m e] eqn:E; try reflexivity; exfalso;
    assert (N : is_number (Prim2SF x)) by (rewrite E; discriminate);
    apply is_nan_number in N; congruence.
Qed.

(** Dividing by [nan] gives [nan]. *)
Lemma div_nan (x : float) : (x / PrimFloat.nan)%float = PrimFloat.nan.
Proof.
  apply Prim2SF_inj. rewrite FloatAxioms.div_spec, Prim2SF_nan.
  unfold SF64div, SFdiv. now destruct (Prim2SF x).
Qed.

(** ** [calculate_statistics] *)

Module Statistics.

Import CandlePatternMatcher.

Lemma is_finite_not_nan (x : float) :
  PrimFloat.is_finite x = true -> PrimFloat.is_nan x = false.
Proof.
  unfold PrimFloat.is_finite. destruct (PrimFloat.is_nan x); [discriminate|reflexivity].
Qed.

(** The reductions of a series of one value give that value back: a
    [nan] is skipped, and the reduction of what is left is [nan]. *)
Lemma series_mean_single (x : float) : series_mean [x] = x.
Proof.
  unfold series_mean, dropna. simpl.
  destruct (PrimFloat.is_nan x) eqn:E; simpl.
  - now rewrite (is_nan_eq x E).
  - unfold np_mean. simpl. change (float_of_nat 1) with 1%float. apply div_one.
Qed.

Lemma series_median_single (x : float) : series_median [x] = x.
Proof.
  unfold series_median, dropna. simpl.
  destruct (PrimFloat.is_nan x) eqn:E; simpl.
  - now rewrite (is_nan_eq x E).
  - unfold np_mean. simpl. change (float_of_nat 1) with 1%float. apply div_one.
Qed.

Lemma series_max_single (x : float) : series_max [x] = x.
Proof.
  unfold series_max, dropna. simpl.
  destruct (PrimFloat.is_nan x) eqn:E; simpl; [now rewrite (is_nan_eq x E)|reflexivity].
Qed.

Lemma series_min_single (x : float) : series_min [x] = x.
Proof.
  unfold series_min, dropna. simpl.
  destruct (PrimFloat.is_nan x) eqn:E; simpl; [now rewrite (is_nan_eq x E)|reflexivity].
Qed.

(** The sample standard deviation of at most one value is [nan]. *)
Lemma series_std_single (x : float) : series_std [x] = PrimFloat.nan.
Proof.
  unfold series_std, dropna. simpl.
  destruct (negb (PrimFloat.is_nan x)); simpl; try rewrite div_nan; reflexivity.
Qed.

(** C9. [calculate_statistics] on an empty result set returns the
    empty dictionary, the "no data" marker: it holds no entry at
    all, so none that is [nan], and the call raises nothing. *)
Theorem statistics_of_empty_result :
  calculate_statistics [] = []
  /\ forall key, dict_get (calculate_statistics []) key = None.
Proof.
  split; [reflexivity | intros key; reflexivity].
Qed.

(** The scenario of C9: no similarity reaches 1.1, the search on the
    example bars returns an empty result set, and its statistics are
    the empty dictionary. *)
Example no_candidate_qualifies :
  exists tw,
    find_similar_patterns (L := Reference.libraries)
      Examples.prices (-1) 3 2 10 1.1%float "correlation" "relative" 0 = Ok ([], tw)
    /\ calculate_statistics [] = [].
Proof.
  eexists. split; [vm_compute; reflexivity|reflexivity].
Qed.

(** C10, as the source has it.  On a result set of exactly one
    candidate the entry [std_return] is [nan], the count is 1 and the
    positive rate is 0 or 100, whatever the candidate.  The mean, the
    median, the maximum and the minimum are the future return stored
    in the candidate, and the two averages are its stored extremes:
    these six entries are finite when the stored returns are, and
    [nan] or infinite when the stored returns are. *)
Theorem statistics_of_single_candidate (r : Match) :
  let stats := calculate_statistics [r] in
  (exists s, dict_get stats "std_return" = Some (PyFloat s)
             /\ PrimFloat.is_nan s = true)
  /\ dict_get stats "count" = Some (PyInt 1)
  /\ dict_get stats "positive_rate"
     = Some (PyFloat (if (0 <? future_return_pct r)%float
                      then 100%float else 0%float))
  /\ dict_get stats "mean_return" = Some (PyFloat (future_return_pct r))
  /\ dict_get stats "median_return" = Some (PyFloat (future_return_pct r))
  /\ dict_get stats "max_return" = Some (PyFloat (future_return_pct r))
  /\ dict_get stats "min_return" = Some (PyFloat (future_return_pct r))
  /\ dict_get stats "avg_max_return" = Some (PyFloat (max_return_pct r))
  /\ dict_get stats "avg_min_return" = Some (PyFloat (min_return_pct r))
  /\ (PrimFloat.is_finite (future_return_pct r) = true ->
      PrimFloat.is_finite (max_return_pct r) = true ->
      PrimFloat.is_finite (min_return_pct r) = true ->
      Forall (fun key => exists v, dict_get stats key = Some v /\ finite_value v)
        ["count"; "mean_return"; "median_return"; "max_return"; "min_return";
         "positive_rate"; "avg_max_return"; "avg_min_return"]).
Proof.
  intros stats. subst stats. unfold calculate_statistics.
  cbn [length Nat.eqb map dict_get String.eqb Ascii.eqb Bool.eqb].
  rewrite !series_mean_single, series_median_single,
    series_max_single, series_min_single.
  assert (Hp : (float_of_nat
                  (length (filter (fun x => (0 <? x)%float) [future_return_pct r]))
                / float_of_nat 1 * 100)%float
               = if (0 <? future_return_pct r)%float then 100%float else 0%float).
  { simpl. now destruct (0 <? future_return_pct r)%float. }
  cbn [length] in Hp. rewrite Hp.
  split.
  { exists PrimFloat.nan. split; [|reflexivity]. now rewrite series_std_single. }
  repeat (split; [reflexivity|]).
  intros Hf Hmax Hmin.
  repeat constructor; eexists; (split; [reflexivity|]); simpl; trivial.
  now destruct (0 <? future_return_pct r)%float.
Qed.

(** C10, on a candidate whose future return is 2.5 percent. *)
Lemma statistics_of_single_candidate_witness :
  exists s,
    dict_get (calculate_statistics [Examples.lone_candidate]) "std_return"
    = Some (PyFloat s)
    /\ PrimFloat.is_nan s = true
    /\ dict_get (calculate_statistics [Examples.lone_candidate]) "mean_return"
       = Some (PyFloat 2.5%float)
    /\ dict_get (calculate_statistics [Examples.lone_candidate]) "positive_rate"
       = Some (PyFloat 100%float)
    /\ Forall (fun key =>
                 exists v,
                   dict_get (calculate_statistics [Examples.lone_candidate]) key
                   = Some v /\ finite_value v)
         ["count"; "mean_return"; "median_return"; "max_return"; "min_return";
          "positive_rate"; "avg_max_return"; "avg_min_return"].
Proof.
  destruct (statistics_of_single_candidate Examples.lone_candidate)
    as ((s & Hs & Hn) & _ & Hrate & Hmean & _ & _ & _ & _ & _ & Hfin).
  exists s. repeat split; try assumption.
  exact (Hfin eq_refl eq_refl eq_refl).
Defined.

(** C10 fails where a stored return is not finite.  On four bars that
    close at 0 the search with windows of two bars and one bar of
    lookahead returns exactly one candidate, the window of the first
    two rows: its future return is (0 - 0) / 0 * 100, a [nan], and its
    extremes are (1 - 0) / 0 * 100 and (-1 - 0) / 0 * 100, the two
    infinities.  The mean, the median, the maximum and the minimum of
    its statistics are [nan], and the two averages are infinite. *)
Lemma single_candidate_without_finite_returns :
  exists r tw,
    find_similar_patterns (L := Reference.libraries)
      Examples.zero_frame (-1) 2 1 10 0%float "euclidean" "minmax" 0 = Ok ([r], tw)
    /\ future_return_pct r = PrimFloat.nan
    /\ max_return_pct r = PrimFloat.infinity
    /\ min_return_pct r = PrimFloat.neg_infinity
    /\ dict_get (calculate_statistics [r]) "count" = Some (PyInt 1)
    /\ dict_get (calculate_statistics [r]) "mean_return" = Some (PyFloat PrimFloat.nan)
    /\ dict_get (calculate_statistics [r]) "median_return" = Some (PyFloat PrimFloat.nan)
    /\ dict_get (calculate_statistics [r]) "max_return" = Some (PyFloat PrimFloat.nan)
    /\ dict_get (calculate_statistics [r]) "min_return" = Some (PyFloat PrimFloat.nan)
    /\ dict_get (calculate_statistics [r]) "avg_max_return"
       = Some (PyFloat PrimFloat.infinity)
    /\ dict_get (calculate_statistics [r]) "avg_min_return"
       = Some (PyFloat PrimFloat.neg_infinity)
    /\ ~ finite_value (PyFloat PrimFloat.nan)
    /\ ~ finite_value (PyFloat PrimFloat.infinity)
    /\ ~ finite_value (PyFloat PrimFloat.neg_infinity).
Proof.
  eexists; eexists. split; [vm_compute; reflexivity|].
  repeat split; try (vm_compute; reflexivity); simpl; discriminate.
Qed.

End Statistics.

(** ** [PatternMatcher]: what the search returns *)

Module GpuFacts.

Import PatternMatcher.

Lemma insert_desc_perm (x : Match) (l : list Match) :
  Permutation (insert_desc x l) (x :: l).
Proof.
  induction l as [|y t IH]; simpl; [reflexivity|].
  destruct (similarity y <? similarity x)%float; [reflexivity|].
  rewrite IH. apply perm_swap.
Qed.

Lemma sort_desc_perm (l : list Match) : Permutation (sort_desc l) l.
Proof.
  unfold sort_desc.
  enough (H : forall acc, Permutation (fold_left (fun a x => insert_desc x a) l acc)
                            (acc ++ l)) by apply (H []).
  induction l as [|x t IH]; intros acc; simpl.
  - now rewrite app_nil_r.
  - rewrite IH, insert_desc_perm. apply Permutation_middle.
Qed.



Lemma insert_desc_sorted (x : Match) (l : list Match) :
  has_score x -> Forall has_score l ->
  Forall (fun y => match_index y < match_index x) l ->
  StronglySorted ranks_before l ->
  StronglySorted ranks_before (insert_desc x l).
Proof.
  unfold has_score. intros Hx Hsc Hidx Hs.
  induction l as [|y t IH]; simpl.
  - repeat constructor.
  - inversion Hsc as [|? ? Hy Hsct]; subst.
    inversion Hidx as [|? ? Hiy Hidt]; subst.
    inversion Hs as [|? ? Hst Hall]; subst.
    destruct (similarity y <? similarity x)%float eqn:E.
    + constructor; [exact Hs|].
      assert (Hxy : ranks_before x y).
      { split; [now apply ltb_leb|]. intros C.
        pose proof (leb_ltb_trans _ _ _ C E) as F. rewrite ltb_irrefl in F.
        discriminate. }
      constructor; [exact Hxy|].
      rewrite Forall_forall in Hall |- *. intros z Hz.
      destruct (Hall z Hz) as [Hzy _]. split.
      * apply ltb_leb. eapply leb_ltb_trans; eauto.
      * intros C. pose proof (leb_trans _ _ _ C Hzy) as C'.
        pose proof (leb_ltb_trans _ _ _ C' E) as F. rewrite ltb_irrefl in F.
        discriminate.
    + constructor; [now apply IH|].
      assert (Hperm := insert_desc_perm x t).
      rewrite Forall_forall in Hall |- *. intros z Hz.
      apply (Permutation_in _ Hperm) in Hz. destruct Hz as [<-|Hz]; [|now apply Hall].
      split; [now apply ltb_false_leb|]. intros _. exact Hiy.
Qed.

Lemma sort_desc_sorted (l : list Match) :
  Forall has_score l ->
  StronglySorted (fun a b => match_index a < match_index b) l ->
  StronglySorted ranks_before (sort_desc l).
Proof.
  unfold sort_desc. intros Hsc Hs.
  enough (H : forall acc,
             Forall has_score acc -> StronglySorted ranks_before acc ->
             Forall (fun y => Forall (fun x => match_index y < match_index x) l) acc ->
             StronglySorted ranks_before (fold_left (fun a x => insert_desc x a) l acc)).
  { apply H; constructor. }
  induction l as [|x t IH]; intros acc Ha Hb Hlt; simpl; [exact Hb|].
  inversion Hsc as [|? ? Hx Hsct]; subst.
  inversion Hs as [|? ? Hst Hall]; subst.
  apply IH; trivial.
  - eapply Permutation_Forall; [symmetry; apply insert_desc_perm|].
    now constructor.
  - apply insert_desc_sorted; trivial.
    rewrite Forall_forall in Hlt |- *. intros y Hy.
    specialize (Hlt y Hy). now inversion Hlt.
  - eapply Permutation_Forall; [symmetry; apply insert_desc_perm|].
    constructor; [exact Hall|].
    rewrite Forall_forall in Hlt |- *. intros y Hy.
    specialize (Hlt y Hy). now inversion Hlt.
Qed.

Lemma firstn_sorted {A : Type} (R : A -> A -> Prop) (k : nat) :
  forall l, StronglySorted R l -> StronglySorted R (firstn k l).
Proof.
  induction k as [|k IH]; intros l Hs; simpl; [constructor|].
  destruct l as [|x t]; [constructor|].
  inversion Hs as [|? ? Hst Hall]; subst.
  constructor; [now apply IH|].
  rewrite Forall_forall in Hall |- *. intros y Hy. apply Hall.
  eapply firstn_In, Hy.
Qed.

Lemma head_sorted {A : Type} (R : A -> A -> Prop) (n : Z) (l : list A) :
  StronglySorted R l -> StronglySorted R (head n l).
Proof.
  intros Hs. destruct (head_firstn n l) as [k ->]. now apply firstn_sorted.
Qed.

Lemma head_In {A : Type} (n : Z) (l : list A) (x : A) :
  In x (head n l) -> In x l.
Proof. apply iloc_slice_In. Qed.

Section Facts.

Context {L : Libraries}.
Variable self : Config.


Lemma scan_entry_fields (data : Frame) (tn : Pattern) (sym : option string)
  (i : Z) (r : Match) :
  scan_entry self data tn sym i = Ok (Some r) ->
  match_index r = i /\
  (min_similarity self <=? similarity r)%float = true /\
  future_return_at self (bars data) i (future_return r).
Proof.
  unfold scan_entry, future_return_at. intros H.
  destruct (normalize_pattern self _) as [wn|e]; simpl in H; [|discriminate].
  destruct (calculate_similarity self tn wn) as [s|e]; simpl in H; [|discriminate].
  destruct (min_similarity self <=? s)%float eqn:Es; [|discriminate].
  set (fd := iloc_slice (bars data) (i + window_size self)
               (i + window_size self + lookahead self)) in *.
  destruct (0 <? length fd)%nat eqn:Ef.
  - destruct (iloc_at (bars data) (i + window_size self - 1)) as [bar|e] eqn:Eb;
      simpl in H; [|discriminate].
    destruct (iloc_last (map close fd)) as [ep|e] eqn:Ee; simpl in H; [|discriminate].
    destruct (resolve_symbol data sym) as [sy|e]; simpl in H; [|discriminate].
    destruct (iloc_at (map timestamp (bars data)) i) as [fl|e]; simpl in H; [|discriminate].
    destruct (iloc_at (map timestamp (bars data)) (i + window_size self - 1)) as [ll|e];
      simpl in H; [|discriminate].
    destruct (iloc_at (bars data) i) as [fb|e]; simpl in H; [|discriminate].
    inversion H; subst; clear H. simpl. repeat split; trivial.
    right. exists bar, ep. auto.
  - simpl in H.
    destruct (resolve_symbol data sym) as [sy|e]; simpl in H; [|discriminate].
    destruct (iloc_at (map timestamp (bars data)) i) as [fl|e]; simpl in H; [|discriminate].
    destruct (iloc_at (map timestamp (bars data)) (i + window_size self - 1)) as [ll|e];
      simpl in H; [|discriminate].
    destruct (iloc_at (bars data) i) as [fb|e]; simpl in H; [|discriminate].
    destruct (iloc_at (bars data) (i + window_size self - 1)) as [lb|e]; simpl in H;
      [|discriminate].
    inversion H; subst; clear H. simpl. repeat split; trivial.
    left. split; [|reflexivity].
    apply Nat.ltb_ge in Ef. destruct fd; [reflexivity|simpl in Ef; lia].
Qed.

Lemma entries_inv (data : Frame) (target : Pattern)
  (sym : option string) (rows : list Match) :
  find_similar_patterns self data target sym = Ok rows ->
  exists tn results,
    normalize_pattern self target = Ok tn /\
    collect (scan_entry self data tn sym)
      (py_range 0 (Z.of_nat (length (bars data)) - window_size self
                   - lookahead self + 1)) = Ok results /\
    rows = head (top_n self) (sort_desc results).
Proof.
  unfold find_similar_patterns. intros H.
  destruct (normalize_pattern self target) as [tn|e]; simpl in H; [|discriminate].
  unfold scan_step in H. rewrite for_each_collect in H.
  destruct (collect _ _) as [results|e] eqn:Ec; simpl in H; [|discriminate].
  exists tn, results. inversion H; subst. auto.
Qed.

(** Every returned entry was recorded by the loop at its start index. *)
Lemma returned_entry (data : Frame) (target : Pattern)
  (sym : option string) (rows : list Match) (r : Match) :
  find_similar_patterns self data target sym = Ok rows ->
  In r rows ->
  exists tn,
    normalize_pattern self target = Ok tn /\
    0 <= match_index r
      < Z.of_nat (length (bars data)) - window_size self - lookahead self + 1 /\
    scan_entry self data tn sym (match_index r) = Ok (Some r).
Proof.
  intros H Hin.
  destruct (entries_inv _ _ _ _ H) as (tn & results & Hn & Hc & ->).
  apply head_In in Hin. apply (Permutation_in _ (sort_desc_perm results)) in Hin.
  destruct (collect_In _ _ _ _ Hc Hin) as (i & Hi & Ei).
  destruct (scan_entry_fields _ _ _ _ _ Ei) as (Hidx & _).
  exists tn. rewrite Hidx. split; [exact Hn|]. split; [now apply py_range_In|exact Ei].
Qed.

End Facts.

End GpuFacts.

(** ** What the search returns: future windows, overlap, returns *)

Import Examples.

(** C3, as the source has it.  [CandlePatternMatcher] appends an
    entry only with exactly [lookahead] bars after its window, and
    every returned row is the row of such an entry; but the row itself
    carries no window: the windows assigned at lines 323 and 324 are
    not stored, and the cells ['pattern_data'] and ['future_data'] of
    every returned row are missing.  For [PatternMatcher], whose
    entries carry no window, the bars the loop read after the window
    of a returned entry are exactly [lookahead] (for a non-negative
    window size and lookahead), and with a positive lookahead its
    future return is present. *)
Theorem future_window_is_not_returned :
  (forall (L : Libraries) (df : DataFrame) (tei ws la top_n : Z) (m : float)
          (method nm : string) (excl : Z)
          (rows : list CandlePatternMatcher.Match) (tw : DataFrame),
      CandlePatternMatcher.find_similar_patterns df tei ws la top_n m method nm excl
      = Ok (rows, tw) ->
      forall r, In r rows ->
        CandlePatternMatcher.future_data r = CandlePatternMatcher.Missing
        /\ CandlePatternMatcher.pattern_data r = CandlePatternMatcher.Missing
        /\ exists tn i entry bars,
             CandlePatternMatcher.scan_entry df
               (CandlePatternMatcher.resolve_end_index df tei) ws la
               m method nm tn i = Ok (Some entry)
             /\ r = CandlePatternMatcher.frame_row entry
             /\ CandlePatternMatcher.future_data entry
                = CandlePatternMatcher.Window bars
             /\ Z.of_nat (length bars) = la)
  /\ (forall (L : Libraries) (self : PatternMatcher.Config)
             (data : PatternMatcher.Frame) (target : PatternMatcher.Pattern)
             (sym : option string) (rows : list PatternMatcher.Match),
         0 <= PatternMatcher.window_size self ->
         0 <= PatternMatcher.lookahead self ->
         PatternMatcher.find_similar_patterns self data target sym = Ok rows ->
         forall r, In r rows ->
           let i := PatternMatcher.match_index r in
           Z.of_nat (length (iloc_slice (PatternMatcher.bars data)
                               (i + PatternMatcher.window_size self)
                               (i + PatternMatcher.window_size self
                                + PatternMatcher.lookahead self)))
           = PatternMatcher.lookahead self
           /\ (0 < PatternMatcher.lookahead self ->
               PatternMatcher.future_return r <> None)).
Proof.
  split.
  - intros L df tei ws la top_n m method nm excl rows tw H r Hin.
    destruct (CandleFacts.returned_scanned _ _ _ _ _ _ _ _ _ _ _ _ H Hin)
      as (tn & i & entry & _ & _ & Hscan & ->).
    split; [reflexivity|]. split; [reflexivity|].
    destruct (CandleFacts.scan_entry_recorded _ _ _ _ _ _ _ _ _ _ Hscan)
      as (_ & Hlen & cn & _ & _ & Hc).
    destruct (CandleFacts.candidate_fields _ _ _ _ Hc)
      as (sp & ep & _ & _ & _ & _ & _ & _ & _ & _ & _ & Hfd).
    exists tn, i, entry. eexists. split; [exact Hscan|].
    split; [reflexivity|]. split; [exact Hfd|exact Hlen].
  - intros L self data target sym rows Hws Hla H r Hin i.
    destruct (GpuFacts.returned_entry _ _ _ _ _ _ H Hin) as (tn & _ & Hi & He).
    fold i in Hi, He.
    assert (Hlen : Z.of_nat (length (iloc_slice (PatternMatcher.bars data)
                               (i + PatternMatcher.window_size self)
                               (i + PatternMatcher.window_size self
                                + PatternMatcher.lookahead self)))
                   = PatternMatcher.lookahead self).
    { rewrite iloc_slice_length. unfold slice_bound.
      destruct (i + PatternMatcher.window_size self
                + PatternMatcher.lookahead self <? 0) eqn:E1;
        destruct (i + PatternMatcher.window_size self <? 0) eqn:E2; lia. }
    split; [exact Hlen|].
    intros Hpos.
    destruct (GpuFacts.scan_entry_fields _ _ _ _ _ _ He) as (_ & _ & Hf).
    destruct Hf as [[Hnil _]|(b & ep & _ & _ & ->)]; [|discriminate].
    rewrite Hnil in Hlen. simpl in Hlen. lia.
Qed.

(** C3, on the ten example bars: windows of three bars, two bars of
    lookahead, every candidate scored.  Five rows are returned, none
    with a future window. *)
Lemma future_window_is_not_returned_witness :
  exists rows tw,
    CandlePatternMatcher.find_similar_patterns (L := Reference.libraries)
      prices (-1) 3 2 10 0%float "euclidean" "minmax" 0 = Ok (rows, tw)
    /\ length rows = 5%nat
    /\ (forall r, In r rows ->
          CandlePatternMatcher.future_data r = CandlePatternMatcher.Missing)
    /\ exists grows,
         PatternMatcher.find_similar_patterns (L := Reference.libraries)
           matcher priced last_pattern (Some "7203") = Ok grows
         /\ length grows = 7%nat
         /\ forall r, In r grows -> PatternMatcher.future_return r <> None.
Proof.
  eexists; eexists. split; [vm_compute; reflexivity|].
  split; [reflexivity|]. split.
  - intros r Hin.
    eapply (proj1 future_window_is_not_returned Reference.libraries prices (-1) 3 2 10
              0%float "euclidean" "minmax" 0); [|exact Hin].
    vm_compute; reflexivity.
  - eexists. split; [vm_compute; reflexivity|]. split; [reflexivity|].
    intros r Hin.
    eapply (proj2 future_window_is_not_returned Reference.libraries matcher priced
              last_pattern (Some "7203")); [| | |exact Hin|]; try reflexivity.
    + discriminate.
    + discriminate.
Defined.

(** C4, as the source has it.  When the target index names a row of
    the frame (counted from the end when negative), the target window
    [CandlePatternMatcher] returns ends at that row, and every
    candidate it returns is dated as the window that ends at a row [i]
    at least [window_size] rows away from it.  [PatternMatcher]
    compares no index with the target: a returned entry starts at any
    row from 0 on whose window leaves [lookahead] bars before the end
    of the frame, so its window ends at least [lookahead] rows before
    the last row, where the target of [analyze_all_symbols] ends. *)
Theorem candidates_and_target_overlap :
  (forall (L : Libraries) (df : DataFrame) (tei ws la top_n : Z) (m : float)
          (method nm : string) (excl : Z)
          (rows : list CandlePatternMatcher.Match) (tw : DataFrame),
      0 <= CandlePatternMatcher.resolve_end_index df tei ->
      CandlePatternMatcher.find_similar_patterns df tei ws la top_n m method nm excl
      = Ok (rows, tw) ->
      let e := CandlePatternMatcher.resolve_end_index df tei in
      (0 < ws ->
       tw = iloc_slice df (e - ws + 1) (e + 1)
       /\ Z.of_nat (length tw) = ws
       /\ e < Z.of_nat (length df))
      /\ forall r, In r rows ->
           exists i,
             ws - 1 <= i < Z.of_nat (length df) - la - excl
             /\ ends_at df ws i r
             /\ ws <= Z.abs (i - e))
  /\ (forall (L : Libraries) (self : PatternMatcher.Config)
             (data : PatternMatcher.Frame) (target : PatternMatcher.Pattern)
             (sym : option string) (rows : list PatternMatcher.Match),
         PatternMatcher.find_similar_patterns self data target sym = Ok rows ->
         forall r, In r rows ->
           let last_row := Z.of_nat (length (PatternMatcher.bars data)) - 1 in
           let window_end :=
             PatternMatcher.match_index r + PatternMatcher.window_size self - 1 in
           0 <= PatternMatcher.match_index r
           /\ PatternMatcher.lookahead self <= last_row - window_end).
Proof.
  split.
  - intros L df tei ws la top_n m method nm excl rows tw He H e. split.
    + intros Hws. assert (Hws0 : 0 <= ws) by lia.
      destruct (CandleFacts.returned_target_window _ _ _ _ _ _ _ _ _ _ _
                  Hws0 He H) as (Htw & Hlen & Hin).
      auto.
    + intros r Hin.
      destruct (CandleFacts.returned_recorded _ _ _ _ _ _ _ _ _ _ _ _ H Hin)
        as (tn & i & entry & _ & Hi & Hrec & ->).
      destruct (CandleFacts.recorded_columns _ _ _ _ _ _ _ _ _ _ Hrec) as (Hat & _).
      destruct Hrec as (Hfar & _).
      exists i. split; [exact Hi|]. split; [exact Hat|exact Hfar].
  - intros L self data target sym rows H r Hin last_row window_end.
    destruct (GpuFacts.returned_entry _ _ _ _ _ _ H Hin) as (tn & _ & Hi & _).
    subst last_row window_end. lia.
Qed.

(** C4, on the ten example bars: the target is the last three rows,
    and the five candidates end at rows 2 to 6. *)
Lemma candidates_and_target_overlap_witness :
  exists rows tw,
    CandlePatternMatcher.find_similar_patterns (L := Reference.libraries)
      prices (-1) 3 2 10 0%float "euclidean" "minmax" 0 = Ok (rows, tw)
    /\ length rows = 5%nat
    /\ tw = iloc_slice prices 7 10
    /\ (forall r, In r rows ->
         exists i,
           3 - 1 <= i < 10 - 2 - 0 /\ ends_at prices 3 i r /\ 3 <= Z.abs (i - 9))
    /\ exists grows,
         PatternMatcher.find_similar_patterns (L := Reference.libraries)
           matcher priced last_pattern (Some "7203") = Ok grows
         /\ length grows = 7%nat
         /\ forall r, In r grows ->
              0 <= PatternMatcher.match_index r
              /\ 1 <= 10 - 1 - (PatternMatcher.match_index r + 3 - 1).
Proof.
  eexists; eexists. split; [vm_compute; reflexivity|].
  split; [reflexivity|].
  destruct (proj1 candidates_and_target_overlap Reference.libraries prices (-1) 3 2 10
              0%float "euclidean" "minmax" 0 _ _ ltac:(vm_compute; discriminate)
              ltac:(vm_compute; reflexivity)) as (Htw & Hrows).
  split; [exact (proj1 (Htw eq_refl))|]. split; [exact Hrows|].
  eexists. split; [vm_compute; reflexivity|]. split; [reflexivity|].
  intros r Hin.
  eapply (proj2 candidates_and_target_overlap Reference.libraries matcher priced
            last_pattern (Some "7203")); [|exact Hin].
  vm_compute; reflexivity.
Defined.

(** C4 fails for [PatternMatcher]: with windows of three bars and one
    bar of lookahead, [analyze_all_symbols] on the ten example bars
    (target: rows 7 to 9) returns the window that starts at row 6 and
    ends at row 8, one row before the end of the target.  It fails for
    [CandlePatternMatcher] below the frame: with the target index -12
    on the ten bars, read as the slice bound -1, the target window is
    the first nine rows, and the candidate dated 5 to 7 is returned,
    which ends one row before the end of that target. *)
Lemma candidates_overlap_the_target :
  (map PatternMatcher.match_index
     (PatternMatcher.analyze_all_symbols (L := Reference.libraries) matcher
        [("7203", priced)])
   = [2; 4; 5; 0; 1; 3; 6]
   /\ Z.of_nat (length prices) - 1 = 9
   /\ Z.abs ((6 + PatternMatcher.window_size matcher - 1) - 9)
      < PatternMatcher.window_size matcher)
  /\ exists rows tw r,
       CandlePatternMatcher.find_similar_patterns (L := Reference.libraries)
         prices (-12) 3 2 10 0%float "euclidean" "minmax" 0 = Ok (rows, tw)
       /\ map timestamp tw = [0; 1; 2; 3; 4; 5; 6; 7; 8]
       /\ nth_error rows 5 = Some r
       /\ ends_at prices 3 7 r
       /\ CandlePatternMatcher.start_date r = 5
       /\ CandlePatternMatcher.end_date r = 7
       /\ Z.abs (7 - 8) < 3.
Proof.
  split.
  - split; [vm_compute; reflexivity|]. split; reflexivity.
  - eexists; eexists; eexists.
    split; [vm_compute; reflexivity|].
    split; [reflexivity|].
    split; [reflexivity|].
    repeat split; reflexivity.
Qed.

(** C2, as the source has it.  [CandlePatternMatcher] stores
    percentages: for the candidate whose window ends at row [i], with
    [start] the close of row [i] and [end] the close of the last of
    the [lookahead] rows after it, the stored future return is [(end -
    start) / start * 100], and the two extremes are the highest high
    and the lowest low of those rows relative to [start], times 100 as
    well.  [PatternMatcher] stores the plain ratio [(end - start) /
    start] and no extremes. *)
Theorem stored_returns :
  (forall (L : Libraries) (df : DataFrame) (tei ws la top_n : Z) (m : float)
          (method nm : string) (excl : Z)
          (rows : list CandlePatternMatcher.Match) (tw : DataFrame),
      CandlePatternMatcher.find_similar_patterns df tei ws la top_n m method nm excl
      = Ok (rows, tw) ->
      forall r, In r rows ->
        exists i start_price end_price,
          let comp_window := iloc_slice df (i - ws + 1) (i + 1) in
          let future :=
            iloc_slice df (i + 1) (Z.min (i + la + 1) (Z.of_nat (length df))) in
          ends_at df ws i r
          /\ Z.of_nat (length future) = la
          /\ iloc_last (map close comp_window) = Ok start_price
          /\ iloc_last (map close future) = Ok end_price
          /\ CandlePatternMatcher.future_return_pct r
             = ((end_price - start_price) / start_price * 100)%float
          /\ CandlePatternMatcher.max_return_pct r
             = ((series_max (map high future) - start_price) / start_price * 100)%float
          /\ CandlePatternMatcher.min_return_pct r
             = ((series_min (map low future) - start_price) / start_price * 100)%float)
  /\ (forall (L : Libraries) (self : PatternMatcher.Config)
             (data : PatternMatcher.Frame) (target : PatternMatcher.Pattern)
             (sym : option string) (rows : list PatternMatcher.Match),
         PatternMatcher.find_similar_patterns self data target sym = Ok rows ->
         forall r, In r rows ->
           future_return_at self (PatternMatcher.bars data)
             (PatternMatcher.match_index r) (PatternMatcher.future_return r)).
Proof.
  split.
  - intros L df tei ws la top_n m method nm excl rows tw H r Hin.
    destruct (CandleFacts.returned_recorded _ _ _ _ _ _ _ _ _ _ _ _ H Hin)
      as (tn & i & entry & _ & _ & Hrec & ->).
    destruct (CandleFacts.recorded_columns _ _ _ _ _ _ _ _ _ _ Hrec)
      as (Hat & sp & ep & Hsp & Hep & Hf & Hmax & Hmin).
    destruct Hrec as (_ & Hlen & _).
    exists i, sp, ep. cbv zeta. repeat split; trivial; apply Hat.
  - intros L self data target sym rows H r Hin.
    destruct (GpuFacts.returned_entry _ _ _ _ _ _ H Hin) as (tn & _ & _ & He).
    now destruct (GpuFacts.scan_entry_fields _ _ _ _ _ _ He) as (_ & _ & Hf).
Qed.

(** C2, on the ten example bars. *)
Lemma stored_returns_witness :
  exists rows tw,
    CandlePatternMatcher.find_similar_patterns (L := Reference.libraries)
      prices (-1) 3 2 10 0%float "euclidean" "minmax" 0 = Ok (rows, tw)
    /\ length rows = 5%nat
    /\ (forall r, In r rows ->
         exists i start_price end_price,
           ends_at prices 3 i r
           /\ iloc_last (map close (iloc_slice prices (i - 3 + 1) (i + 1)))
              = Ok start_price
           /\ iloc_last (map close (iloc_slice prices (i + 1) (Z.min (i + 2 + 1) 10)))
              = Ok end_price
           /\ CandlePatternMatcher.future_return_pct r
              = ((end_price - start_price) / start_price * 100)%float)
    /\ exists grows,
         PatternMatcher.find_similar_patterns (L := Reference.libraries)
           matcher priced last_pattern (Some "7203") = Ok grows
         /\ length grows = 7%nat
         /\ forall r, In r grows ->
              future_return_at matcher prices
                (PatternMatcher.match_index r) (PatternMatcher.future_return r).
Proof.
  eexists; eexists. split; [vm_compute; reflexivity|].
  split; [reflexivity|]. split.
  - intros r Hin.
    destruct (proj1 stored_returns Reference.libraries prices (-1) 3 2 10
                0%float "euclidean" "minmax" 0 _ _ ltac:(vm_compute; reflexivity) r Hin)
      as (i & sp & ep & Hat & _ & Hsp & Hep & Hf & _).
    exists i, sp, ep. auto.
  - eexists. split; [vm_compute; reflexivity|]. split; [reflexivity|].
    intros r Hin.
    eapply (proj2 stored_returns Reference.libraries matcher priced
              last_pattern (Some "7203")); [|exact Hin].
    vm_compute; reflexivity.
Defined.

(** C2 fails for [CandlePatternMatcher]: the candidate dated 2 to 4 of
    the example bars ends at row 4 (close 103) and is followed two
    bars later by a close of 110; the ratio is 0.0679..., the stored
    future return is 6.79..., a hundred times as much. *)
Lemma stored_return_is_a_percentage :
  exists rows tw r,
    CandlePatternMatcher.find_similar_patterns (L := Reference.libraries)
      prices (-1) 3 2 10 0%float "euclidean" "minmax" 0 = Ok (rows, tw)
    /\ nth_error rows 0 = Some r
    /\ ends_at prices 3 4 r
    /\ iloc_last (map close (iloc_slice prices 2 5)) = Ok 103%float
    /\ iloc_last (map close (iloc_slice prices 5 7)) = Ok 110%float
    /\ ((110 - 103) / 103)%float = 0.067961165048543687%float
    /\ CandlePatternMatcher.future_return_pct r = 6.7961165048543686%float
    /\ (CandlePatternMatcher.future_return_pct r =? (110 - 103) / 103)%float = false.
Proof.
  eexists; eexists; eexists.
  split; [vm_compute; reflexivity|].
  split; [reflexivity|].
  repeat split; vm_compute; reflexivity.
Qed.

(** ** Normalization *)

Lemma fold_min_constant (v : float) (t : list float) :
  Forall (eq v) t ->
  fold_left (fun m y => if (y <? m)%float then y else m) t v = v.
Proof.
  induction 1 as [|y t <- _ IH]; simpl; [reflexivity|].
  now destruct (v <? v)%float.
Qed.

Lemma fold_max_constant (v : float) (t : list float) :
  Forall (eq v) t ->
  fold_left (fun m y => if (m <? y)%float then y else m) t v = v.
Proof.
  induction 1 as [|y t <- _ IH]; simpl; [reflexivity|].
  now destruct (v <? v)%float.
Qed.

Lemma dropna_numbers (s : list float) :
  Forall (fun x => PrimFloat.is_nan x = false) s -> dropna s = s.
Proof.
  induction 1 as [|x t Hx _ IH]; simpl; [reflexivity|].
  now rewrite Hx, IH.
Qed.

Lemma fold_min_least (t : list float) :
  forall x : float,
    Forall (fun y => PrimFloat.is_nan y = false) (x :: t) ->
    let r := fold_left (fun m y => if (y <? m)%float then y else m) t x in
    In r (x :: t) /\ Forall (fun y => (r <=? y)%float = true) (x :: t).
Proof.
  induction t as [|y t IH]; intros x Hall; simpl.
  - inversion Hall; subst. split; [now left|]. constructor; [now apply leb_refl|constructor].
  - inversion Hall as [|? ? Hx Hyt]; subst. inversion Hyt as [|? ? Hy Ht]; subst.
    set (x' := if (y <? x)%float then y else x).
    assert (Hx' : PrimFloat.is_nan x' = false) by (unfold x'; now destruct (y <? x)%float).
    destruct (IH x' (Forall_cons _ Hx' Ht)) as [Hin Hle].
    inversion Hle as [|? ? Hrx' Hrt]; subst.
    assert (Hxx : (x' <=? x)%float = true /\ (x' <=? y)%float = true).
    { unfold x'. destruct (y <? x)%float eqn:E.
      - split; [now apply ltb_leb|now apply leb_refl].
      - split; [now apply leb_refl|now apply ltb_false_leb]. }
    split.
    + destruct Hin as [Hin|Hin]; [|now right; right].
      rewrite <- Hin. unfold x'. destruct (y <? x)%float; [right; now left|now left].
    + constructor; [eapply leb_trans; [exact Hrx'|apply Hxx]|].
      constructor; [eapply leb_trans; [exact Hrx'|apply Hxx]|exact Hrt].
Qed.

Lemma fold_max_greatest (t : list float) :
  forall x : float,
    Forall (fun y => PrimFloat.is_nan y = false) (x :: t) ->
    let r := fold_left (fun m y => if (m <? y)%float then y else m) t x in
    In r (x :: t) /\ Forall (fun y => (y <=? r)%float = true) (x :: t).
Proof.
  induction t as [|y t IH]; intros x Hall; simpl.
  - inversion Hall; subst. split; [now left|]. constructor; [now apply leb_refl|constructor].
  - inversion Hall as [|? ? Hx Hyt]; subst. inversion Hyt as [|? ? Hy Ht]; subst.
    set (x' := if (x <? y)%float then y else x).
    assert (Hx' : PrimFloat.is_nan x' = false) by (unfold x'; now destruct (x <? y)%float).
    destruct (IH x' (Forall_cons _ Hx' Ht)) as [Hin Hle].
    inversion Hle as [|? ? Hrx' Hrt]; subst.
    assert (Hxx : (x <=? x')%float = true /\ (y <=? x')%float = true).
    { unfold x'. destruct (x <? y)%float eqn:E.
      - split; [now apply ltb_leb|now apply leb_refl].
      - split; [now apply leb_refl|now apply ltb_false_leb]. }
    split.
    + destruct Hin as [Hin|Hin]; [|now right; right].
      rewrite <- Hin. unfold x'. destruct (x <? y)%float; [right; now left|now left].
    + constructor; [eapply leb_trans; [apply Hxx|exact Hrx']|].
      constructor; [eapply leb_trans; [apply Hxx|exact Hrx']|exact Hrt].
Qed.

(** On a column of numbers [Series.min()] and [Series.max()] are the
    least and the greatest of its values. *)
Lemma series_extremes (s : list float) :
  s <> [] -> Forall (fun y => PrimFloat.is_nan y = false) s ->
  In (series_min s) s /\ Forall (fun y => (series_min s <=? y)%float = true) s
  /\ In (series_max s) s /\ Forall (fun y => (y <=? series_max s)%float = true) s.
Proof.
  intros Hne Hall. unfold series_min, series_max. rewrite (dropna_numbers s Hall).
  destruct s as [|x t]; [congruence|].
  destruct (fold_min_least t x Hall) as [H1 H2].
  destruct (fold_max_greatest t x Hall) as [H3 H4]. auto.
Qed.

(** The minimum and the maximum of a constant column are its value. *)
Lemma constant_column_extremes (v : float) (s : list float) :
  s <> [] -> PrimFloat.is_nan v = false -> Forall (eq v) s ->
  series_min s = v /\ series_max s = v.
Proof.
  intros Hne Hv Hall. unfold series_min, series_max.
  rewrite dropna_numbers.
  - destruct s as [|x t]; [congruence|].
    inversion Hall as [|? ? <- Ht]; subst.
    now rewrite fold_min_constant, fold_max_constant.
  - eapply Forall_impl; [|exact Hall]. now intros x <-.
Qed.

(** C6, as the source has it.  [min_max_normalize] maps every value of
    a column to [(value - min) / (max - min)] with the minimum and
    the maximum of the column over the window (the least and the
    greatest of its values), and to 0.5 when the two are equal; a
    column that holds one number throughout is mapped to 0.5
    everywhere.  [PatternMatcher.normalize_pattern] with ['minmax']
    divides by [max - min + 1e-8] on every column, constant or not. *)
Theorem min_max_normalization :
  (forall window_df : DataFrame,
      let n := CandlePatternMatcher.min_max_normalize window_df in
      get_column n "open_minmax"
      = Ok (CandlePatternMatcher.minmax_column (map open window_df))
      /\ get_column n "high_minmax"
         = Ok (CandlePatternMatcher.minmax_column (map high window_df))
      /\ get_column n "low_minmax"
         = Ok (CandlePatternMatcher.minmax_column (map low window_df))
      /\ get_column n "close_minmax"
         = Ok (CandlePatternMatcher.minmax_column (map close window_df))
      /\ get_column n "volume_minmax"
         = Ok (CandlePatternMatcher.minmax_column (map volume window_df)))
  /\ (forall s : list float,
         s <> [] -> Forall (fun y => PrimFloat.is_nan y = false) s ->
         In (series_min s) s
         /\ Forall (fun y => (series_min s <=? y)%float = true) s
         /\ In (series_max s) s
         /\ Forall (fun y => (y <=? series_max s)%float = true) s)
  /\ (forall s : list float,
         (series_max s =? series_min s)%float = false ->
         CandlePatternMatcher.minmax_column s
         = map (fun v => ((v - series_min s) / (series_max s - series_min s))%float) s)
  /\ (forall s : list float,
         (series_max s =? series_min s)%float = true ->
         CandlePatternMatcher.minmax_column s = map (fun _ => 0.5%float) s)
  /\ (forall (v : float) (s : list float),
         s <> [] -> PrimFloat.is_nan v = false -> Forall (eq v) s ->
         CandlePatternMatcher.minmax_column s = map (fun _ => 0.5%float) s)
  /\ (forall (L : Libraries) (self : PatternMatcher.Config)
             (pattern : PatternMatcher.Pattern) (lo hi : PatternMatcher.Row4),
         PatternMatcher.normalize_method self = "minmax" ->
         PatternMatcher.per_column PatternMatcher.np_min pattern = Ok lo ->
         PatternMatcher.per_column PatternMatcher.np_max pattern = Ok hi ->
         PatternMatcher.normalize_pattern self pattern
         = Ok (map (fun r =>
                      PatternMatcher.mkRow4
                        ((PatternMatcher.c_open r - PatternMatcher.c_open lo)
                         / (PatternMatcher.c_open hi - PatternMatcher.c_open lo + 1e-8))
                        ((PatternMatcher.c_high r - PatternMatcher.c_high lo)
                         / (PatternMatcher.c_high hi - PatternMatcher.c_high lo + 1e-8))
                        ((PatternMatcher.c_low r - PatternMatcher.c_low lo)
                         / (PatternMatcher.c_low hi - PatternMatcher.c_low lo + 1e-8))
                        ((PatternMatcher.c_close r - PatternMatcher.c_close lo)
                         / (PatternMatcher.c_close hi - PatternMatcher.c_close lo + 1e-8)))%float
                   pattern)).
Proof.
  split; [intros window_df n; repeat split; reflexivity|].
  split; [exact series_extremes|].
  split.
  { intros s H. unfold CandlePatternMatcher.minmax_column. now rewrite H. }
  split.
  { intros s H. unfold CandlePatternMatcher.minmax_column. now rewrite H. }
  split.
  { intros v s Hne Hv Hall. unfold CandlePatternMatcher.minmax_column.
    destruct (constant_column_extremes v s Hne Hv Hall) as [-> ->].
    unfold PrimFloat.is_nan in Hv. apply negb_false_iff in Hv. now rewrite Hv. }
  intros L self pattern lo hi Hm Hlo Hhi.
  unfold PatternMatcher.normalize_pattern. rewrite Hm, Hlo, Hhi. reflexivity.
Qed.

(** C6, on a column that is 101.5 in each of three bars, and on a
    pattern of two rows. *)
Lemma min_max_normalization_witness :
  CandlePatternMatcher.minmax_column [101.5; 101.5; 101.5]%float
  = [0.5; 0.5; 0.5]%float
  /\ In (series_min [100; 104; 101]%float) [100; 104; 101]%float
  /\ In (series_max [100; 104; 101]%float) [100; 104; 101]%float
  /\ CandlePatternMatcher.minmax_column [100; 104; 101]%float
     = [0; 1; 0.25]%float
  /\ PatternMatcher.normalize_pattern (L := Reference.libraries) matcher
       [PatternMatcher.mkRow4 5 7 4 6; PatternMatcher.mkRow4 5 8 3 6]
     = Ok [PatternMatcher.mkRow4 0 0 0.99999999000000017 0;
           PatternMatcher.mkRow4 0 0.99999999000000017 0 0].
Proof.
  destruct min_max_normalization as (_ & Hext & Hformula & _ & Hconst & Hgpu).
  destruct (Hext [100; 104; 101]%float ltac:(discriminate)
              ltac:(repeat constructor)) as (Hmin & _ & Hmax & _).
  split; [|split; [exact Hmin|split; [exact Hmax|split]]].
  - apply (Hconst 101.5%float); [discriminate|reflexivity|repeat constructor].
  - rewrite (Hformula [100; 104; 101]%float); reflexivity.
  - rewrite (Hgpu Reference.libraries matcher _
               (PatternMatcher.mkRow4 5 7 3 6) (PatternMatcher.mkRow4 5 8 4 6));
      reflexivity.
Defined.

(** C6 fails for [PatternMatcher]: under ['minmax'] the columns that
    are constant over the pattern (open 5, close 6) are mapped to 0,
    not to 0.5, and the low of 4 between a minimum of 3 and a maximum
    of 4 is mapped to 0.99999999, not to 1. *)
Lemma gpu_minmax_uses_epsilon :
  PatternMatcher.normalize_pattern (L := Reference.libraries) matcher
    [PatternMatcher.mkRow4 5 7 4 6; PatternMatcher.mkRow4 5 8 3 6]
  = Ok [PatternMatcher.mkRow4 0 0 0.99999999000000017 0;
        PatternMatcher.mkRow4 0 0.99999999000000017 0 0]
  /\ (0 =? 0.5)%float = false
  /\ ((4 - 3) / (4 - 3))%float = 1%float
  /\ (0.99999999000000017 =? 1)%float = false.
Proof.
  repeat split; vm_compute; reflexivity.
Qed.

(** ** The similarity of windows of unequal length *)

Lemma broadcast_mismatch {A B C : Type} (f : A -> B -> C) (a : list A) (b : list B) :
  length a <> length b -> length a <> 1%nat -> length b <> 1%nat ->
  PatternMatcher.broadcast f a b = Raise ValueError.
Proof.
  intros Hab Ha Hb. unfold PatternMatcher.broadcast.
  destruct (Nat.eqb_spec (length a) (length b)) as [E|_]; [contradiction|].
  destruct a as [|x [|x' a']]; destruct b as [|y [|y' b']]; simpl in *;
    try reflexivity; congruence.
Qed.

Lemma flatten_length (p : PatternMatcher.Pattern) :
  length (PatternMatcher.flatten p) = (4 * length p)%nat.
Proof.
  induction p as [|r t IH]; simpl; [reflexivity|]. rewrite IH. lia.
Qed.

(** C8, as the source has it.  [calculate_pattern_similarity] returns
    0.0 on two frames of unequal length, whatever the method and the
    weights.  [PatternMatcher.calculate_similarity] has no such guard:
    on patterns of unequal length, neither of one row, the array
    operation of ['euclidean'], of ['weighted'] and of the accelerated
    ['correlation'] raises. *)
Theorem similarity_of_unequal_lengths :
  (forall (L : Libraries) (target_norm comparison_norm : NormFrame)
          (method : string) (weights : option (list (string * float))),
      length (frame target_norm) <> length (frame comparison_norm) ->
      CandlePatternMatcher.calculate_pattern_similarity
        target_norm comparison_norm method weights = 0%float)
  /\ (forall (L : Libraries) (self : PatternMatcher.Config)
             (pattern1 pattern2 : PatternMatcher.Pattern),
         length pattern1 <> length pattern2 ->
         length pattern1 <> 1%nat -> length pattern2 <> 1%nat ->
         PatternMatcher.method self = "euclidean"
         \/ PatternMatcher.method self = "weighted"
         \/ (PatternMatcher.method self = "correlation"
             /\ PatternMatcher.use_gpu self = true) ->
         PatternMatcher.calculate_similarity self pattern1 pattern2
         = Raise ValueError).
Proof.
  split.
  - intros L tn cn method weights Hlen.
    unfold CandlePatternMatcher.calculate_pattern_similarity.
    destruct (Nat.eqb_spec (length (frame tn)) (length (frame cn))) as [E|_];
      [contradiction|reflexivity].
  - intros L self p1 p2 Hne H1 H2 Hm.
    unfold PatternMatcher.calculate_similarity.
    assert (He : PatternMatcher.euclidean_similarity p1 p2 = Raise ValueError).
    { unfold PatternMatcher.euclidean_similarity.
      now rewrite broadcast_mismatch. }
    assert (Hw : PatternMatcher.weighted_similarity p1 p2 = Raise ValueError).
    { unfold PatternMatcher.weighted_similarity.
      now rewrite broadcast_mismatch. }
    destruct Hm as [Hm|[Hm|[Hm Hg]]]; rewrite Hm; try rewrite Hg; simpl.
    + now destruct (PatternMatcher.use_gpu self).
    + now destruct (PatternMatcher.use_gpu self).
    + unfold PatternMatcher.correlation_gpu.
      rewrite broadcast_mismatch; [reflexivity| | |];
        rewrite !length_map, !flatten_length; lia.
Qed.

(** C8, on frames of two and of three bars, and on patterns of two
    and of three rows. *)
Lemma similarity_of_unequal_lengths_witness :
  CandlePatternMatcher.calculate_pattern_similarity (L := Reference.libraries)
    (CandlePatternMatcher.min_max_normalize (firstn 2 prices))
    (CandlePatternMatcher.min_max_normalize (firstn 3 prices))
    "euclidean" None = 0%float
  /\ PatternMatcher.calculate_similarity (L := Reference.libraries) matcher
       (PatternMatcher.ohlc_values (firstn 2 prices))
       (PatternMatcher.ohlc_values (firstn 3 prices))
     = Raise ValueError.
Proof.
  split.
  - apply (proj1 similarity_of_unequal_lengths). simpl. lia.
  - apply (proj2 similarity_of_unequal_lengths); simpl; try lia. now left.
Defined.

(** C8 fails for [PatternMatcher]: the score of a pattern of two rows
    against one of three is no number, the subtraction raises, and a
    search for a target of two rows with windows of three raises at
    its first window. *)
Lemma gpu_similarity_raises :
  PatternMatcher.calculate_similarity (L := Reference.libraries) matcher
    (PatternMatcher.ohlc_values (firstn 2 prices))
    (PatternMatcher.ohlc_values (firstn 3 prices))
  = Raise ValueError
  /\ PatternMatcher.find_similar_patterns (L := Reference.libraries) matcher
       priced (PatternMatcher.ohlc_values (firstn 2 prices)) (Some "7203")
     = Raise ValueError.
Proof.
  split; vm_compute; reflexivity.
Qed.

(** ** Configurations that are not rejected *)


Lemma collect_raises {A R : Type} (entry : A -> Result (option R)) (e : PyExc) :
  forall l : list A,
    collect entry l = Raise e -> exists x, In x l /\ entry x = Raise e.
Proof.
  induction l as [|x t IH]; simpl; intros H; [discriminate|].
  destruct (entry x) as [o|e'] eqn:Ex; simpl in H.
  - destruct (collect entry t) as [rs|e'] eqn:Et; simpl in H; [discriminate|].
    inversion H; subst. destruct (IH eq_refl) as (y & Hy & Ey). exists y. auto.
  - inversion H; subst. exists x. auto.
Qed.

Section Unchecked.

Context {L : Libraries}.

Lemma normalize_fallback (nm : string) (w : DataFrame) :
  nm <> "relative" ->
  CandlePatternMatcher.normalize nm w = CandlePatternMatcher.normalize "minmax" w.
Proof.
  intros H. unfold CandlePatternMatcher.normalize.
  destruct (String.eqb_spec nm "relative") as [E|_]; [contradiction|reflexivity].
Qed.

Lemma normalize_raises (nm : string) (w : DataFrame) (e : PyExc) :
  CandlePatternMatcher.normalize nm w = Raise e -> e = IndexError.
Proof.
  unfold CandlePatternMatcher.normalize, CandlePatternMatcher.normalize_window.
  destruct (String.eqb nm "relative"); [|discriminate].
  assert (Hl : forall (A : Type) (l : list A) e', iloc_last l = Raise e' -> e' = IndexError).
  { intros A l e'. induction l as [|x [|y t] IH]; simpl; intros H.
    - now inversion H.
    - discriminate.
    - now apply IH. }
  destruct (iloc_last (map close w)) as [b|e1] eqn:E1; simpl.
  - destruct (iloc_last (map volume w)) as [v|e2] eqn:E2; simpl; [discriminate|].
    intros H. inversion H; subst. eapply Hl, E2.
  - intros H. inversion H; subst. eapply Hl, E1.
Qed.

Lemma candidate_raises (cw fd : DataFrame) (s : float) (e : PyExc) :
  CandlePatternMatcher.candidate cw fd s = Raise e -> e = IndexError.
Proof.
  assert (Hl : forall (A : Type) (l : list A) e', iloc_last l = Raise e' -> e' = IndexError).
  { intros A l e'. induction l as [|x [|y t] IH]; simpl; intros H.
    - now inversion H.
    - discriminate.
    - now apply IH. }
  assert (Hf : forall (A : Type) (l : list A) e', iloc_first l = Raise e' -> e' = IndexError).
  { intros A [|x t] e'; simpl; intros H; [now inversion H|discriminate]. }
  unfold CandlePatternMatcher.candidate.
  destruct (iloc_last (map close cw)) as [sp|e1] eqn:E1; simpl;
    [|intros H; inversion H; subst; eapply Hl, E1].
  destruct (iloc_last (map close fd)) as [ep|e2] eqn:E2; simpl;
    [|intros H; inversion H; subst; eapply Hl, E2].
  destruct (iloc_first (map timestamp cw)) as [fl|e3] eqn:E3; simpl;
    [|intros H; inversion H; subst; eapply Hf, E3].
  destruct (iloc_last (map timestamp cw)) as [ll|e4] eqn:E4; simpl;
    [discriminate|intros H; inversion H; subst; eapply Hl, E4].
Qed.

Lemma scan_entry_raises (df : DataFrame) (tei ws la : Z) (m : float)
  (method nm : string) (tn : NormFrame) (i : Z) (e : PyExc) :
  CandlePatternMatcher.scan_entry df tei ws la m method nm tn i = Raise e ->
  e = IndexError.
Proof.
  unfold CandlePatternMatcher.scan_entry.
  destruct (Z.abs (i - tei) <? ws); [discriminate|].
  destruct (CandlePatternMatcher.normalize nm _) as [cn|e1] eqn:En; simpl;
    [|intros H; inversion H; subst; eapply normalize_raises, En].
  destruct (m <=? _)%float; [|discriminate].
  destruct (_ =? la); [|discriminate].
  destruct (CandlePatternMatcher.candidate _ _ _) as [r|e2] eqn:Ec; simpl;
    [discriminate|intros H; inversion H; subst; eapply candidate_raises, Ec].
Qed.



End Unchecked.




(** ** The contract of [sort_values] *)

Module ReferenceFacts.

Import Reference.


Lemma insert_key_perm (kj : float * nat) (l : list (float * nat)) :
  Permutation (insert_key kj l) (kj :: l).
Proof.
  induction l as [|y t IH]; simpl; [reflexivity|].
  destruct (fst y <? fst kj)%float; [reflexivity|].
  rewrite IH. apply perm_swap.
Qed.

Lemma insertion_perm (l : list (float * nat)) :
  forall acc,
    Permutation (fold_left (fun a kj => insert_key kj a) l acc) (acc ++ l).
Proof.
  induction l as [|x t IH]; intros acc; simpl.
  - now rewrite app_nil_r.
  - rewrite IH, insert_key_perm. apply Permutation_middle.
Qed.

Lemma insert_key_sorted (kj : float * nat) (l : list (float * nat)) :
  has_key kj = true -> Forall (fun a => has_key a = true) l ->
  StronglySorted key_desc l ->
  StronglySorted key_desc (insert_key kj l).
Proof.
  unfold has_key, key_desc. intros Hk Hall Hs.
  apply negb_true_iff in Hk.
  induction l as [|y t IH]; simpl; [repeat constructor|].
  inversion Hall as [|? ? Hy Ht]; subst. apply negb_true_iff in Hy.
  inversion Hs as [|? ? Hst Hle]; subst.
  destruct (fst y <? fst kj)%float eqn:E.
  - constructor; [exact Hs|].
    constructor; [now apply ltb_leb|].
    rewrite Forall_forall in Hle |- *. intros z Hz.
    eapply leb_trans; [apply Hle, Hz|now apply ltb_leb].
  - constructor; [now apply IH|].
    rewrite Forall_forall in Hle |- *. intros z Hz.
    apply (Permutation_in _ (insert_key_perm kj t)) in Hz.
    destruct Hz as [<-|Hz]; [now apply ltb_false_leb|now apply Hle].
Qed.

Lemma insertion_sorted (l : list (float * nat)) :
  Forall (fun a => has_key a = true) l ->
  forall acc,
    Forall (fun a => has_key a = true) acc ->
    StronglySorted key_desc acc ->
    StronglySorted key_desc (fold_left (fun a kj => insert_key kj a) l acc).
Proof.
  induction 1 as [|x t Hx Ht IH]; intros acc Hacc Hs; simpl; [exact Hs|].
  apply IH.
  - eapply Permutation_Forall; [symmetry; apply insert_key_perm|].
    now constructor.
  - now apply insert_key_sorted.
Qed.

Lemma filter_partition {A : Type} (f : A -> bool) (l : list A) :
  Permutation (filter f l ++ filter (fun x => negb (f x)) l) l.
Proof.
  induction l as [|x t IH]; simpl; [reflexivity|].
  destruct (f x); simpl.
  - now constructor.
  - rewrite <- Permutation_middle. now constructor.
Qed.

Lemma labelled_labels (keys : list float) :
  map snd (labelled keys) = seq 0 (length keys).
Proof.
  unfold labelled. generalize 0%nat as k.
  induction keys as [|x t IH]; intros k; simpl; [reflexivity|].
  now rewrite IH.
Qed.

Lemma labelled_nth (keys : list float) (kj : float * nat) :
  In kj (labelled keys) -> nth (snd kj) keys PrimFloat.nan = fst kj.
Proof.
  unfold labelled.
  enough (H : forall k, In kj (combine keys (seq k (length keys))) ->
                        (k <= snd kj)%nat
                        /\ nth (snd kj - k) keys PrimFloat.nan = fst kj).
  { intros Hin. destruct (H 0%nat Hin) as [_ E]. now rewrite Nat.sub_0_r in E. }
  induction keys as [|x t IH]; intros k; simpl; [contradiction|].
  intros [<-|Hin]; simpl.
  - rewrite Nat.sub_diag. auto.
  - destruct (IH (S k) Hin) as [Hle E]. split; [lia|].
    replace (snd kj - k)%nat with (S (snd kj - S k)) by lia. exact E.
Qed.

Lemma argsort_permutation (keys : list float) :
  Permutation (sort_values_desc keys) (seq 0 (length keys)).
Proof.
  unfold sort_values_desc. rewrite <- labelled_labels, <- map_app.
  apply Permutation_map.
  rewrite (insertion_perm _ []). simpl.
  apply filter_partition.
Qed.

Lemma argsort_descending (keys : list float) :
  Forall (fun k => PrimFloat.is_nan k = false) keys ->
  StronglySorted
    (fun j1 j2 =>
       (nth j2 keys PrimFloat.nan <=? nth j1 keys PrimFloat.nan)%float = true)
    (sort_values_desc keys).
Proof.
  intros Hnum. unfold sort_values_desc.
  assert (Hall : Forall (fun a => has_key a = true) (labelled keys)).
  { apply Forall_forall. intros kj Hin. unfold has_key.
    rewrite <- (labelled_nth keys kj Hin).
    assert (Hlt : (snd kj < length keys)%nat).
    { apply (in_map snd) in Hin. rewrite labelled_labels in Hin.
      apply in_seq in Hin. lia. }
    rewrite Forall_forall in Hnum.
    now rewrite (Hnum _ (nth_In keys PrimFloat.nan Hlt)). }
  assert (Hp : filter has_key (labelled keys) = labelled keys).
  { clear -Hall. induction Hall as [|x t Hx _ IH]; simpl; [reflexivity|].
    now rewrite Hx, IH. }
  assert (Hm : filter (fun kj => negb (has_key kj)) (labelled keys) = []).
  { clear -Hall. induction Hall as [|x t Hx _ IH]; simpl; [reflexivity|].
    now rewrite Hx. }
  rewrite Hp, Hm. simpl. rewrite app_nil_r.
  pose proof (insertion_sorted (labelled keys) Hall []
                (Forall_nil _) (SSorted_nil _)) as Hs.
  pose proof (insertion_perm (labelled keys) []) as Hperm.
  simpl in Hperm.
  set (sorted := fold_left _ _ _) in *.
  assert (Hin : forall kj, In kj sorted -> In kj (labelled keys)).
  { intros kj H. eapply Permutation_in; eauto. }
  clearbody sorted. clear Hperm Hp Hm Hall.
  induction Hs as [|kj t Hst IH Hle]; simpl; [constructor|].
  constructor.
  - apply IH. intros a Ha. apply Hin. now right.
  - rewrite Forall_forall in Hle. apply Forall_forall. intros j Hj.
    apply in_map_iff in Hj. destruct Hj as (a & <- & Ha).
    rewrite (labelled_nth keys a), (labelled_nth keys kj).
    + now apply Hle.
    + apply Hin. now left.
    + apply Hin. now right.
Qed.

Lemma reference_sort_is_permutation : sort_is_permutation Reference.libraries.
Proof. intros keys. apply argsort_permutation. Qed.

Lemma reference_sort_is_descending : sort_is_descending Reference.libraries.
Proof. intros keys. apply argsort_descending. Qed.

End ReferenceFacts.

(** ** Ranking and thresholds *)

Section Ranking.

Context {L : Libraries}.

Lemma results_frame_bound (results rows : list CandlePatternMatcher.Match) (top_n : Z) :
  CandlePatternMatcher.results_frame results top_n = Ok rows ->
  0 <= top_n -> Z.of_nat (length rows) <= top_n.
Proof.
  unfold CandlePatternMatcher.results_frame. intros H Hn.
  destruct results as [|r0 rest]; [inversion H; subst; simpl; lia|].
  apply CandleFacts.attach_length in H. rewrite H, head_length.
  destruct (top_n <? 0) eqn:E; lia.
Qed.



Lemma attach_sorted (results : list CandlePatternMatcher.Match)
  (R : CandlePatternMatcher.Match -> CandlePatternMatcher.Match -> Prop)
  (R' : nat -> nat -> Prop) :
  (forall j1 j2 r1 r2,
      nth_error results j1 = Some r1 -> nth_error results j2 = Some r2 ->
      R' j1 j2 ->
      R (CandlePatternMatcher.frame_row r1) (CandlePatternMatcher.frame_row r2)) ->
  forall labels rows,
    StronglySorted R' labels ->
    CandlePatternMatcher.attach results labels = Ok rows ->
    StronglySorted R rows.
Proof.
  intros HR. induction labels as [|j t IH]; simpl; intros rows Hs Ha.
  - inversion Ha; subst. constructor.
  - destruct (nth_error results j) as [r0|] eqn:Ej; [|discriminate].
    destruct (CandlePatternMatcher.attach results t) as [rest|e] eqn:Et;
      simpl in Ha; [|discriminate].
    inversion Ha; subst; clear Ha.
    inversion Hs as [|? ? Hst Hall]; subst.
    constructor; [now apply IH|].
    apply Forall_forall. intros r Hr.
    apply (in_map (fun r => Some r)) in Hr.
    rewrite (CandleFacts.attach_map _ _ _ Et) in Hr.
    apply in_map_iff in Hr. destruct Hr as (j' & Ej' & Hj').
    destruct (nth_error results j') as [r'|] eqn:Er'; [|discriminate].
    inversion Ej'; subst.
    rewrite Forall_forall in Hall. eapply HR; eauto.
Qed.

(** A recorded candidate has a similarity, a number not below the
    threshold. *)
Lemma recorded_similarity (df : DataFrame) (tei ws la : Z) (m : float)
  (method nm : string) (tn : NormFrame) (i : Z) (r : CandlePatternMatcher.Match) :
  CandlePatternMatcher.scan_entry df tei ws la m method nm tn i = Ok (Some r) ->
  (m <=? CandlePatternMatcher.similarity r)%float = true.
Proof.
  intros H. apply CandleFacts.scan_entry_recorded in H.
  destruct H as (_ & _ & cn & _ & Hs & Hc).
  destruct (CandleFacts.candidate_fields _ _ _ _ Hc)
    as (sp & ep & _ & _ & _ & _ & -> & _). exact Hs.
Qed.



End Ranking.



(** X27. The rows [CandlePatternMatcher] returns are in descending
    order of similarity, and at most [top_n] of them for a
    non-negative [top_n], provided the sort of the library sorts (the
    order among rows of equal similarity is the one the library
    gives them: the frame is sorted with the default [kind]).  The
    entries
    [PatternMatcher] returns are in descending order of similarity,
    entries of equal similarity by ascending start index (its sort is
    stable), and at most [top_n] of them for a non-negative
    [top_n]. *)
Theorem result_order :
  (forall (L : Libraries) (df : DataFrame) (tei ws la top_n : Z) (m : float)
          (method nm : string) (excl : Z)
          (rows : list CandlePatternMatcher.Match) (tw : DataFrame),
      sort_is_descending L ->
      CandlePatternMatcher.find_similar_patterns df tei ws la top_n m method nm excl
      = Ok (rows, tw) ->
      StronglySorted
        (fun a b => (CandlePatternMatcher.similarity b
                     <=? CandlePatternMatcher.similarity a)%float = true)
        rows
      /\ (0 <= top_n -> Z.of_nat (length rows) <= top_n))
  /\ (forall (L : Libraries) (self : PatternMatcher.Config)
             (data : PatternMatcher.Frame) (target : PatternMatcher.Pattern)
             (sym : option string) (rows : list PatternMatcher.Match),
         PatternMatcher.find_similar_patterns self data target sym = Ok rows ->
         StronglySorted
           (fun a b =>
              (PatternMatcher.similarity b <=? PatternMatcher.similarity a)%float = true
              /\ ((PatternMatcher.similarity a <=? PatternMatcher.similarity b)%float
                  = true ->
                  PatternMatcher.match_index a < PatternMatcher.match_index b))
           rows
         /\ (0 <= PatternMatcher.top_n self ->
             Z.of_nat (length rows) <= PatternMatcher.top_n self)).
Proof.
  split.
  - intros L df tei ws la top_n m method nm excl rows tw Hd H.
    destruct (CandleFacts.find_similar_patterns_inv _ _ _ _ _ _ _ _ _ _ _ H)
      as (tn & results & _ & _ & _ & Hc & Hr).
    split; [|intros Hn; eapply results_frame_bound; eauto].
    unfold CandlePatternMatcher.results_frame in Hr.
    destruct results as [|r0 rest]; [inversion Hr; constructor|].
    set (results := r0 :: rest) in *.
    assert (Hnum : Forall (fun k => PrimFloat.is_nan k = false)
                     (map CandlePatternMatcher.similarity results)).
    { apply Forall_forall. intros k Hk. apply in_map_iff in Hk.
      destruct Hk as (r & <- & Hin).
      destruct (collect_In _ _ _ _ Hc Hin) as (i & _ & Ei).
      apply recorded_similarity in Ei. apply leb_key in Ei. tauto. }
    eapply attach_sorted; [|apply GpuFacts.head_sorted, (Hd _ Hnum)|exact Hr].
    intros j1 j2 r1 r2 E1 E2 Hle. cbv beta in Hle.
    rewrite (nth_error_nth _ _ _ (map_nth_error CandlePatternMatcher.similarity _ _ E1)),
      (nth_error_nth _ _ _ (map_nth_error CandlePatternMatcher.similarity _ _ E2)) in Hle.
    exact Hle.
  - intros L self data target sym rows H.
    destruct (GpuFacts.entries_inv _ _ _ _ _ H)
      as (tn & results & _ & Hc & ->).
    split.
    + apply GpuFacts.head_sorted, GpuFacts.sort_desc_sorted.
      * apply Forall_forall. intros r Hin.
        destruct (collect_In _ _ _ _ Hc Hin) as (i & _ & Ei).
        destruct (GpuFacts.scan_entry_fields _ _ _ _ _ _ Ei) as (_ & Hs & _).
        apply leb_key in Hs. unfold has_score. tauto.
      * eapply collect_sorted; [|apply py_range_sorted|exact Hc].
        intros i r Ei.
        now destruct (GpuFacts.scan_entry_fields _ _ _ _ _ _ Ei) as (Hi & _).
    + intros Hn. rewrite head_length.
      destruct (PatternMatcher.top_n self <? 0) eqn:E; lia.
Qed.

(** X27, on the ten example bars. *)
Lemma result_order_witness :
  exists rows tw,
    CandlePatternMatcher.find_similar_patterns (L := Reference.libraries)
      prices (-1) 3 2 3 0%float "euclidean" "minmax" 0 = Ok (rows, tw)
    /\ map CandlePatternMatcher.similarity rows
       = [0.80608587603407211; 0.78860902704760816; 0.75600154919000773]%float
    /\ StronglySorted
         (fun a b => (CandlePatternMatcher.similarity b
                      <=? CandlePatternMatcher.similarity a)%float = true)
         rows
    /\ Z.of_nat (length rows) <= 3
    /\ exists grows,
         PatternMatcher.find_similar_patterns (L := Reference.libraries)
           (PatternMatcher.mkConfig 3 1 4 0%float "cosine" false "minmax")
           priced last_pattern (Some "7203") = Ok grows
         /\ map PatternMatcher.similarity grows = [0; 0; 0; 0]%float
         /\ map PatternMatcher.match_index grows = [0; 1; 2; 3]
         /\ StronglySorted ranks_before grows
         /\ Z.of_nat (length grows) <= 4.
Proof.
  eexists; eexists. split; [vm_compute; reflexivity|].
  split; [reflexivity|].
  destruct (proj1 result_order Reference.libraries prices (-1) 3 2 3 0%float
              "euclidean" "minmax" 0 _ _
              ReferenceFacts.reference_sort_is_descending
              ltac:(vm_compute; reflexivity)) as [Hs Hn].
  split; [exact Hs|]. split; [apply Hn; lia|].
  eexists. split; [vm_compute; reflexivity|].
  split; [reflexivity|]. split; [reflexivity|].
  destruct (proj2 result_order Reference.libraries
              (PatternMatcher.mkConfig 3 1 4 0%float "cosine" false "minmax")
              priced last_pattern (Some "7203") _
              ltac:(vm_compute; reflexivity)) as [Gs Gn].
  split; [exact Gs|apply Gn; simpl; lia].
Defined.

(** With the sort of the examples, which puts a row after the rows of
    equal key, candidates of equal similarity come back earliest
    first: under ['euclidean'] with ['relative'] every candidate of
    the example bars scores 0.5. *)
Example ties_with_the_reference_sort :
  exists rows tw,
    CandlePatternMatcher.find_similar_patterns (L := Reference.libraries)
      prices (-1) 3 2 10 0%float "euclidean" "relative" 0 = Ok (rows, tw)
    /\ map CandlePatternMatcher.similarity rows = [0.5; 0.5; 0.5; 0.5; 0.5]%float
    /\ map CandlePatternMatcher.start_date rows = [0; 1; 2; 3; 4].
Proof.
  eexists; eexists. split; [vm_compute; reflexivity|].
  split; reflexivity.
Qed.

(** * Further properties of [CandlePatternMatcher] *)

(** ** The target window *)


(** X1. When the resolved target index is not negative and the window
    size is not negative, a search that returns hands back as target
    window exactly the [window_size] rows that end at the target index;
    with a positive window size the target index lies inside the
    frame. *)
Theorem target_window_ends_at_target :
  forall (L : Libraries) (df : DataFrame) (tei ws la top_n : Z) (m : float)
         (method nm : string) (excl : Z)
         (rows : list CandlePatternMatcher.Match) (tw : DataFrame),
    0 <= ws ->
    0 <= CandlePatternMatcher.resolve_end_index df tei ->
    CandlePatternMatcher.find_similar_patterns df tei ws la top_n m method nm excl
    = Ok (rows, tw) ->
    let e := CandlePatternMatcher.resolve_end_index df tei in
    tw = iloc_slice df (e - ws + 1) (e + 1)
    /\ Z.of_nat (length tw) = ws
    /\ (0 < ws -> e < Z.of_nat (length df)).
Proof.
  intros L df tei ws la top_n m method nm excl rows tw.
  apply CandleFacts.returned_target_window.
Qed.

(** X1, on the ten example bars: the target is the last three rows. *)
Lemma target_window_ends_at_target_witness :
  exists rows,
    CandlePatternMatcher.find_similar_patterns (L := Reference.libraries)
      prices (-1) 3 2 10 0%float "euclidean" "minmax" 0
    = Ok (rows, [bar 7 108; bar 8 111; bar 9 112]).
Proof.
  assert (E : exists rows tw,
             CandlePatternMatcher.find_similar_patterns (L := Reference.libraries)
               prices (-1) 3 2 10 0%float "euclidean" "minmax" 0 = Ok (rows, tw))
    by (eexists; eexists; vm_compute; reflexivity).
  destruct E as (rows & tw & E). exists rows.
  destruct (target_window_ends_at_target Reference.libraries prices (-1) 3 2 10
              0%float "euclidean" "minmax" 0 rows tw ltac:(lia)
              ltac:(vm_compute; discriminate) E) as (Htw & _).
  rewrite E, Htw. reflexivity.
Defined.

(** X2. With a window size of at least 1 the search raises [ValueError]
    on an empty frame, on a target index with fewer than [window_size]
    rows up to it, and on a target index at or past the end of the
    frame. *)
Theorem target_outside_the_frame :
  forall (L : Libraries) (df : DataFrame) (tei ws la top_n : Z) (m : float)
         (method nm : string) (excl : Z),
    1 <= ws ->
    let e := CandlePatternMatcher.resolve_end_index df tei in
    let n := Z.of_nat (length df) in
    n = 0 \/ (0 <= e /\ (e + 1 < ws \/ n <= e)) ->
    CandlePatternMatcher.find_similar_patterns df tei ws la top_n m method nm excl
    = Raise ValueError.
Proof.
  intros L df tei ws la top_n m method nm excl Hws e n Hout.
  rewrite CandleFacts.find_similar_patterns_unfold. cbv zeta. fold e.
  assert (Hlen : Z.of_nat (length (iloc_slice df (Z.max 0 (e - ws + 1)) (e + 1))) < ws).
  { rewrite iloc_slice_length. unfold slice_bound. fold n.
    destruct (e + 1 <? 0) eqn:E1; destruct (Z.max 0 (e - ws + 1) <? 0) eqn:E2; lia. }
  apply Z.ltb_lt in Hlen. now rewrite Hlen.
Qed.

(** X2, on an empty frame, on a target with two rows up to it and on a
    target past the end. *)
Lemma target_outside_the_frame_witness :
  CandlePatternMatcher.find_similar_patterns (L := Reference.libraries)
    [] (-1) 3 2 10 0.6%float "correlation" "relative" 0 = Raise ValueError
  /\ CandlePatternMatcher.find_similar_patterns (L := Reference.libraries)
       prices 1 3 2 10 0.6%float "correlation" "relative" 0 = Raise ValueError
  /\ CandlePatternMatcher.find_similar_patterns (L := Reference.libraries)
       prices 10 3 2 10 0.6%float "correlation" "relative" 0 = Raise ValueError.
Proof.
  split; [|split].
  - apply (target_outside_the_frame Reference.libraries [] (-1) 3 2 10 0.6%float
             "correlation" "relative" 0); [lia|left; reflexivity].
  - apply (target_outside_the_frame Reference.libraries prices 1 3 2 10 0.6%float
             "correlation" "relative" 0); [lia|right; vm_compute; intuition discriminate].
  - apply (target_outside_the_frame Reference.libraries prices 10 3 2 10 0.6%float
             "correlation" "relative" 0); [lia|right; vm_compute; intuition discriminate].
Defined.

(** ** Where the candidates lie *)


(** X3. Every returned candidate is dated as the window of exactly
    [window_size] rows that ends at some row [i >= window_size - 1] of
    the frame; exactly [lookahead] rows follow that window, and the
    last [exclude_recent_days] rows of the frame are in neither: [i +
    lookahead + exclude_recent_days < len(df)]. *)
Theorem candidates_lie_inside_the_frame :
  forall (L : Libraries) (df : DataFrame) (tei ws la top_n : Z) (m : float)
         (method nm : string) (excl : Z)
         (rows : list CandlePatternMatcher.Match) (tw : DataFrame),
    0 <= ws -> 0 <= excl ->
    CandlePatternMatcher.find_similar_patterns df tei ws la top_n m method nm excl
    = Ok (rows, tw) ->
    forall r, In r rows ->
      exists i,
        ws - 1 <= i
        /\ i + la + excl < Z.of_nat (length df)
        /\ ends_at df ws i r
        /\ Z.of_nat (length (iloc_slice df (i - ws + 1) (i + 1))) = ws
        /\ Z.of_nat (length (iloc_slice df (i + 1) (i + la + 1))) = la.
Proof.
  intros L df tei ws la top_n m method nm excl rows tw Hws Hex H r Hin.
  destruct (CandleFacts.returned_recorded _ _ _ _ _ _ _ _ _ _ _ _ H Hin)
    as (tn & i & entry & _ & Hi & Hrec & ->).
  destruct (CandleFacts.recorded_inside _ _ _ _ _ _ _ _ _ _ _ Hws Hex Hi Hrec)
    as (_ & Hb & Hl & Hf & _).
  destruct (CandleFacts.recorded_columns _ _ _ _ _ _ _ _ _ _ Hrec) as (Hat & _).
  exists i. repeat split; trivial; try apply Hat. lia.
Qed.

(** X3, on the ten example bars with the last four rows excluded. *)
Lemma candidates_lie_inside_the_frame_witness :
  exists rows tw,
    CandlePatternMatcher.find_similar_patterns (L := Reference.libraries)
      prices (-1) 3 2 10 0%float "euclidean" "minmax" 4 = Ok (rows, tw)
    /\ length rows = 2%nat
    /\ forall r, In r rows ->
         exists i,
           3 - 1 <= i
           /\ i + 2 + 4 < 10
           /\ ends_at prices 3 i r
           /\ Z.of_nat (length (iloc_slice prices (i - 3 + 1) (i + 1))) = 3
           /\ Z.of_nat (length (iloc_slice prices (i + 1) (i + 2 + 1))) = 2.
Proof.
  eexists; eexists. split; [vm_compute; reflexivity|].
  split; [reflexivity|].
  intros r Hin.
  eapply (candidates_lie_inside_the_frame Reference.libraries prices (-1) 3 2 10
            0%float "euclidean" "minmax" 4); [lia|lia| |exact Hin].
  vm_compute; reflexivity.
Defined.



(** ** A method and a normalization that do not go together *)

Section Mismatch.

Context {L : Libraries}.

(** The frames of [min_max_normalize] have no ['*_norm'] column: the
    two correlation methods find nothing to correlate. *)
Lemma correlation_of_minmax_frames (a b : DataFrame) (method : string) :
  method = "correlation" \/ method = "weighted" ->
  CandlePatternMatcher.calculate_pattern_similarity
    (CandlePatternMatcher.min_max_normalize a)
    (CandlePatternMatcher.min_max_normalize b) method None = 0%float.
Proof.
  intros [->| ->]; unfold CandlePatternMatcher.calculate_pattern_similarity;
    destruct (negb _); reflexivity.
Qed.

(** The frames of [normalize_window] have no ['*_minmax'] column: the
    list of distances stays empty and the average distance is 1.0. *)
Lemma euclidean_of_relative_frames (a b : DataFrame) (na nb : NormFrame) :
  CandlePatternMatcher.normalize_window a None = Ok na ->
  CandlePatternMatcher.normalize_window b None = Ok nb ->
  length a = length b ->
  CandlePatternMatcher.calculate_pattern_similarity na nb "euclidean" None
  = 0.5%float.
Proof.
  unfold CandlePatternMatcher.normalize_window. intros Ha Hb Hl.
  destruct (iloc_last (map close a)) as [ca|e]; simpl in Ha; [|discriminate].
  destruct (iloc_last (map volume a)) as [va|e]; simpl in Ha; [|discriminate].
  destruct (iloc_last (map close b)) as [cb|e]; simpl in Hb; [|discriminate].
  destruct (iloc_last (map volume b)) as [vb|e]; simpl in Hb; [|discriminate].
  inversion Ha; subst na. inversion Hb; subst nb.
  unfold CandlePatternMatcher.calculate_pattern_similarity. cbn [frame].
  rewrite Hl, Nat.eqb_refl. reflexivity.
Qed.

End Mismatch.

(** X5. The methods ['correlation'] and ['weighted'] read the
    ['*_norm'] columns, which only the ['relative'] normalization
    makes.  Under any other [normalize_method] every returned candidate
    has similarity 0.0, and with a threshold above zero the search
    returns no candidate at all. *)
Theorem correlation_needs_relative_normalization :
  forall (L : Libraries) (df : DataFrame) (tei ws la top_n : Z) (m : float)
         (method nm : string) (excl : Z)
         (rows : list CandlePatternMatcher.Match) (tw : DataFrame),
    method = "correlation" \/ method = "weighted" ->
    nm <> "relative" ->
    CandlePatternMatcher.find_similar_patterns df tei ws la top_n m method nm excl
    = Ok (rows, tw) ->
    (forall r, In r rows -> CandlePatternMatcher.similarity r = 0%float)
    /\ ((m <=? 0)%float = false -> rows = []).
Proof.
  intros L df tei ws la top_n m method nm excl rows tw Hm Hnm H.
  assert (Hz : forall r, In r rows ->
                 CandlePatternMatcher.similarity r = 0%float
                 /\ (m <=? 0)%float = true).
  { intros r Hin.
    destruct (CandleFacts.returned_recorded _ _ _ _ _ _ _ _ _ _ _ _ H Hin)
      as (tn & i & entry & Hn & _ & Hrec & ->).
    destruct Hrec as (_ & _ & cn & Hcn & Hs & Hc).
    destruct (CandleFacts.candidate_fields _ _ _ _ Hc)
      as (sp & ep & _ & _ & _ & _ & Hsim & _).
    cbn [CandlePatternMatcher.frame_row CandlePatternMatcher.similarity].
    rewrite (normalize_fallback nm _ Hnm) in Hn.
    rewrite (normalize_fallback nm _ Hnm) in Hcn.
    inversion Hn; subst tn. inversion Hcn; subst cn.
    rewrite (correlation_of_minmax_frames _ _ _ Hm) in Hs, Hsim. auto. }
  split.
  - intros r Hin. now apply Hz.
  - intros Hpos. destruct rows as [|r rest]; [reflexivity|].
    destruct (Hz r (or_introl eq_refl)) as [_ Hle]. congruence.
Qed.

(** X5, on the ten example bars: nothing is found above 0.6. *)
Lemma correlation_needs_relative_normalization_witness :
  exists tw,
    CandlePatternMatcher.find_similar_patterns (L := Reference.libraries)
      prices (-1) 3 2 10 0.6%float "correlation" "minmax" 0 = Ok ([], tw).
Proof.
  assert (E : exists rows tw,
             CandlePatternMatcher.find_similar_patterns (L := Reference.libraries)
               prices (-1) 3 2 10 0.6%float "correlation" "minmax" 0 = Ok (rows, tw))
    by (eexists; eexists; vm_compute; reflexivity).
  destruct E as (rows & tw & E). exists tw.
  destruct (correlation_needs_relative_normalization Reference.libraries prices (-1) 3 2 10
              0.6%float "correlation" "minmax" 0 rows tw (or_introl eq_refl)
              ltac:(discriminate) E) as [_ Hnil].
  now rewrite <- (Hnil eq_refl).
Defined.

(** X6. The method ['euclidean'] reads the ['*_minmax'] columns, which
    the ['relative'] normalization does not make: no distance is
    computed, the average distance defaults to 1.0, and every returned
    candidate has similarity exactly 0.5 (target index inside the
    frame). *)
Theorem euclidean_needs_minmax_normalization :
  forall (L : Libraries) (df : DataFrame) (tei ws la top_n : Z) (m : float)
         (excl : Z) (rows : list CandlePatternMatcher.Match) (tw : DataFrame),
    0 <= ws -> 0 <= excl ->
    0 <= CandlePatternMatcher.resolve_end_index df tei ->
    CandlePatternMatcher.find_similar_patterns df tei ws la top_n m
      "euclidean" "relative" excl = Ok (rows, tw) ->
    forall r, In r rows -> CandlePatternMatcher.similarity r = 0.5%float.
Proof.
  intros L df tei ws la top_n m excl rows tw Hws Hex He H r Hin.
  destruct (CandleFacts.returned_target_window _ _ _ _ _ _ _ _ _ _ _ Hws He H)
    as (_ & Hlen & _).
  destruct (CandleFacts.returned_recorded _ _ _ _ _ _ _ _ _ _ _ _ H Hin)
    as (tn & i & entry & Hn & Hi & Hrec & ->).
  destruct (CandleFacts.recorded_inside _ _ _ _ _ _ _ _ _ _ _ Hws Hex Hi Hrec)
    as (_ & _ & Hl & _).
  destruct Hrec as (_ & _ & cn & Hcn & _ & Hc).
  destruct (CandleFacts.candidate_fields _ _ _ _ Hc)
    as (sp & ep & _ & _ & _ & _ & Hsim & _).
  cbn [CandlePatternMatcher.frame_row CandlePatternMatcher.similarity].
  rewrite Hsim.
  apply (euclidean_of_relative_frames tw (iloc_slice df (i - ws + 1) (i + 1)));
    trivial.
  lia.
Qed.

(** X6, on the ten example bars. *)
Lemma euclidean_needs_minmax_normalization_witness :
  exists rows tw,
    CandlePatternMatcher.find_similar_patterns (L := Reference.libraries)
      prices (-1) 3 2 10 0%float "euclidean" "relative" 0 = Ok (rows, tw)
    /\ length rows = 5%nat
    /\ forall r, In r rows -> CandlePatternMatcher.similarity r = 0.5%float.
Proof.
  eexists; eexists. split; [vm_compute; reflexivity|]. split; [reflexivity|].
  eapply (euclidean_needs_minmax_normalization Reference.libraries prices (-1) 3 2 10
            0%float 0); [lia|lia|vm_compute; discriminate|].
  vm_compute; reflexivity.
Defined.

(** ** The correlation score is a number *)

(** X7. The ['correlation'] score is never [nan], whatever
    [scipy.stats.pearsonr] returns or raises: an exception (a missing
    column, too few points) and a [nan] coefficient (a constant
    column) both give 0.0. *)
Theorem correlation_is_never_nan :
  forall (L : Libraries) (target_norm comparison_norm : NormFrame)
         (weights : option (list (string * float))),
    let score := CandlePatternMatcher.calculate_pattern_similarity
                   target_norm comparison_norm "correlation" weights in
    PrimFloat.is_nan score = false
    /\ (forall e,
          CandlePatternMatcher.column_correlation
            target_norm comparison_norm "close_norm" = Raise e ->
          score = 0%float)
    /\ (forall corr,
          CandlePatternMatcher.column_correlation
            target_norm comparison_norm "close_norm" = Ok corr ->
          PrimFloat.is_nan corr = true ->
          score = 0%float).
Proof.
  intros L t c w. cbv zeta.
  unfold CandlePatternMatcher.calculate_pattern_similarity.
  destruct (negb _); [repeat split; reflexivity|].
  change (String.eqb "correlation" "correlation") with true. cbv iota.
  destruct (CandlePatternMatcher.column_correlation t c "close_norm") as [corr|e];
    simpl.
  - split; [|split].
    + destruct (PrimFloat.is_nan corr) eqn:E; simpl; [reflexivity|exact E].
    + discriminate.
    + intros corr' H Hn. inversion H; subst. now rewrite Hn.
  - repeat split; trivial; discriminate.
Qed.

(** X7, on windows of one row, where the coefficient is undefined, and
    on a constant column. *)
Lemma correlation_is_never_nan_witness :
  CandlePatternMatcher.calculate_pattern_similarity (L := Reference.libraries)
    (mkNormFrame [bar 0 100] [("close_norm", [0%float])])
    (mkNormFrame [bar 1 102] [("close_norm", [0%float])])
    "correlation" None = 0%float
  /\ CandlePatternMatcher.calculate_pattern_similarity (L := Reference.libraries)
       (mkNormFrame [bar 0 100; bar 1 102] [("close_norm", [0; 0]%float)])
       (mkNormFrame [bar 2 101; bar 3 104] [("close_norm", [0; 1]%float)])
       "correlation" None = 0%float.
Proof.
  split.
  - apply (proj1 (proj2 (correlation_is_never_nan Reference.libraries
                           (mkNormFrame [bar 0 100] [("close_norm", [0%float])])
                           (mkNormFrame [bar 1 102] [("close_norm", [0%float])])
                           None)) ValueError).
    reflexivity.
  - apply (proj2 (proj2 (correlation_is_never_nan Reference.libraries
                           (mkNormFrame [bar 0 100; bar 1 102]
                              [("close_norm", [0; 0]%float)])
                           (mkNormFrame [bar 2 101; bar 3 104]
                              [("close_norm", [0; 1]%float)])
                           None)) PrimFloat.nan); reflexivity.
Defined.

(** ** Relative normalization *)

(** Subtracting a finite float from itself leaves zero. *)
Lemma sub_self (x : float) :
  PrimFloat.is_finite x = true -> (x - x)%float = 0%float.
Proof.
  intros H. apply Prim2SF_inj. rewrite FloatAxioms.sub_spec.
  change (Prim2SF 0%float) with (S754_zero false).
  destruct (is_finite_cases x H) as [[s ->]|(s & m & e & ->)].
  - now destruct s.
  - unfold SF64sub, SFsub. now rewrite Z.sub_diag.
Qed.

(** Zero over a float above zero is zero. *)
Lemma zero_div (x : float) :
  (0 <? x)%float = true -> (0 / x)%float = 0%float.
Proof.
  intros H. apply Prim2SF_inj. rewrite FloatAxioms.div_spec.
  rewrite FloatAxioms.ltb_spec in H.
  change (Prim2SF 0%float) with (S754_zero false) in *.
  destruct (Prim2SF x) as [s|s| |s m e]; try discriminate.
  - now destruct s.
  - destruct s; [discriminate|reflexivity].
Qed.

Lemma iloc_last_map {A B : Type} (f : A -> B) (l : list A) (x : A) :
  iloc_last l = Ok x -> iloc_last (map f l) = Ok (f x).
Proof.
  induction l as [|y [|z t] IH]; simpl; intros H.
  - discriminate.
  - now inversion H.
  - now apply IH.
Qed.

Lemma iloc_last_ok {A : Type} (l : list A) :
  l <> [] -> exists x, iloc_last l = Ok x.
Proof.
  induction l as [|y [|z t] IH]; intros H.
  - contradiction.
  - now exists y.
  - destruct IH as (x & Hx); [discriminate|]. exists x. exact Hx.
Qed.

(** X8. [normalize_window] raises [IndexError] on an empty window, also
    when a base close is given (the last volume is read in any case).
    On a window with rows it returns the frame with the five
    ['*_norm'] columns, one value per row.  With the default base, a
    finite last close above zero, the last value of ['close_norm'] is
    0: the window is expressed relative to its own last close. *)
Theorem relative_normalization_is_anchored :
  forall (window_df : DataFrame) (base_close : option float),
    (window_df = [] ->
     CandlePatternMatcher.normalize_window window_df base_close = Raise IndexError)
    /\ (window_df <> [] ->
        exists nf,
          CandlePatternMatcher.normalize_window window_df base_close = Ok nf
          /\ frame nf = window_df
          /\ forall name,
               In name ["open_norm"; "high_norm"; "low_norm"; "close_norm";
                        "volume_norm"] ->
               exists col,
                 get_column nf name = Ok col /\ length col = length window_df)
    /\ (forall last_close nf,
          iloc_last (map close window_df) = Ok last_close ->
          PrimFloat.is_finite last_close = true ->
          (0 <? last_close)%float = true ->
          CandlePatternMatcher.normalize_window window_df None = Ok nf ->
          exists col,
            get_column nf "close_norm" = Ok col
            /\ iloc_last col = Ok 0%float).
Proof.
  intros w base. split; [|split].
  - intros ->. unfold CandlePatternMatcher.normalize_window.
    destruct base; reflexivity.
  - intros Hw. unfold CandlePatternMatcher.normalize_window.
    assert (Hc : exists b,
               match base with
               | Some b => Ok b
               | None => iloc_last (map close w)
               end = Ok b).
    { destruct base as [b|]; [now exists b|].
      apply iloc_last_ok. destruct w; [contradiction|discriminate]. }
    destruct Hc as (b & ->).
    destruct (iloc_last_ok (map volume w)) as (v & ->);
      [destruct w; [contradiction|discriminate]|].
    simpl. eexists. split; [reflexivity|]. split; [reflexivity|].
    intros name Hin. simpl in Hin.
    destruct Hin as [<-|[<-|[<-|[<-|[<-|[]]]]]];
      (eexists; split; [reflexivity|]);
      try (now rewrite !length_map).
    destruct (0 <? v)%float; now rewrite !length_map.
  - intros c nf Hc Hfin Hpos. unfold CandlePatternMatcher.normalize_window.
    rewrite Hc.
    destruct (iloc_last (map volume w)) as [v|e]; simpl; [|discriminate].
    intros H. inversion H; subst nf. eexists. split; [reflexivity|].
    rewrite (iloc_last_map _ _ _ Hc).
    now rewrite (sub_self c Hfin), (zero_div c Hpos).
Qed.

(** X8, on the empty window and on a window of three bars. *)
Lemma relative_normalization_is_anchored_witness :
  CandlePatternMatcher.normalize_window [] (Some 100%float)
  = Raise IndexError
  /\ exists nf col,
       CandlePatternMatcher.normalize_window
         [bar 0 100; bar 1 102; bar 2 101] None = Ok nf
       /\ get_column nf "close_norm" = Ok col
       /\ iloc_last col = Ok 0%float.
Proof.
  split.
  - apply (proj1 (relative_normalization_is_anchored [] (Some 100%float))).
    reflexivity.
  - eexists. 
    destruct (proj2 (proj2 (relative_normalization_is_anchored
                              [bar 0 100; bar 1 102; bar 2 101] None))
                101%float _ eq_refl eq_refl eq_refl eq_refl) as (col & Hcol & Hlast).
    exists col. split; [reflexivity|]. split; assumption.
Defined.

(** X9. With [normalize_method='relative'] a window size of zero or
    less does not pass silently: the target window is empty, reading
    its last close raises, and the search ends in [IndexError]
    (target index inside the frame or past its end). *)
Theorem empty_windows_have_no_base :
  forall (L : Libraries) (df : DataFrame) (tei ws la top_n : Z) (m : float)
         (method : string) (excl : Z),
    ws <= 0 ->
    0 <= CandlePatternMatcher.resolve_end_index df tei ->
    CandlePatternMatcher.find_similar_patterns df tei ws la top_n m
      method "relative" excl = Raise IndexError.
Proof.
  intros L df tei ws la top_n m method excl Hws He.
  rewrite CandleFacts.find_similar_patterns_unfold. cbv zeta.
  set (e := CandlePatternMatcher.resolve_end_index df tei) in *.
  assert (Hlen : Z.of_nat (length (iloc_slice df (Z.max 0 (e - ws + 1)) (e + 1))) = 0).
  { rewrite iloc_slice_length. unfold slice_bound.
    destruct (e + 1 <? 0) eqn:E1; destruct (Z.max 0 (e - ws + 1) <? 0) eqn:E2; lia. }
  destruct (iloc_slice df (Z.max 0 (e - ws + 1)) (e + 1)) as [|b t];
    [|simpl in Hlen; lia].
  simpl length. destruct (Z.of_nat 0 <? ws) eqn:E; [apply Z.ltb_lt in E; simpl in E; lia|].
  reflexivity.
Qed.

(** X9, on the ten example bars with a window size of zero. *)
Lemma empty_windows_have_no_base_witness :
  CandlePatternMatcher.find_similar_patterns (L := Reference.libraries)
    prices (-1) 0 2 10 0.6%float "correlation" "relative" 0 = Raise IndexError.
Proof.
  apply (empty_windows_have_no_base Reference.libraries prices (-1) 0 2 10
           0.6%float "correlation" 0); [lia|vm_compute; discriminate].
Defined.

(** * When the search of [CandlePatternMatcher] raises *)

Lemma collect_ok {A R : Type} (entry : A -> Result (option R)) :
  forall l : list A,
    (forall x, In x l -> exists o, entry x = Ok o) ->
    exists rs, collect entry l = Ok rs.
Proof.
  induction l as [|x t IH]; intros H; simpl; [now exists []|].
  destruct (H x (or_introl eq_refl)) as (o & ->).
  destruct IH as (rs & ->); [intros y Hy; apply H; now right|].
  simpl. eexists; reflexivity.
Qed.

Lemma collect_raises_at {A R : Type} (entry : A -> Result (option R)) :
  forall (l : list A) (x : A) (e : PyExc),
    In x l -> entry x = Raise e -> exists e', collect entry l = Raise e'.
Proof.
  induction l as [|y t IH]; intros x e Hin Hx; [contradiction|]. simpl.
  destruct (entry y) as [o|e1] eqn:Ey; simpl; [|now exists e1].
  destruct Hin as [->|Hin]; [congruence|].
  destruct (IH x e Hin Hx) as (e' & ->). now exists e'.
Qed.

Lemma iloc_first_ok {A : Type} (l : list A) :
  l <> [] -> exists x, iloc_first l = Ok x.
Proof. destruct l as [|x t]; [contradiction|]. now exists x. Qed.

Lemma nonempty_of_length {A : Type} (l : list A) :
  0 < Z.of_nat (length l) -> l <> [].
Proof. destruct l; simpl; [lia|discriminate]. Qed.

Lemma map_nonempty {A B : Type} (f : A -> B) (l : list A) :
  l <> [] -> map f l <> [].
Proof. destruct l; [contradiction|discriminate]. Qed.

Section Returns.

Context {L : Libraries}.

Lemma normalize_ok (nm : string) (w : DataFrame) :
  w <> [] -> exists nf, CandlePatternMatcher.normalize nm w = Ok nf.
Proof.
  intros Hw. unfold CandlePatternMatcher.normalize.
  destruct (String.eqb nm "relative"); [|eexists; reflexivity].
  unfold CandlePatternMatcher.normalize_window.
  destruct (iloc_last_ok (map close w) (map_nonempty _ _ Hw)) as (c & ->).
  destruct (iloc_last_ok (map volume w) (map_nonempty _ _ Hw)) as (v & ->).
  simpl. eexists; reflexivity.
Qed.

Lemma candidate_ok (comp_window future_data : DataFrame) (s : float) :
  comp_window <> [] -> future_data <> [] ->
  exists r, CandlePatternMatcher.candidate comp_window future_data s = Ok r.
Proof.
  intros Hc Hf. unfold CandlePatternMatcher.candidate.
  destruct (iloc_last_ok (map close comp_window) (map_nonempty _ _ Hc)) as (sp & ->).
  destruct (iloc_last_ok (map close future_data) (map_nonempty _ _ Hf)) as (ep & ->).
  destruct (iloc_first_ok (map timestamp comp_window) (map_nonempty _ _ Hc))
    as (fl & ->).
  destruct (iloc_last_ok (map timestamp comp_window) (map_nonempty _ _ Hc))
    as (ll & ->).
  simpl. eexists; reflexivity.
Qed.

Lemma scan_entry_ok (df : DataFrame) (e ws la excl : Z) (m : float)
  (method nm : string) (tn : NormFrame) (i : Z) :
  1 <= ws -> 1 <= la -> 0 <= excl ->
  ws - 1 <= i < Z.of_nat (length df) - la - excl ->
  exists o, CandlePatternMatcher.scan_entry df e ws la m method nm tn i = Ok o.
Proof.
  intros Hws Hla Hex Hi. unfold CandlePatternMatcher.scan_entry.
  destruct (Z.abs (i - e) <? ws); [now exists None|].
  assert (Hc : iloc_slice df (i - ws + 1) (i + 1) <> []).
  { apply nonempty_of_length. rewrite iloc_slice_length. unfold slice_bound.
    destruct (i + 1 <? 0) eqn:E1; destruct (i - ws + 1 <? 0) eqn:E2; lia. }
  destruct (normalize_ok nm _ Hc) as (cn & ->). simpl.
  destruct (m <=? _)%float; [|now exists None].
  destruct (_ =? la) eqn:El; [|now exists None]. apply Z.eqb_eq in El.
  destruct (candidate_ok (iloc_slice df (i - ws + 1) (i + 1))
              (iloc_slice df (i + 1) (Z.min (i + la + 1) (Z.of_nat (length df))))
              (CandlePatternMatcher.calculate_pattern_similarity tn cn method None)
              Hc) as (r & ->).
  - apply nonempty_of_length. lia.
  - simpl. eexists; reflexivity.
Qed.

(** With no lookahead a window that qualifies has no future bar to
    read. *)
Lemma scan_entry_without_lookahead (df : DataFrame) (e ws : Z) (m : float)
  (method nm : string) (tn cn : NormFrame) (i : Z) :
  ws <= Z.abs (i - e) ->
  CandlePatternMatcher.normalize nm (iloc_slice df (i - ws + 1) (i + 1)) = Ok cn ->
  (m <=? CandlePatternMatcher.calculate_pattern_similarity tn cn method None)%float
  = true ->
  CandlePatternMatcher.scan_entry df e ws 0 m method nm tn i = Raise IndexError.
Proof.
  intros Hfar Hn Hs. unfold CandlePatternMatcher.scan_entry.
  apply Z.ltb_ge in Hfar. rewrite Hfar, Hn. simpl. rewrite Hs.
  assert (Hf : iloc_slice df (i + 1) (Z.min (i + 0 + 1) (Z.of_nat (length df))) = []).
  { apply length_zero_iff_nil. apply Nat2Z.inj. rewrite iloc_slice_length.
    unfold slice_bound.
    destruct (Z.min (i + 0 + 1) (Z.of_nat (length df)) <? 0) eqn:E1;
      destruct (i + 1 <? 0) eqn:E2; lia. }
  rewrite Hf. simpl. unfold CandlePatternMatcher.candidate.
  destruct (iloc_last (map close _)) as [sp|e'] eqn:E; simpl; [reflexivity|].
  f_equal. symmetry.
  assert (Hl : forall (A : Type) (l : list A) e1,
             iloc_last l = Raise e1 -> e1 = IndexError).
  { intros A l e1. induction l as [|x [|y t] IH]; simpl; intros H.
    - now inversion H.
    - discriminate.
    - now apply IH. }
  symmetry. eapply Hl, E.
Qed.

End Returns.

(** X10. With a window size and a lookahead of at least 1, no negative
    [exclude_recent_days] and a target index that has [window_size]
    rows up to it inside the frame, nothing raises before the result
    frame is built: the target window is cut and normalized and the
    whole scan runs, for every method, normalization and threshold.
    What the call returns is the result frame made of the recorded
    candidates, with the target window; with no candidate recorded it
    is the empty frame. *)
Theorem the_scan_raises_nothing :
  forall (L : Libraries) (df : DataFrame) (tei ws la top_n : Z) (m : float)
         (method nm : string) (excl : Z),
    1 <= ws -> 1 <= la -> 0 <= excl ->
    ws - 1 <= CandlePatternMatcher.resolve_end_index df tei < Z.of_nat (length df) ->
    exists (tw : DataFrame) (results : list CandlePatternMatcher.Match),
      CandlePatternMatcher.find_similar_patterns df tei ws la top_n m method nm excl
      = (rows <- CandlePatternMatcher.results_frame results top_n ;; Ok (rows, tw))
      /\ (results = [] ->
          CandlePatternMatcher.find_similar_patterns df tei ws la top_n m method nm excl
          = Ok ([], tw)).
Proof.
  intros L df tei ws la top_n m method nm excl Hws Hla Hex He.
  rewrite CandleFacts.find_similar_patterns_unfold. cbv zeta.
  set (e := CandlePatternMatcher.resolve_end_index df tei) in *.
  set (tw := iloc_slice df (Z.max 0 (e - ws + 1)) (e + 1)).
  assert (Hlen : Z.of_nat (length tw) = ws).
  { unfold tw. rewrite iloc_slice_length. unfold slice_bound.
    destruct (e + 1 <? 0) eqn:E1; destruct (Z.max 0 (e - ws + 1) <? 0) eqn:E2; lia. }
  destruct (Z.of_nat (length tw) <? ws) eqn:El; [apply Z.ltb_lt in El; lia|].
  destruct (normalize_ok nm tw) as (tn & ->); [apply nonempty_of_length; lia|].
  simpl.
  destruct (collect_ok
              (CandlePatternMatcher.scan_entry df e ws la m method nm tn)
              (py_range (ws - 1) (Z.of_nat (length df) - la - excl)))
    as (results & ->).
  { intros i Hi. apply py_range_In in Hi. now apply (scan_entry_ok df e ws la excl). }
  simpl. exists tw, results. split; [reflexivity|].
  intros ->. reflexivity.
Qed.

(** X10, on the ten example bars with the default method and
    normalization. *)
Lemma the_scan_raises_nothing_witness :
  exists (tw : DataFrame) (results : list CandlePatternMatcher.Match),
    CandlePatternMatcher.find_similar_patterns (L := Reference.libraries)
      prices (-1) 3 2 10 0.6%float "correlation" "relative" 0
    = (rows <- CandlePatternMatcher.results_frame (L := Reference.libraries)
                 results 10 ;;
       Ok (rows, tw)).
Proof.
  destruct (the_scan_raises_nothing Reference.libraries prices (-1) 3 2 10 0.6%float
              "correlation" "relative" 0 ltac:(lia) ltac:(lia) ltac:(lia)
              ltac:(vm_compute; split; [discriminate|reflexivity]))
    as (tw & results & H & _).
  now exists tw, results.
Defined.

(** X11. With [lookahead = 0] the search of [CandlePatternMatcher] never
    returns a candidate.  A window that passes the overlap test and
    the threshold has an empty future window, whose last close cannot
    be read: the search ends in [IndexError]; it returns, with an
    empty result, only when no window qualifies. *)
Theorem no_lookahead_no_candidate :
  forall (L : Libraries) (df : DataFrame) (tei ws top_n : Z) (m : float)
         (method nm : string) (excl : Z),
    let e := CandlePatternMatcher.resolve_end_index df tei in
    let tw := iloc_slice df (Z.max 0 (e - ws + 1)) (e + 1) in
    (forall rows tw',
        CandlePatternMatcher.find_similar_patterns df tei ws 0 top_n m method nm excl
        = Ok (rows, tw') -> rows = [])
    /\ (forall tn cn i,
          ws <= Z.of_nat (length tw) ->
          CandlePatternMatcher.normalize nm tw = Ok tn ->
          ws - 1 <= i < Z.of_nat (length df) - excl ->
          ws <= Z.abs (i - e) ->
          CandlePatternMatcher.normalize nm (iloc_slice df (i - ws + 1) (i + 1))
          = Ok cn ->
          (m <=? CandlePatternMatcher.calculate_pattern_similarity
                   tn cn method None)%float = true ->
          CandlePatternMatcher.find_similar_patterns df tei ws 0 top_n m method nm excl
          = Raise IndexError).
Proof.
  intros L df tei ws top_n m method nm excl e tw. split.
  - intros rows tw' H. destruct rows as [|r t]; [reflexivity|]. exfalso.
    destruct (CandleFacts.returned_recorded _ _ _ _ _ _ _ _ _ _ _ _ H
                (or_introl eq_refl)) as (tn & i & entry & _ & _ & Hrec & _).
    destruct Hrec as (_ & Hlen & cn & _ & _ & Hc).
    destruct (CandleFacts.candidate_fields _ _ _ _ Hc)
      as (sp & ep & _ & Hep & _).
    destruct (iloc_slice df (i + 1) (Z.min (i + 0 + 1) (Z.of_nat (length df))));
      [discriminate|simpl in Hlen; lia].
  - intros tn cn i Hlen Hn Hi Hfar Hcn Hs.
    rewrite CandleFacts.find_similar_patterns_unfold. cbv zeta. fold e. fold tw.
    destruct (Z.of_nat (length tw) <? ws) eqn:El; [apply Z.ltb_lt in El; lia|].
    rewrite Hn. simpl.
    destruct (collect_raises_at
                (CandlePatternMatcher.scan_entry df e ws 0 m method nm tn)
                (py_range (ws - 1) (Z.of_nat (length df) - 0 - excl)) i IndexError)
      as (e' & He').
    { apply py_range_In. lia. }
    { now apply (scan_entry_without_lookahead df e ws m method nm tn cn). }
    rewrite He'. simpl. f_equal.
    destruct (collect_raises _ _ _ He') as (j & _ & Ej).
    now apply scan_entry_raises in Ej.
Qed.

(** X11, on the ten example bars: the window ending at row 2 qualifies.
    *)
Lemma no_lookahead_no_candidate_witness :
  CandlePatternMatcher.find_similar_patterns (L := Reference.libraries)
    prices (-1) 3 0 10 0%float "euclidean" "minmax" 0 = Raise IndexError.
Proof.
  eapply (proj2 (no_lookahead_no_candidate Reference.libraries prices (-1) 3 10
                   0%float "euclidean" "minmax" 0) _ _ 2).
  - vm_compute. discriminate.
  - reflexivity.
  - simpl. lia.
  - vm_compute. discriminate.
  - reflexivity.
  - vm_compute. reflexivity.
Defined.

(** * Further properties of [PatternMatcher] *)

Module EntryFacts.

Import PatternMatcher.

Lemma iloc_at_map {A B : Type} (f : A -> B) (l : list A) (k : Z) (y : B) :
  iloc_at (map f l) k = Ok y ->
  exists x, iloc_at l k = Ok x /\ y = f x.
Proof.
  unfold iloc_at. rewrite length_map.
  destruct (_ || _); [discriminate|].
  rewrite nth_error_map.
  destruct (nth_error l _) as [x|]; simpl; [|discriminate].
  intros H. inversion H. now exists x.
Qed.

Lemma collect_length {A R : Type} (entry : A -> Result (option R)) :
  forall (l : list A) (rs : list R),
    collect entry l = Ok rs -> (length rs <= length l)%nat.
Proof.
  induction l as [|x t IH]; simpl; intros rs H.
  - inversion H. simpl. lia.
  - destruct (entry x) as [o|e]; simpl in H; [|discriminate].
    destruct (collect entry t) as [rs'|e]; simpl in H; [|discriminate].
    inversion H; subst. rewrite length_app. specialize (IH rs' eq_refl).
    destruct o; simpl; lia.
Qed.

Section Facts.

Context {L : Libraries}.
Variable self : Config.

(** What an entry says of its window. *)
Lemma scan_entry_describes (data : Frame) (tn : Pattern) (sym : option string)
  (i : Z) (r : Match) :
  scan_entry self data tn sym i = Ok (Some r) ->
  resolve_symbol data sym = Ok (symbol r)
  /\ (exists wn,
        normalize_pattern self
          (ohlc_values (iloc_slice (bars data) i (i + window_size self))) = Ok wn
        /\ calculate_similarity self tn wn = Ok (similarity r))
  /\ exists first_bar last_bar,
       iloc_at (bars data) i = Ok first_bar
       /\ iloc_at (bars data) (i + window_size self - 1) = Ok last_bar
       /\ start_date r = strftime (timestamp first_bar)
       /\ end_date r = strftime (timestamp last_bar)
       /\ start_price r = close first_bar
       /\ end_price r = close last_bar.
Proof.
  unfold scan_entry. intros H.
  destruct (normalize_pattern self _) as [wn|e] eqn:En; simpl in H; [|discriminate].
  destruct (calculate_similarity self tn wn) as [s|e] eqn:Es; simpl in H; [|discriminate].
  destruct (min_similarity self <=? s)%float; [|discriminate].
  destruct (if (0 <? length _)%nat then _ else _) as [fr|e]; simpl in H; [|discriminate].
  destruct (resolve_symbol data sym) as [sy|e]; simpl in H; [|discriminate].
  destruct (iloc_at (map timestamp (bars data)) i) as [fl|e] eqn:Efl;
    simpl in H; [|discriminate].
  destruct (iloc_at (map timestamp (bars data)) (i + window_size self - 1))
    as [ll|e] eqn:Ell; simpl in H; [|discriminate].
  destruct (iloc_at (bars data) i) as [fb|e] eqn:Efb; simpl in H; [|discriminate].
  destruct (iloc_at (bars data) (i + window_size self - 1)) as [lb|e] eqn:Elb;
    simpl in H; [|discriminate].
  inversion H; subst; clear H. simpl.
  destruct (iloc_at_map _ _ _ _ Efl) as (fb' & Efb' & ->).
  destruct (iloc_at_map _ _ _ _ Ell) as (lb' & Elb' & ->).
  rewrite Efb in Efb'. rewrite Elb in Elb'. inversion Efb'. inversion Elb'. subst.
  split; [reflexivity|]. split; [now exists wn|].
  exists fb', lb'. repeat split; reflexivity.
Qed.

End Facts.

End EntryFacts.

(** X12. Every entry [PatternMatcher.find_similar_patterns] returns
    describes the window that starts at its [match_index]: its dates
    are the formatted labels and its prices the closes of the first and
    last row of the window.  Its symbol is the one the caller gave
    unless that is empty or [None], in which case it is the first value
    of the ['symbol'] column. *)
Theorem entries_describe_their_windows :
  forall (L : Libraries) (self : PatternMatcher.Config)
         (data : PatternMatcher.Frame) (target : PatternMatcher.Pattern)
         (sym : option string) (rows : list PatternMatcher.Match),
    PatternMatcher.find_similar_patterns self data target sym = Ok rows ->
    forall r, In r rows ->
      let i := PatternMatcher.match_index r in
      PatternMatcher.resolve_symbol data sym = Ok (PatternMatcher.symbol r)
      /\ (forall s, sym = Some s -> s <> "" -> PatternMatcher.symbol r = s)
      /\ exists first_bar last_bar,
           PatternMatcher.iloc_at (PatternMatcher.bars data) i = Ok first_bar
           /\ PatternMatcher.iloc_at (PatternMatcher.bars data)
                (i + PatternMatcher.window_size self - 1) = Ok last_bar
           /\ PatternMatcher.start_date r = strftime (timestamp first_bar)
           /\ PatternMatcher.end_date r = strftime (timestamp last_bar)
           /\ PatternMatcher.start_price r = close first_bar
           /\ PatternMatcher.end_price r = close last_bar.
Proof.
  intros L self data target sym rows H r Hin i.
  destruct (GpuFacts.returned_entry _ _ _ _ _ _ H Hin) as (tn & _ & _ & He).
  destruct (EntryFacts.scan_entry_describes _ _ _ _ _ _ He) as (Hs & _ & Hw).
  split; [exact Hs|]. split; [|exact Hw].
  intros s -> Hne. unfold PatternMatcher.resolve_symbol in Hs.
  destruct (String.eqb_spec s "") as [E|_]; [contradiction|].
  now inversion Hs.
Qed.

(** X12, on the ten example bars. *)
Lemma entries_describe_their_windows_witness :
  exists rows,
    PatternMatcher.find_similar_patterns (L := Reference.libraries)
      matcher priced last_pattern (Some "7203") = Ok rows
    /\ length rows = 7%nat
    /\ forall r, In r rows -> PatternMatcher.symbol r = "7203".
Proof.
  eexists. split; [vm_compute; reflexivity|]. split; [reflexivity|].
  intros r Hin.
  destruct (entries_describe_their_windows Reference.libraries matcher priced
              last_pattern (Some "7203") _ ltac:(vm_compute; reflexivity) r Hin)
    as (_ & Hs & _).
  apply (Hs "7203" eq_refl). discriminate.
Defined.

(** X13. [PatternMatcher.find_similar_patterns] returns no more entries
    than there are windows to scan, [len(data) - window_size -
    lookahead + 1]; on a frame with fewer than [window_size +
    lookahead] rows it returns the empty list. *)
Theorem entries_are_no_more_than_the_windows :
  forall (L : Libraries) (self : PatternMatcher.Config)
         (data : PatternMatcher.Frame) (target : PatternMatcher.Pattern)
         (sym : option string) (rows : list PatternMatcher.Match),
    PatternMatcher.find_similar_patterns self data target sym = Ok rows ->
    let n := Z.of_nat (length (PatternMatcher.bars data)) in
    let windows := n - PatternMatcher.window_size self
                   - PatternMatcher.lookahead self + 1 in
    Z.of_nat (length rows) <= Z.max 0 windows
    /\ (n < PatternMatcher.window_size self + PatternMatcher.lookahead self ->
        rows = []).
Proof.
  intros L self data target sym rows H n windows.
  destruct (GpuFacts.entries_inv _ _ _ _ _ H) as (tn & results & _ & Hc & ->).
  apply EntryFacts.collect_length in Hc.
  unfold py_range in Hc. rewrite length_map, length_seq in Hc.
  assert (Hh : (length (head (PatternMatcher.top_n self)
                          (PatternMatcher.sort_desc results))
                <= length results)%nat).
  { destruct (head_firstn (PatternMatcher.top_n self)
                (PatternMatcher.sort_desc results)) as (k & ->).
    rewrite length_firstn, (Permutation_length (GpuFacts.sort_desc_perm results)).
    lia. }
  assert (Hb : Z.of_nat (length (head (PatternMatcher.top_n self)
                                   (PatternMatcher.sort_desc results)))
               <= Z.max 0 windows).
  { subst windows n. lia. }
  split; [exact Hb|].
  intros Hshort.
  destruct (head _ _); [reflexivity|]. simpl in Hb. lia.
Qed.

(** X13, on the ten example bars with windows of eight bars and three
    bars of lookahead. *)
Lemma entries_are_no_more_than_the_windows_witness :
  PatternMatcher.find_similar_patterns (L := Reference.libraries)
    (PatternMatcher.mkConfig 8 3 15 0%float "euclidean" false "minmax")
    priced last_pattern (Some "7203") = Ok [].
Proof.
  assert (E : exists rows,
             PatternMatcher.find_similar_patterns (L := Reference.libraries)
               (PatternMatcher.mkConfig 8 3 15 0%float "euclidean" false "minmax")
               priced last_pattern (Some "7203") = Ok rows)
    by (eexists; vm_compute; reflexivity).
  destruct E as (rows & E). rewrite E.
  destruct (entries_are_no_more_than_the_windows Reference.libraries _ _ _ _ _ E)
    as [_ Hnil].
  rewrite Hnil; [reflexivity|]. simpl. lia.
Defined.

(** ** [normalize_pattern] *)

Module NormalizeFacts.

Import PatternMatcher.

Lemma per_column_empty (f : list float -> Result float) (e : PyExc) :
  f [] = Raise e -> per_column f [] = Raise e.
Proof. unfold per_column. simpl. now intros ->. Qed.

Lemma np_min_ok (l : list float) : l <> [] -> exists v, np_min l = Ok v.
Proof. destruct l; [contradiction|]. intros _. simpl. eexists; reflexivity. Qed.

Lemma np_max_ok (l : list float) : l <> [] -> exists v, np_max l = Ok v.
Proof. destruct l; [contradiction|]. intros _. simpl. eexists; reflexivity. Qed.

Lemma per_column_ok (f : list float -> Result float) (p : Pattern) :
  (forall l, l <> [] -> exists v, f l = Ok v) ->
  p <> [] -> exists r, per_column f p = Ok r.
Proof.
  intros Hf Hp. unfold per_column.
  assert (Hm : forall g : Row4 -> float, map g p <> []).
  { intros g. destruct p; [contradiction|discriminate]. }
  destruct (Hf _ (Hm c_open)) as (o & ->).
  destruct (Hf _ (Hm c_high)) as (h & ->).
  destruct (Hf _ (Hm c_low)) as (l & ->).
  destruct (Hf _ (Hm c_close)) as (c & ->).
  simpl. eexists; reflexivity.
Qed.

End NormalizeFacts.

(** X14. [normalize_pattern] returns a pattern with as many rows as it
    was given, whatever the method.  Under ['minmax'] it raises
    [ValueError] on the empty pattern (numpy's minimum of no value) and
    on no other; under ['zscore'] it never raises. *)
Theorem normalize_pattern_keeps_the_shape :
  forall (L : Libraries) (self : PatternMatcher.Config)
         (pattern : PatternMatcher.Pattern),
    (forall normalized,
        PatternMatcher.normalize_pattern self pattern = Ok normalized ->
        length normalized = length pattern)
    /\ (PatternMatcher.normalize_method self = "minmax" ->
        (pattern = [] ->
         PatternMatcher.normalize_pattern self pattern = Raise ValueError)
        /\ (pattern <> [] ->
            exists normalized,
              PatternMatcher.normalize_pattern self pattern = Ok normalized))
    /\ (PatternMatcher.normalize_method self = "zscore" ->
        exists normalized,
          PatternMatcher.normalize_pattern self pattern = Ok normalized).
Proof.
  intros L self pattern. unfold PatternMatcher.normalize_pattern.
  split; [|split].
  - intros normalized.
    destruct (String.eqb _ "minmax").
    { destruct (PatternMatcher.per_column PatternMatcher.np_min pattern); simpl;
        [|discriminate].
      destruct (PatternMatcher.per_column PatternMatcher.np_max pattern); simpl;
        [|discriminate].
      intros H. inversion H. now rewrite length_map. }
    destruct (String.eqb _ "zscore").
    { unfold PatternMatcher.per_column. simpl.
      intros H. inversion H. now rewrite length_map. }
    destruct (String.eqb _ "robust").
    { destruct (PatternMatcher.per_column np_median pattern); simpl; [|discriminate].
      destruct (PatternMatcher.per_column _ pattern); simpl; [|discriminate].
      destruct (PatternMatcher.per_column _ pattern); simpl; [|discriminate].
      intros H. inversion H. now rewrite length_map. }
    intros H. now inversion H.
  - intros ->. simpl. split.
    + intros ->. reflexivity.
    + intros Hp.
      destruct (NormalizeFacts.per_column_ok PatternMatcher.np_min pattern
                  NormalizeFacts.np_min_ok Hp) as (mn & ->).
      destruct (NormalizeFacts.per_column_ok PatternMatcher.np_max pattern
                  NormalizeFacts.np_max_ok Hp) as (mx & ->).
      simpl. eexists; reflexivity.
  - intros ->. simpl. unfold PatternMatcher.per_column. simpl.
    eexists; reflexivity.
Qed.

(** X14, on the empty pattern and on the last three example bars. *)
Lemma normalize_pattern_keeps_the_shape_witness :
  PatternMatcher.normalize_pattern (L := Reference.libraries) matcher []
  = Raise ValueError
  /\ exists normalized,
       PatternMatcher.normalize_pattern (L := Reference.libraries) matcher last_pattern
       = Ok normalized
       /\ length normalized = 3%nat.
Proof.
  destruct (normalize_pattern_keeps_the_shape Reference.libraries matcher [])
    as (_ & Hmm & _).
  destruct (normalize_pattern_keeps_the_shape Reference.libraries matcher last_pattern)
    as (Hshape & Hmm' & _).
  split; [apply (Hmm eq_refl); reflexivity|].
  destruct (proj2 (Hmm' eq_refl) ltac:(discriminate)) as (q & Hq).
  exists q. split; [exact Hq|]. now rewrite (Hshape q Hq).
Defined.

(** ** [analyze_all_symbols] *)

Module AnalysisFacts.

Import PatternMatcher.

Lemma take_rows_In {A : Type} (l : list A) (positions : list nat) (x : A) :
  In x (take_rows l positions) -> In x l.
Proof.
  unfold take_rows. rewrite in_flat_map. intros (j & _ & Hj).
  destruct (nth_error l j) as [y|] eqn:E; [|contradiction].
  destruct Hj as [<-|[]]. eapply nth_error_In, E.
Qed.

Lemma take_rows_shift {A : Type} (pre l : list A) :
  take_rows (pre ++ l) (seq (length pre) (length l)) = l.
Proof.
  revert pre. induction l as [|x t IH]; intros pre; [reflexivity|].
  simpl. rewrite nth_error_app2 by lia. rewrite Nat.sub_diag. simpl.
  f_equal. specialize (IH (pre ++ [x])%list).
  rewrite <- app_assoc, length_app in IH. simpl in IH.
  rewrite Nat.add_1_r in IH. exact IH.
Qed.

Lemma take_rows_all {A : Type} (l : list A) :
  take_rows l (seq 0 (length l)) = l.
Proof. exact (take_rows_shift [] l). Qed.

Lemma take_rows_perm {A : Type} (l : list A) (positions : list nat) :
  Permutation positions (seq 0 (length l)) ->
  Permutation (take_rows l positions) l.
Proof.
  intros H. rewrite <- (take_rows_all l) at 2.
  unfold take_rows. now apply Permutation_flat_map.
Qed.

Lemma take_rows_sorted {A : Type} (l : list A) (R : A -> A -> Prop)
  (R' : nat -> nat -> Prop) :
  (forall j1 j2 r1 r2,
      nth_error l j1 = Some r1 -> nth_error l j2 = Some r2 ->
      R' j1 j2 -> R r1 r2) ->
  forall positions,
    StronglySorted R' positions ->
    StronglySorted R (take_rows l positions).
Proof.
  intros HR. induction positions as [|j t IH]; intros Hs; [constructor|].
  inversion Hs as [|? ? Hst Hall]; subst.
  unfold take_rows. simpl. fold (take_rows l t).
  destruct (nth_error l j) as [r|] eqn:Ej; simpl; [|now apply IH].
  constructor; [now apply IH|].
  apply Forall_forall. intros r' Hr'.
  unfold take_rows in Hr'. apply in_flat_map in Hr'.
  destruct Hr' as (j' & Hj' & Hin).
  destruct (nth_error l j') as [y|] eqn:Ej'; [|contradiction].
  destruct Hin as [<-|[]].
  rewrite Forall_forall in Hall. eapply HR; eauto.
Qed.

Section Facts.

Context {L : Libraries}.
Variable self : Config.

Lemma all_results_flat_map (symbols_data : list (string * Frame)) :
  forall acc : list Match,
    fold_left
      (fun acc sd =>
         let df := snd sd in
         let n := Z.of_nat (length (bars df)) in
         if n <? window_size self + lookahead self then acc
         else
           let target_pattern :=
             ohlc_values (iloc_slice (bars df) (- window_size self) n) in
           match find_similar_patterns self df target_pattern (Some (fst sd)) with
           | Ok results => (acc ++ results)%list
           | Raise _ => acc
           end)
      symbols_data acc
    = (acc ++ flat_map (symbol_results self) symbols_data)%list.
Proof.
  induction symbols_data as [|sd t IH]; intros acc; simpl.
  - now rewrite app_nil_r.
  - rewrite IH. unfold symbol_results at 2. cbv zeta.
    destruct (_ <? _); [reflexivity|].
    destruct (find_similar_patterns _ _ _ _); [|reflexivity].
    now rewrite app_assoc.
Qed.

Lemma analyze_all_symbols_unfold (symbols_data : list (string * Frame)) :
  analyze_all_symbols self symbols_data
  = let all_results := flat_map (symbol_results self) symbols_data in
    take_rows all_results (sort_values_desc (map similarity all_results)).
Proof.
  unfold analyze_all_symbols. cbv zeta. now rewrite all_results_flat_map.
Qed.

Lemma symbol_results_inv (sd : string * Frame) (r : Match) :
  In r (symbol_results self sd) ->
  window_size self + lookahead self <= Z.of_nat (length (bars (snd sd)))
  /\ exists rows,
       find_similar_patterns self (snd sd)
         (ohlc_values (iloc_slice (bars (snd sd)) (- window_size self)
                         (Z.of_nat (length (bars (snd sd))))))
         (Some (fst sd)) = Ok rows
       /\ In r rows.
Proof.
  unfold symbol_results. cbv zeta.
  destruct (_ <? _) eqn:E; [contradiction|]. apply Z.ltb_ge in E.
  destruct (find_similar_patterns _ _ _ _) as [rows|e]; [|contradiction].
  intros Hin. split; [exact E|]. now exists rows.
Qed.

Lemma symbol_results_length (sd : string * Frame) :
  0 <= top_n self ->
  Z.of_nat (length (symbol_results self sd)) <= top_n self.
Proof.
  intros Ht. unfold symbol_results. cbv zeta.
  destruct (_ <? _); [simpl; lia|].
  destruct (find_similar_patterns _ _ _ _) as [rows|e] eqn:E; [|simpl; lia].
  destruct (GpuFacts.entries_inv _ _ _ _ _ E) as (tn & results & _ & _ & ->).
  rewrite head_length. destruct (top_n self <? 0) eqn:E0; lia.
Qed.

Lemma flat_map_length_bound (k : Z) (symbols_data : list (string * Frame)) :
  (forall sd, Z.of_nat (length (symbol_results self sd)) <= k) ->
  Z.of_nat (length (flat_map (symbol_results self) symbols_data))
  <= k * Z.of_nat (length symbols_data).
Proof.
  intros Hk. induction symbols_data as [|sd t IH]; simpl; [lia|].
  rewrite length_app. specialize (Hk sd). lia.
Qed.

End Facts.

End AnalysisFacts.

(** X15. Every row of [analyze_all_symbols] is an entry of the search
    run on one symbol's own frame, with that frame's last
    [window_size] rows as target, and the frame has at least
    [window_size + lookahead] rows; the row carries that symbol's code
    (for a code that is not the empty string). *)
Theorem analysis_rows_come_from_their_symbol :
  forall (L : Libraries) (self : PatternMatcher.Config)
         (symbols_data : list (string * PatternMatcher.Frame))
         (r : PatternMatcher.Match),
    In r (PatternMatcher.analyze_all_symbols self symbols_data) ->
    exists s df rows,
      In (s, df) symbols_data
      /\ PatternMatcher.window_size self + PatternMatcher.lookahead self
         <= Z.of_nat (length (PatternMatcher.bars df))
      /\ PatternMatcher.find_similar_patterns self df
           (PatternMatcher.ohlc_values
              (iloc_slice (PatternMatcher.bars df) (- PatternMatcher.window_size self)
                 (Z.of_nat (length (PatternMatcher.bars df)))))
           (Some s) = Ok rows
      /\ In r rows
      /\ (s <> "" -> PatternMatcher.symbol r = s).
Proof.
  intros L self symbols_data r Hin.
  rewrite AnalysisFacts.analyze_all_symbols_unfold in Hin. cbv zeta in Hin.
  apply AnalysisFacts.take_rows_In in Hin. apply in_flat_map in Hin.
  destruct Hin as ([s df] & Hsd & Hr).
  destruct (AnalysisFacts.symbol_results_inv _ _ _ Hr) as (Hlen & rows & Hf & Hrows).
  simpl in Hlen, Hf.
  exists s, df, rows. repeat split; trivial.
  intros Hne.
  destruct (GpuFacts.returned_entry _ _ _ _ _ _ Hf Hrows) as (tn & _ & _ & He).
  destruct (EntryFacts.scan_entry_describes _ _ _ _ _ _ He) as (Hs & _).
  unfold PatternMatcher.resolve_symbol in Hs.
  destruct (String.eqb_spec s "") as [E|_]; [contradiction|].
  now inversion Hs.
Qed.

(** X15, on the two example symbols. *)
Lemma analysis_rows_come_from_their_symbol_witness :
  length (PatternMatcher.analyze_all_symbols (L := Reference.libraries)
            Portfolio.analyst Portfolio.symbols) = 6%nat
  /\ forall r,
       In r (PatternMatcher.analyze_all_symbols (L := Reference.libraries)
               Portfolio.analyst Portfolio.symbols) ->
       PatternMatcher.symbol r = "7203".
Proof.
  split; [vm_compute; reflexivity|].
  intros r Hin.
  destruct (analysis_rows_come_from_their_symbol Reference.libraries
              Portfolio.analyst Portfolio.symbols r Hin)
    as (s & df & rows & Hsd & Hlen & _ & _ & Hs).
  destruct Hsd as [E|[E|[]]]; inversion E; subst.
  - apply Hs. discriminate.
  - exfalso. revert Hlen. vm_compute. intros H. exact (H eq_refl).
Defined.

(** X16. A symbol whose frame has fewer than [window_size + lookahead]
    rows, or whose search raises, leaves no trace in
    [analyze_all_symbols]: the analysis is the one of the other
    symbols, and the exception does not reach the caller. *)
Theorem symbols_without_results_are_skipped :
  forall (L : Libraries) (self : PatternMatcher.Config)
         (before after : list (string * PatternMatcher.Frame))
         (s : string) (df : PatternMatcher.Frame),
    let n := Z.of_nat (length (PatternMatcher.bars df)) in
    n < PatternMatcher.window_size self + PatternMatcher.lookahead self
    \/ (exists e,
          PatternMatcher.find_similar_patterns self df
            (PatternMatcher.ohlc_values
               (iloc_slice (PatternMatcher.bars df)
                  (- PatternMatcher.window_size self) n))
            (Some s) = Raise e) ->
    PatternMatcher.analyze_all_symbols self (before ++ (s, df) :: after)
    = PatternMatcher.analyze_all_symbols self (before ++ after).
Proof.
  intros L self before after s df n Hskip.
  rewrite !AnalysisFacts.analyze_all_symbols_unfold. cbv zeta.
  rewrite !flat_map_app. simpl.
  assert (E : symbol_results self (s, df) = []).
  { unfold symbol_results. cbv zeta. simpl. fold n.
    destruct Hskip as [Hshort|(e & He)].
    - apply Z.ltb_lt in Hshort. now rewrite Hshort.
    - destruct (n <? _); [reflexivity|]. now rewrite He. }
  rewrite E. reflexivity.
Qed.

(** X16, on the two example symbols: the short one is skipped. *)
Lemma symbols_without_results_are_skipped_witness :
  PatternMatcher.analyze_all_symbols (L := Reference.libraries)
    Portfolio.analyst Portfolio.symbols
  = PatternMatcher.analyze_all_symbols (L := Reference.libraries)
      Portfolio.analyst [("7203", priced)].
Proof.
  apply (symbols_without_results_are_skipped Reference.libraries Portfolio.analyst
           [("7203", priced)] [] "6758" Portfolio.short_frame).
  left. simpl. lia.
Defined.

(** X17. [StockDataLoader.filter_by_min_records] with a minimum of at
    most [window_size + lookahead] removes only symbols
    [analyze_all_symbols] skips by itself: the analysis of the filtered
    symbols is the analysis of all of them. *)
Theorem filtering_short_frames_first_changes_nothing :
  forall (L : Libraries) (self : PatternMatcher.Config)
         (loader : StockDataLoader.Loader) (min_records : Z),
    min_records <= PatternMatcher.window_size self + PatternMatcher.lookahead self ->
    PatternMatcher.analyze_all_symbols self
      (StockDataLoader.filter_by_min_records loader min_records)
    = PatternMatcher.analyze_all_symbols self (StockDataLoader.symbols_data loader).
Proof.
  intros L self loader m Hm.
  rewrite !AnalysisFacts.analyze_all_symbols_unfold. cbv zeta.
  assert (E : flat_map (symbol_results self)
                (StockDataLoader.filter_by_min_records loader m)
              = flat_map (symbol_results self) (StockDataLoader.symbols_data loader)).
  { unfold StockDataLoader.filter_by_min_records.
    induction (StockDataLoader.symbols_data loader) as [|sd t IH]; [reflexivity|].
    simpl. destruct (m <=? _) eqn:E; simpl; [now rewrite IH|].
    rewrite IH. apply Z.leb_gt in E.
    unfold symbol_results at 2. cbv zeta.
    destruct (_ <? _) eqn:E'; [reflexivity|]. apply Z.ltb_ge in E'. lia. }
  now rewrite E.
Qed.

(** X17, on the two example symbols with a minimum of five records. *)
Lemma filtering_short_frames_first_changes_nothing_witness :
  StockDataLoader.filter_by_min_records Portfolio.loader 5 = [("7203", priced)]
  /\ PatternMatcher.analyze_all_symbols (L := Reference.libraries) Portfolio.analyst
       (StockDataLoader.filter_by_min_records Portfolio.loader 5)
     = PatternMatcher.analyze_all_symbols (L := Reference.libraries) Portfolio.analyst
         Portfolio.symbols.
Proof.
  split; [reflexivity|].
  apply (filtering_short_frames_first_changes_nothing Reference.libraries
           Portfolio.analyst Portfolio.loader 5).
  simpl. lia.
Defined.

(** X18. When [sort_values] returns every row once, [analyze_all_symbols]
    loses no entry of any symbol's search and holds at most [top_n]
    rows per symbol ([top_n >= 0]); when it also returns the rows in
    descending order of key, the analysis is in descending order of
    similarity (no similarity of a recorded entry is [nan]). *)
Theorem analysis_is_sorted_and_complete :
  forall (L : Libraries) (self : PatternMatcher.Config)
         (symbols_data : list (string * PatternMatcher.Frame)),
    sort_is_permutation L ->
    let analysis := PatternMatcher.analyze_all_symbols self symbols_data in
    (forall s df rows,
        In (s, df) symbols_data ->
        PatternMatcher.window_size self + PatternMatcher.lookahead self
        <= Z.of_nat (length (PatternMatcher.bars df)) ->
        PatternMatcher.find_similar_patterns self df
          (PatternMatcher.ohlc_values
             (iloc_slice (PatternMatcher.bars df) (- PatternMatcher.window_size self)
                (Z.of_nat (length (PatternMatcher.bars df)))))
          (Some s) = Ok rows ->
        forall r, In r rows -> In r analysis)
    /\ (0 <= PatternMatcher.top_n self ->
        Z.of_nat (length analysis)
        <= PatternMatcher.top_n self * Z.of_nat (length symbols_data))
    /\ (sort_is_descending L -> StronglySorted by_similarity analysis).
Proof.
  intros L self symbols_data Hperm analysis. subst analysis.
  rewrite AnalysisFacts.analyze_all_symbols_unfold. cbv zeta.
  set (all_results := flat_map (symbol_results self) symbols_data).
  assert (Hp : Permutation
                 (PatternMatcher.take_rows all_results
                    (sort_values_desc (map PatternMatcher.similarity all_results)))
                 all_results).
  { apply AnalysisFacts.take_rows_perm.
    rewrite <- (length_map PatternMatcher.similarity). apply Hperm. }
  split; [|split].
  - intros s df rows Hsd Hlen Hf r Hr.
    apply (Permutation_in _ (Permutation_sym Hp)).
    apply in_flat_map. exists (s, df). split; [exact Hsd|].
    unfold symbol_results. cbv zeta. simpl.
    apply Z.ltb_ge in Hlen. now rewrite Hlen, Hf.
  - intros Ht. rewrite (Permutation_length Hp).
    apply AnalysisFacts.flat_map_length_bound.
    intros sd. now apply AnalysisFacts.symbol_results_length.
  - intros Hdesc.
    assert (Hnum : Forall (fun k => PrimFloat.is_nan k = false)
                     (map PatternMatcher.similarity all_results)).
    { apply Forall_forall. intros k Hk. apply in_map_iff in Hk.
      destruct Hk as (r & <- & Hr). apply in_flat_map in Hr.
      destruct Hr as (sd & _ & Hr).
      destruct (AnalysisFacts.symbol_results_inv _ _ _ Hr) as (_ & rows & Hf & Hrows).
      destruct (GpuFacts.returned_entry _ _ _ _ _ _ Hf Hrows) as (tn & _ & _ & He).
      destruct (GpuFacts.scan_entry_fields _ _ _ _ _ _ He) as (_ & Hle & _).
      apply is_nan_number. rewrite FloatAxioms.leb_spec in Hle.
      now apply SFleb_number in Hle. }
    eapply AnalysisFacts.take_rows_sorted; [|apply (Hdesc _ Hnum)].
    intros j1 j2 r1 r2 E1 E2 HR. unfold by_similarity. cbv beta in HR.
    rewrite (nth_error_nth _ _ _ (map_nth_error PatternMatcher.similarity _ _ E1)) in HR.
    rewrite (nth_error_nth _ _ _ (map_nth_error PatternMatcher.similarity _ _ E2)) in HR.
    exact HR.
Qed.

(** X18, on the two example symbols with the reference sort. *)
Lemma analysis_is_sorted_and_complete_witness :
  StronglySorted by_similarity
    (PatternMatcher.analyze_all_symbols (L := Reference.libraries)
       Portfolio.analyst Portfolio.symbols)
  /\ Z.of_nat (length (PatternMatcher.analyze_all_symbols (L := Reference.libraries)
                         Portfolio.analyst Portfolio.symbols)) <= 15 * 2.
Proof.
  destruct (analysis_is_sorted_and_complete Reference.libraries Portfolio.analyst
              Portfolio.symbols ReferenceFacts.reference_sort_is_permutation)
    as (_ & Hn & Hs).
  split; [exact (Hs ReferenceFacts.reference_sort_is_descending)|].
  apply Hn. simpl. lia.
Defined.

(** * When the search of [PatternMatcher] returns *)

Module ReturnFacts.

Import PatternMatcher.

Lemma zip_with_length {A B C : Type} (f : A -> B -> C) :
  forall (a : list A) (b : list B),
    length a = length b -> length (zip_with f a b) = length a.
Proof.
  induction a as [|x a IH]; intros [|y b] H; simpl in *; try congruence.
  f_equal. apply IH. congruence.
Qed.

Lemma broadcast_same {A B C : Type} (f : A -> B -> C) (a : list A) (b : list B) :
  length a = length b -> broadcast f a b = Ok (zip_with f a b).
Proof.
  intros H. unfold broadcast. rewrite H, Nat.eqb_refl. reflexivity.
Qed.

Lemma linspace_length (n : nat) : length (linspace_half_one n) = n.
Proof.
  unfold linspace_half_one. destruct n as [|[|n]]; [reflexivity|reflexivity|].
  now rewrite length_map, length_seq.
Qed.

Lemma iloc_at_ok {A : Type} (l : list A) (k : Z) :
  0 <= k < Z.of_nat (length l) -> exists x, iloc_at l k = Ok x.
Proof.
  intros Hk. unfold iloc_at. cbv zeta.
  assert (E0 : (k <? 0) = false) by (apply Z.ltb_ge; lia).
  assert (E1 : (Z.of_nat (length l) <=? k) = false) by (apply Z.leb_gt; lia).
  rewrite E0. cbv iota. rewrite E0, E1. simpl.
  destruct (nth_error l (Z.to_nat k)) as [x|] eqn:E; [now exists x|].
  apply nth_error_None in E. lia.
Qed.

Section Facts.

Context {L : Libraries}.
Variable self : Config.

Lemma normalize_pattern_returns (p : Pattern) :
  normalize_method self <> "robust" -> p <> [] ->
  exists q, normalize_pattern self p = Ok q /\ length q = length p.
Proof.
  intros Hr Hp. unfold normalize_pattern.
  destruct (String.eqb (normalize_method self) "minmax").
  { destruct (NormalizeFacts.per_column_ok np_min p NormalizeFacts.np_min_ok Hp)
      as (mn & ->).
    destruct (NormalizeFacts.per_column_ok np_max p NormalizeFacts.np_max_ok Hp)
      as (mx & ->).
    simpl. eexists. split; [reflexivity|]. now rewrite length_map. }
  destruct (String.eqb (normalize_method self) "zscore").
  { unfold per_column. simpl. eexists. split; [reflexivity|].
    now rewrite length_map. }
  destruct (String.eqb_spec (normalize_method self) "robust") as [E|_];
    [contradiction|].
  now exists p.
Qed.

Lemma calculate_similarity_returns (p q : Pattern) :
  method self <> "correlation" \/ use_gpu self = true ->
  length p = length q ->
  exists s, calculate_similarity self p q = Ok s.
Proof.
  intros Hm Hl.
  assert (He : exists s, euclidean_similarity p q = Ok s).
  { unfold euclidean_similarity. rewrite (broadcast_same _ _ _ Hl). simpl.
    eexists; reflexivity. }
  assert (Hw : exists s, weighted_similarity p q = Ok s).
  { unfold weighted_similarity. rewrite (broadcast_same _ _ _ Hl). simpl.
    rewrite broadcast_same; [simpl; eexists; reflexivity|].
    now rewrite linspace_length, length_map, zip_with_length. }
  assert (Hc : exists s, correlation_gpu p q = Ok s).
  { unfold correlation_gpu. rewrite broadcast_same; [simpl; eexists; reflexivity|].
    rewrite !length_map, !flatten_length. now rewrite Hl. }
  unfold calculate_similarity.
  destruct (use_gpu self).
  - destruct (String.eqb (method self) "correlation"); [exact Hc|].
    destruct (String.eqb (method self) "euclidean"); [exact He|].
    destruct (String.eqb (method self) "weighted"); [exact Hw|].
    now exists 0%float.
  - destruct Hm as [Hm|Hm]; [|discriminate].
    destruct (String.eqb_spec (method self) "correlation") as [E|_];
      [contradiction|].
    destruct (String.eqb (method self) "euclidean"); [exact He|].
    destruct (String.eqb (method self) "weighted"); [exact Hw|].
    now exists 0%float.
Qed.

Lemma scan_entry_returns (data : Frame) (tn : Pattern) (s : string) (i : Z) :
  1 <= window_size self -> 0 <= lookahead self ->
  normalize_method self <> "robust" ->
  method self <> "correlation" \/ use_gpu self = true ->
  Z.of_nat (length tn) = window_size self ->
  s <> "" ->
  0 <= i < Z.of_nat (length (bars data)) - window_size self - lookahead self + 1 ->
  exists o, scan_entry self data tn (Some s) i = Ok o.
Proof.
  intros Hws Hla Hr Hm Htn Hs Hi. unfold scan_entry. cbv zeta.
  set (w := iloc_slice (bars data) i (i + window_size self)).
  assert (Hw : Z.of_nat (length w) = window_size self).
  { unfold w. rewrite iloc_slice_length. unfold slice_bound.
    destruct (i + window_size self <? 0) eqn:E1; destruct (i <? 0) eqn:E2; lia. }
  destruct (normalize_pattern_returns (ohlc_values w) Hr) as (wn & -> & Hwn).
  { unfold ohlc_values. intros E. apply (f_equal (@length Row4)) in E.
    rewrite length_map in E. simpl in E. lia. }
  simpl.
  destruct (calculate_similarity_returns tn wn Hm) as (sim & ->).
  { unfold ohlc_values in Hwn. rewrite length_map in Hwn. lia. }
  simpl. destruct (min_similarity self <=? sim)%float; [|now exists None].
  destruct (iloc_at_ok (bars data) (i + window_size self - 1)) as (lb & Elb); [lia|].
  destruct (iloc_at_ok (bars data) i) as (fb & Efb); [lia|].
  destruct (iloc_at_ok (map timestamp (bars data)) i) as (fl & Efl);
    [rewrite length_map; lia|].
  destruct (iloc_at_ok (map timestamp (bars data)) (i + window_size self - 1))
    as (ll & Ell); [rewrite length_map; lia|].
  set (fd := iloc_slice (bars data) (i + window_size self)
               (i + window_size self + lookahead self)).
  assert (Hf : exists fr,
             (if (0 <? length fd)%nat
              then bar <- iloc_at (bars data) (i + window_size self - 1) ;;
                   end_price <- iloc_last (map close fd) ;;
                   Ok (Some ((end_price - close bar) / close bar)%float)
              else Ok None) = Ok fr).
  { destruct (0 <? length fd)%nat eqn:E; [|now exists None].
    apply Nat.ltb_lt in E. rewrite Elb. simpl.
    destruct (iloc_last_ok (map close fd)) as (ep & ->).
    - destruct fd; [simpl in E; lia|discriminate].
    - simpl. eexists; reflexivity. }
  destruct Hf as (fr & ->). simpl.
  destruct (String.eqb_spec s "") as [E|_]; [contradiction|].
  rewrite Efl. simpl. rewrite Ell. simpl. rewrite Efb. simpl. rewrite Elb. simpl.
  eexists; reflexivity.
Qed.

End Facts.

End ReturnFacts.

(** X19. With a window size of at least 1, no negative lookahead, a
    target of [window_size] rows, a symbol that is not empty, any
    normalization but ['robust'] and any method but ['correlation'] on
    the plain path, the search of [PatternMatcher] raises nothing,
    whatever the frame. *)
Theorem the_scan_returns :
  forall (L : Libraries) (self : PatternMatcher.Config)
         (data : PatternMatcher.Frame) (target : PatternMatcher.Pattern)
         (s : string),
    1 <= PatternMatcher.window_size self ->
    0 <= PatternMatcher.lookahead self ->
    PatternMatcher.normalize_method self <> "robust" ->
    PatternMatcher.method self <> "correlation"
    \/ PatternMatcher.use_gpu self = true ->
    Z.of_nat (length target) = PatternMatcher.window_size self ->
    s <> "" ->
    exists rows, PatternMatcher.find_similar_patterns self data target (Some s) = Ok rows.
Proof.
  intros L self data target s Hws Hla Hr Hm Ht Hs.
  unfold PatternMatcher.find_similar_patterns.
  destruct (ReturnFacts.normalize_pattern_returns self target Hr) as (tn & -> & Htn).
  { intros E. rewrite E in Ht. simpl in Ht. lia. }
  simpl. unfold PatternMatcher.scan_step. rewrite for_each_collect.
  destruct (collect_ok (PatternMatcher.scan_entry self data tn (Some s))
              (py_range 0 (Z.of_nat (length (PatternMatcher.bars data))
                           - PatternMatcher.window_size self
                           - PatternMatcher.lookahead self + 1)))
    as (results & ->).
  { intros i Hi. apply py_range_In in Hi.
    apply ReturnFacts.scan_entry_returns; trivial. lia. }
  simpl. eexists; reflexivity.
Qed.

(** X19, on the ten example bars. *)
Lemma the_scan_returns_witness :
  exists rows,
    PatternMatcher.find_similar_patterns (L := Reference.libraries)
      matcher priced last_pattern (Some "7203") = Ok rows.
Proof.
  apply (the_scan_returns Reference.libraries matcher priced last_pattern "7203").
  - simpl. lia.
  - simpl. lia.
  - discriminate.
  - left. discriminate.
  - reflexivity.
  - discriminate.
Defined.

(** * Properties of both searches *)

(** ** The threshold *)

(** A float is not below a [nan] threshold, and no [nan] is above a
    threshold. *)
Lemma leb_numbers (x y : float) :
  (x <=? y)%float = true ->
  PrimFloat.is_nan x = false /\ PrimFloat.is_nan y = false.
Proof.
  intros H. rewrite FloatAxioms.leb_spec in H. apply SFleb_number in H.
  split; apply is_nan_number; tauto.
Qed.

(** X20. Every candidate either search returns has a similarity that is
    a number and is not below the threshold; with a [nan] threshold
    nothing compares as not below it and the result is empty. *)
Theorem returned_candidates_meet_the_threshold :
  (forall (L : Libraries) (df : DataFrame) (tei ws la top_n : Z) (m : float)
          (method nm : string) (excl : Z)
          (rows : list CandlePatternMatcher.Match) (tw : DataFrame),
      CandlePatternMatcher.find_similar_patterns df tei ws la top_n m method nm excl
      = Ok (rows, tw) ->
      (forall r, In r rows ->
         (m <=? CandlePatternMatcher.similarity r)%float = true
         /\ PrimFloat.is_nan (CandlePatternMatcher.similarity r) = false)
      /\ (PrimFloat.is_nan m = true -> rows = []))
  /\ (forall (L : Libraries) (self : PatternMatcher.Config)
             (data : PatternMatcher.Frame) (target : PatternMatcher.Pattern)
             (sym : option string) (rows : list PatternMatcher.Match),
         PatternMatcher.find_similar_patterns self data target sym = Ok rows ->
         (forall r, In r rows ->
            (PatternMatcher.min_similarity self <=? PatternMatcher.similarity r)%float
            = true
            /\ PrimFloat.is_nan (PatternMatcher.similarity r) = false)
         /\ (PrimFloat.is_nan (PatternMatcher.min_similarity self) = true ->
             rows = [])).
Proof.
  split.
  - intros L df tei ws la top_n m method nm excl rows tw H.
    assert (Hr : forall r, In r rows ->
                   (m <=? CandlePatternMatcher.similarity r)%float = true).
    { intros r Hin.
      destruct (CandleFacts.returned_recorded _ _ _ _ _ _ _ _ _ _ _ _ H Hin)
        as (tn & i & entry & _ & _ & Hrec & ->).
      destruct Hrec as (_ & _ & cn & _ & Hs & Hc).
      destruct (CandleFacts.candidate_fields _ _ _ _ Hc)
        as (sp & ep & _ & _ & _ & _ & Hsim & _).
      cbn [CandlePatternMatcher.frame_row CandlePatternMatcher.similarity].
      rewrite Hsim. exact Hs. }
    split.
    + intros r Hin. split; [now apply Hr|].
      now destruct (leb_numbers _ _ (Hr r Hin)).
    + intros Hn. destruct rows as [|r t]; [reflexivity|].
      destruct (leb_numbers _ _ (Hr r (or_introl eq_refl))). congruence.
  - intros L self data target sym rows H.
    assert (Hr : forall r, In r rows ->
                   (PatternMatcher.min_similarity self
                    <=? PatternMatcher.similarity r)%float = true).
    { intros r Hin.
      destruct (GpuFacts.returned_entry _ _ _ _ _ _ H Hin) as (tn & _ & _ & He).
      now destruct (GpuFacts.scan_entry_fields _ _ _ _ _ _ He) as (_ & Hs & _). }
    split.
    + intros r Hin. split; [now apply Hr|].
      now destruct (leb_numbers _ _ (Hr r Hin)).
    + intros Hn. destruct rows as [|r t]; [reflexivity|].
      destruct (leb_numbers _ _ (Hr r (or_introl eq_refl))). congruence.
Qed.

(** X20, on the ten example bars with the thresholds 0.7 and nan. *)
Lemma returned_candidates_meet_the_threshold_witness :
  (exists rows tw,
     CandlePatternMatcher.find_similar_patterns (L := Reference.libraries)
       prices (-1) 3 2 10 0.7%float "euclidean" "minmax" 0 = Ok (rows, tw)
     /\ length rows = 3%nat
     /\ forall r, In r rows ->
          (0.7 <=? CandlePatternMatcher.similarity r)%float = true)
  /\ exists tw,
       CandlePatternMatcher.find_similar_patterns (L := Reference.libraries)
         prices (-1) 3 2 10 PrimFloat.nan "euclidean" "minmax" 0 = Ok ([], tw).
Proof.
  split.
  - eexists; eexists. split; [vm_compute; reflexivity|]. split; [reflexivity|].
    intros r Hin.
    eapply (proj1 (proj1 returned_candidates_meet_the_threshold Reference.libraries
                     prices (-1) 3 2 10 0.7%float "euclidean" "minmax" 0 _ _
                     ltac:(vm_compute; reflexivity)) r Hin).
  - assert (E : exists rows tw,
               CandlePatternMatcher.find_similar_patterns (L := Reference.libraries)
                 prices (-1) 3 2 10 PrimFloat.nan "euclidean" "minmax" 0
               = Ok (rows, tw))
      by (eexists; eexists; vm_compute; reflexivity).
    destruct E as (rows & tw & E). exists tw.
    now rewrite <- (proj2 (proj1 returned_candidates_meet_the_threshold
                             Reference.libraries prices (-1) 3 2 10 PrimFloat.nan
                             "euclidean" "minmax" 0 rows tw E) eq_refl).
Defined.

(** ** What the cut to [top_n] leaves out *)

Lemma collect_complete {A R : Type} (entry : A -> Result (option R)) :
  forall (l : list A) (rs : list R) (x : A) (r : R),
    collect entry l = Ok rs -> In x l -> entry x = Ok (Some r) -> In r rs.
Proof.
  induction l as [|y t IH]; simpl; intros rs x r Hc Hin Hx; [contradiction|].
  destruct (entry y) as [o|e] eqn:Ey; simpl in Hc; [|discriminate].
  destruct (collect entry t) as [rs'|e] eqn:Et; simpl in Hc; [|discriminate].
  inversion Hc; subst; clear Hc. apply in_or_app.
  destruct Hin as [->|Hin].
  - left. rewrite Hx in Ey. inversion Ey. now left.
  - right. eapply IH; eauto.
Qed.

(** In a sorted list, what is among the first [k] elements stands
    before what is not. *)
Lemma sorted_firstn_skipn {A : Type} (R : A -> A -> Prop) (k : nat) :
  forall l, StronglySorted R l ->
    forall a b, In a (firstn k l) -> In b (skipn k l) -> R a b.
Proof.
  induction k as [|k IH]; intros l Hs a b Ha Hb; [contradiction|].
  destruct l as [|x t]; [contradiction|].
  inversion Hs as [|? ? Hst Hall]; subst. simpl in Ha, Hb.
  destruct Ha as [<-|Ha].
  - rewrite Forall_forall in Hall. apply Hall. eapply skipn_In, Hb.
  - eapply IH; eauto.
Qed.

Lemma head_split {A : Type} (n : Z) (l : list A) :
  0 <= n ->
  head n l = firstn (Z.to_nat n) l.
Proof.
  intros Hn. unfold head, iloc_slice.
  assert (E0 : slice_bound (Z.of_nat (length l)) 0 = 0).
  { unfold slice_bound. change (0 <? 0) with false. cbv iota. lia. }
  rewrite E0. simpl skipn. unfold slice_bound.
  destruct (n <? 0) eqn:E; [apply Z.ltb_lt in E; lia|].
  rewrite Z.sub_0_r.
  destruct (Z.min_spec n (Z.of_nat (length l))) as [[H ->]|[H ->]]; [reflexivity|].
  rewrite Nat2Z.id, firstn_all. symmetry. apply firstn_all2. lia.
Qed.

(** X21. The cut to [top_n] drops only candidates that are no better
    than every candidate kept: a window the loop records is returned
    (by [CandlePatternMatcher] as the row of the frame made of its
    entry), or exactly [top_n] entries are returned and its similarity
    is not above the similarity of any of them ([top_n >= 0]; for
    [CandlePatternMatcher], provided [sort_values] returns every row
    once, in descending order of key). *)
Theorem the_cut_keeps_the_best :
  (forall (L : Libraries) (self : PatternMatcher.Config)
          (data : PatternMatcher.Frame) (target tn : PatternMatcher.Pattern)
          (sym : option string) (rows : list PatternMatcher.Match),
      0 <= PatternMatcher.top_n self ->
      PatternMatcher.find_similar_patterns self data target sym = Ok rows ->
      PatternMatcher.normalize_pattern self target = Ok tn ->
      forall i candidate,
        0 <= i < Z.of_nat (length (PatternMatcher.bars data))
                 - PatternMatcher.window_size self
                 - PatternMatcher.lookahead self + 1 ->
        PatternMatcher.scan_entry self data tn sym i = Ok (Some candidate) ->
        In candidate rows
        \/ (Z.of_nat (length rows) = PatternMatcher.top_n self
            /\ forall r, In r rows ->
                 (PatternMatcher.similarity candidate
                  <=? PatternMatcher.similarity r)%float = true))
  /\ (forall (L : Libraries) (df : DataFrame) (tei ws la top_n : Z) (m : float)
             (method nm : string) (excl : Z)
             (rows : list CandlePatternMatcher.Match) (tw : DataFrame)
             (tn : NormFrame),
         sort_is_permutation L -> sort_is_descending L ->
         0 <= top_n ->
         CandlePatternMatcher.find_similar_patterns df tei ws la top_n m method nm excl
         = Ok (rows, tw) ->
         CandlePatternMatcher.normalize nm tw = Ok tn ->
         forall i candidate,
           ws - 1 <= i < Z.of_nat (length df) - la - excl ->
           CandlePatternMatcher.scan_entry df
             (CandlePatternMatcher.resolve_end_index df tei) ws la m method nm tn i
           = Ok (Some candidate) ->
           In (CandlePatternMatcher.frame_row candidate) rows
           \/ (Z.of_nat (length rows) = top_n
               /\ forall r, In r rows ->
                    (CandlePatternMatcher.similarity candidate
                     <=? CandlePatternMatcher.similarity r)%float = true)).
Proof.
  split.
  - intros L self data target tn sym rows Ht H Hn i c Hi Hc.
    destruct (GpuFacts.entries_inv _ _ _ _ _ H) as (tn' & results & Hn' & Hcol & ->).
    rewrite Hn in Hn'. inversion Hn'; subst tn'.
    assert (Hin : In c results).
    { eapply collect_complete; eauto. now apply py_range_In. }
    assert (Hs : StronglySorted ranks_before (PatternMatcher.sort_desc results)).
    { apply GpuFacts.sort_desc_sorted.
      - apply Forall_forall. intros r Hr.
        destruct (collect_In _ _ _ _ Hcol Hr) as (j & _ & Ej).
        destruct (GpuFacts.scan_entry_fields _ _ _ _ _ _ Ej) as (_ & Hle & _).
        unfold has_score. now destruct (leb_numbers _ _ Hle).
      - eapply collect_sorted; [|apply py_range_sorted|exact Hcol].
        intros j r Ej.
        now destruct (GpuFacts.scan_entry_fields _ _ _ _ _ _ Ej) as (Hj & _). }
    apply (Permutation_in _ (Permutation_sym (GpuFacts.sort_desc_perm results))) in Hin.
    rewrite (head_split _ _ Ht).
    set (k := Z.to_nat (PatternMatcher.top_n self)) in *.
    rewrite <- (firstn_skipn k (PatternMatcher.sort_desc results)) in Hin.
    apply in_app_or in Hin. destruct Hin as [Hin|Hin]; [now left|right].
    split.
    + rewrite length_firstn.
      assert (Hl : (k < length (PatternMatcher.sort_desc results))%nat).
      { destruct (Nat.le_gt_cases (length (PatternMatcher.sort_desc results)) k)
          as [Hle|Hlt]; [|exact Hlt].
        rewrite (skipn_all2 _ Hle) in Hin. contradiction. }
      subst k. lia.
    + intros r Hr.
      now destruct (sorted_firstn_skipn _ k _ Hs r c Hr Hin).
  - intros L df tei ws la top_n m method nm excl rows tw tn Hp Hd Ht H Hn i c Hi Hc.
    destruct (CandleFacts.find_similar_patterns_inv _ _ _ _ _ _ _ _ _ _ _ H)
      as (tn' & results & Htw & _ & Hn' & Hcol & Hr).
    rewrite Hn in Hn'. inversion Hn'; subst tn'.
    assert (Hin : In c results).
    { eapply collect_complete; eauto. now apply py_range_In. }
    unfold CandlePatternMatcher.results_frame in Hr.
    destruct results as [|r0 rest]; [contradiction|].
    set (results := r0 :: rest) in *.
    set (keys := map CandlePatternMatcher.similarity results) in *.
    assert (Hnum : Forall (fun k => PrimFloat.is_nan k = false) keys).
    { apply Forall_forall. intros k Hk. apply in_map_iff in Hk.
      destruct Hk as (r & <- & Hr').
      destruct (collect_In _ _ _ _ Hcol Hr') as (j & _ & Ej).
      apply recorded_similarity in Ej. now destruct (leb_numbers _ _ Ej). }
    destruct (In_nth_error _ _ Hin) as (j & Ej).
    assert (Hj : In j (sort_values_desc keys)).
    { apply (Permutation_in _ (Permutation_sym (Hp keys))).
      apply in_seq. unfold keys. rewrite length_map.
      assert (j < length results)%nat by (apply nth_error_Some; congruence). lia. }
    rewrite (head_split _ _ Ht) in Hr.
    set (k := Z.to_nat top_n) in *.
    pose proof (CandleFacts.attach_map _ _ _ Hr) as Hmap.
    rewrite <- (firstn_skipn k (sort_values_desc keys)) in Hj.
    apply in_app_or in Hj. destruct Hj as [Hj|Hj].
    + left.
      apply (in_map (fun j => option_map CandlePatternMatcher.frame_row
                                (nth_error results j))) in Hj.
      rewrite <- Hmap, Ej in Hj.
      apply in_map_iff in Hj. destruct Hj as (r & Er & Hr'). now inversion Er; subst.
    + right. split.
      * rewrite (CandleFacts.attach_length _ _ _ Hr), length_firstn.
        assert (Hl : (k < length (sort_values_desc keys))%nat).
        { destruct (Nat.le_gt_cases (length (sort_values_desc keys)) k)
            as [Hle|Hlt]; [|exact Hlt].
          rewrite (skipn_all2 _ Hle) in Hj. contradiction. }
        subst k. lia.
      * intros r Hr'. apply (in_map (fun r => Some r)) in Hr'.
        rewrite Hmap in Hr'. apply in_map_iff in Hr'.
        destruct Hr' as (j1 & Ej1 & Hj1).
        destruct (nth_error results j1) as [r1|] eqn:Er1; [|discriminate].
        inversion Ej1; subst r.
        pose proof (sorted_firstn_skipn _ k _ (Hd keys Hnum) j1 j Hj1 Hj) as Hle.
        cbv beta in Hle. unfold keys in Hle.
        rewrite (nth_error_nth _ _ _ (map_nth_error CandlePatternMatcher.similarity _ _ Ej)),
          (nth_error_nth _ _ _ (map_nth_error CandlePatternMatcher.similarity _ _ Er1))
          in Hle.
        exact Hle.
Qed.

(** X21, on the ten example bars, cut to four entries and to three rows.
    *)
Lemma the_cut_keeps_the_best_witness :
  (exists rows tn candidate,
     PatternMatcher.find_similar_patterns (L := Reference.libraries)
       (PatternMatcher.with_top_n matcher 4) priced last_pattern (Some "7203")
     = Ok rows
     /\ PatternMatcher.normalize_pattern (L := Reference.libraries)
          (PatternMatcher.with_top_n matcher 4) last_pattern = Ok tn
     /\ PatternMatcher.scan_entry (L := Reference.libraries)
          (PatternMatcher.with_top_n matcher 4) priced tn (Some "7203") 6
        = Ok (Some candidate)
     /\ (In candidate rows
         \/ (Z.of_nat (length rows) = 4
             /\ forall r, In r rows ->
                  (PatternMatcher.similarity candidate
                   <=? PatternMatcher.similarity r)%float = true)))
  /\ exists rows tw tn candidate,
       CandlePatternMatcher.find_similar_patterns (L := Reference.libraries)
         prices (-1) 3 2 3 0%float "euclidean" "minmax" 0 = Ok (rows, tw)
       /\ CandlePatternMatcher.normalize "minmax" tw = Ok tn
       /\ CandlePatternMatcher.scan_entry (L := Reference.libraries)
            prices 9 3 2 0%float "euclidean" "minmax" tn 2 = Ok (Some candidate)
       /\ (In (CandlePatternMatcher.frame_row candidate) rows
           \/ (Z.of_nat (length rows) = 3
               /\ forall r, In r rows ->
                    (CandlePatternMatcher.similarity candidate
                     <=? CandlePatternMatcher.similarity r)%float = true)).
Proof.
  split.
  - eexists; eexists; eexists.
    split; [vm_compute; reflexivity|].
    split; [vm_compute; reflexivity|].
    split; [vm_compute; reflexivity|].
    eapply (proj1 the_cut_keeps_the_best Reference.libraries
              (PatternMatcher.with_top_n matcher 4) priced last_pattern _
              (Some "7203") _ ltac:(simpl; lia) ltac:(vm_compute; reflexivity)
              ltac:(vm_compute; reflexivity) 6 _ ltac:(simpl; lia)).
    vm_compute; reflexivity.
  - eexists; eexists; eexists; eexists.
    split; [vm_compute; reflexivity|].
    split; [vm_compute; reflexivity|].
    split; [vm_compute; reflexivity|].
    eapply (proj2 the_cut_keeps_the_best Reference.libraries prices (-1) 3 2 3
              0%float "euclidean" "minmax" 0 _ _ _
              ReferenceFacts.reference_sort_is_permutation
              ReferenceFacts.reference_sort_is_descending
              ltac:(lia) ltac:(vm_compute; reflexivity)
              ltac:(vm_compute; reflexivity) 2 _ ltac:(simpl; lia)).
    vm_compute; reflexivity.
Defined.

(** * Identical windows *)

(** ** Sums and means of zeros *)

Lemma fold_add_zeros (l : list float) :
  Forall (fun x => x = 0%float) l -> fold_left PrimFloat.add l 0%float = 0%float.
Proof.
  induction l as [|x t IH]; intros H; [reflexivity|].
  inversion H as [|? ? Hx Ht]; subst. simpl. now apply IH.
Qed.

Lemma np_sum_zeros (l : list float) :
  Forall (fun x => x = 0%float) l -> np_sum l = 0%float.
Proof.
  destruct l as [|x t]; intros H; [reflexivity|].
  inversion H as [|? ? Hx Ht]; subst. simpl. now apply fold_add_zeros.
Qed.

Lemma zip_sub_self (a : list float) :
  Forall (fun x => PrimFloat.is_finite x = true) a ->
  Forall (fun x => x = 0%float) (zip_with PrimFloat.sub a a).
Proof.
  induction a as [|x t IH]; intros H; [constructor|].
  inversion H as [|? ? Hx Ht]; subst. simpl.
  constructor; [now apply sub_self|now apply IH].
Qed.

Lemma map_square_zeros (l : list float) :
  Forall (fun x => x = 0%float) l ->
  Forall (fun x => x = 0%float) (map (fun d => (d * d)%float) l).
Proof.
  induction l as [|x t IH]; intros H; [constructor|].
  inversion H as [|? ? Hx Ht]; subst. simpl. constructor; [reflexivity|now apply IH].
Qed.

(** ** The float of a count *)

Lemma digits2_pos_bounds (p : positive) :
  2 ^ (Zpos (digits2_pos p) - 1) <= Zpos p < 2 ^ Zpos (digits2_pos p).
Proof.
  induction p as [p IH|p IH|]; simpl digits2_pos.
  - rewrite Pos2Z.inj_succ.
    replace (Z.succ (Z.pos (digits2_pos p)) - 1) with (Z.succ (Z.pos (digits2_pos p) - 1))
      by lia.
    rewrite !Z.pow_succ_r by lia. lia.
  - rewrite Pos2Z.inj_succ.
    replace (Z.succ (Z.pos (digits2_pos p)) - 1) with (Z.succ (Z.pos (digits2_pos p) - 1))
      by lia.
    rewrite !Z.pow_succ_r by lia. lia.
  - simpl. lia.
Qed.

Lemma digits2_pos_shift (p d : positive) :
  digits2_pos (Pos.iter xO p d) = (digits2_pos p + d)%positive.
Proof.
  induction d as [|d IH] using Pos.peano_ind.
  - simpl. lia.
  - rewrite Pos.iter_succ. simpl digits2_pos. rewrite IH. lia.
Qed.

(** The float of a count between 1 and 2^53 is a finite float above
    zero. *)
Lemma float_of_nat_positive (n : nat) :
  (1 <= n)%nat -> Z.of_nat n < 2 ^ 53 ->
  exists m e, Prim2SF (float_of_nat n) = S754_finite false m e.
Proof.
  intros Hn Hb. unfold float_of_nat. rewrite of_uint63_spec.
  rewrite Uint63.of_Z_spec.
  rewrite Z.mod_small by (change wB with (2 ^ 63); lia).
  destruct (Z.of_nat n) as [|p|p] eqn:E; [lia| |lia].
  pose proof (digits2_pos_bounds p) as [Hlo Hhi].
  assert (Hd : Zpos (digits2_pos p) <= 53).
  { destruct (Z.le_gt_cases (Zpos (digits2_pos p)) 53) as [H|H]; [exact H|].
    assert (2 ^ 53 <= 2 ^ (Zpos (digits2_pos p) - 1))
      by (apply Z.pow_le_mono_r; lia).
    lia. }
  unfold binary_normalize, binary_round, shl_align, fexp, SpecFloat.emin, prec, emax.
  replace (Z.max (Z.pos (digits2_pos p) + 0 - 53) (3 - 1024 - 53))
    with (Z.pos (digits2_pos p) - 53) by lia.
  destruct (Z.pos (digits2_pos p) - 53 - 0) as [|d|d] eqn:Ed; [|lia|].
  - exists p, 0. apply round_exact.
    unfold bounded, canonical_mantissa, fexp, SpecFloat.emin, prec, emax.
    apply andb_true_iff. split; [apply Z.eqb_eq|apply Z.leb_le]; lia.
  - exists (Pos.iter xO p d), (Z.pos (digits2_pos p) - 53). apply round_exact.
    unfold bounded, canonical_mantissa, fexp, SpecFloat.emin, prec, emax.
    rewrite digits2_pos_shift.
    apply andb_true_iff. split; [apply Z.eqb_eq|apply Z.leb_le]; lia.
Qed.

Lemma zero_div_count (n : nat) :
  (1 <= n)%nat -> Z.of_nat n < 2 ^ 53 ->
  (0 / float_of_nat n)%float = 0%float.
Proof.
  intros Hn Hb. apply zero_div. rewrite FloatAxioms.ltb_spec.
  destruct (float_of_nat_positive n Hn Hb) as (m & e & ->). reflexivity.
Qed.

Lemma np_mean_zeros (l : list float) :
  l <> [] -> Z.of_nat (length l) < 2 ^ 53 ->
  Forall (fun x => x = 0%float) l -> np_mean l = 0%float.
Proof.
  intros Hne Hb Hz. unfold np_mean. rewrite (np_sum_zeros l Hz).
  apply zero_div_count; [|exact Hb]. destruct l; [contradiction|simpl; lia].
Qed.

(** ** The euclidean score of a window against itself *)

Lemma column_distance_self (a : list float) :
  a <> [] -> Z.of_nat (length a) < 2 ^ 53 ->
  Forall (fun x => PrimFloat.is_finite x = true) a ->
  CandlePatternMatcher.column_distance a a = 0%float.
Proof.
  intros Hne Hb Hf. unfold CandlePatternMatcher.column_distance.
  assert (Hz : Forall (fun x => x = 0%float)
                 (map (fun d => (d * d)%float) (zip_with PrimFloat.sub a a)))
    by now apply map_square_zeros, zip_sub_self.
  assert (Hl : length (map (fun d => (d * d)%float) (zip_with PrimFloat.sub a a))
               = length a).
  { rewrite length_map. clear. induction a; simpl; congruence. }
  rewrite np_mean_zeros; [reflexivity| |lia|exact Hz].
  intros E. rewrite E in Hl. destruct a; [contradiction|discriminate].
Qed.

Lemma minmax_column_length (s : list float) :
  length (CandlePatternMatcher.minmax_column s) = length s.
Proof.
  unfold CandlePatternMatcher.minmax_column.
  destruct (negb _); now rewrite length_map.
Qed.

(** X22. Under ['euclidean'] a min-max normalized window compared with
    itself scores exactly 1.0, the greatest score there is: all four
    distances are zero (a window with rows, fewer than 2^53 of them,
    whose normalized prices are finite). *)
Theorem a_window_matches_itself :
  forall (L : Libraries) (window_df : DataFrame),
    window_df <> [] ->
    Z.of_nat (length window_df) < 2 ^ 53 ->
    (forall column,
        In column [open; high; low; close] ->
        Forall (fun x => PrimFloat.is_finite x = true)
          (CandlePatternMatcher.minmax_column (map column window_df))) ->
    CandlePatternMatcher.calculate_pattern_similarity
      (CandlePatternMatcher.min_max_normalize window_df)
      (CandlePatternMatcher.min_max_normalize window_df) "euclidean" None
    = 1%float.
Proof.
  intros L w Hne Hb Hf.
  unfold CandlePatternMatcher.calculate_pattern_similarity.
  rewrite Nat.eqb_refl. simpl negb. cbv iota.
  change (String.eqb "euclidean" "correlation") with false.
  change (String.eqb "euclidean" "weighted") with false.
  change (String.eqb "euclidean" "euclidean") with true. cbv iota.
  assert (Hd : forall column,
             In column [open; high; low; close] ->
             CandlePatternMatcher.column_distance
               (CandlePatternMatcher.minmax_column (map column w))
               (CandlePatternMatcher.minmax_column (map column w)) = 0%float).
  { intros column Hc. apply column_distance_self.
    - intros E. apply (f_equal (@length float)) in E.
      rewrite minmax_column_length, length_map in E.
      destruct w; [contradiction|discriminate].
    - now rewrite minmax_column_length, length_map.
    - now apply Hf. }
  cbn [flat_map CandlePatternMatcher.min_max_normalize has_column get_column
       frame added lookup_column String.eqb Ascii.eqb Bool.eqb append is_ok
       andb app].
  rewrite (Hd open), (Hd high), (Hd low), (Hd close) by (simpl; tauto).
  reflexivity.
Qed.

(** X22, on a window of three bars. *)
Lemma a_window_matches_itself_witness :
  CandlePatternMatcher.calculate_pattern_similarity (L := Reference.libraries)
    (CandlePatternMatcher.min_max_normalize [bar 0 100; bar 1 102; bar 2 101])
    (CandlePatternMatcher.min_max_normalize [bar 0 100; bar 1 102; bar 2 101])
    "euclidean" None
  = 1%float.
Proof.
  apply (a_window_matches_itself Reference.libraries
           [bar 0 100; bar 1 102; bar 2 101]).
  - discriminate.
  - simpl. lia.
  - intros column Hc. simpl in Hc.
    destruct Hc as [<-|[<-|[<-|[<-|[]]]]]; repeat constructor.
Defined.

Lemma flatten_sub_self (p : PatternMatcher.Pattern) :
  Forall (fun x => PrimFloat.is_finite x = true) (PatternMatcher.flatten p) ->
  Forall (fun x => x = 0%float)
    (PatternMatcher.flatten
       (zip_with (PatternMatcher.row_map2 PrimFloat.sub) p p)).
Proof.
  induction p as [|r t IH]; intros H; [constructor|].
  simpl in H. inversion H as [|? ? H1 H']; subst.
  inversion H' as [|? ? H2 H'']; subst.
  inversion H'' as [|? ? H3 H''']; subst.
  inversion H''' as [|? ? H4 Ht]; subst.
  simpl. rewrite !sub_self by assumption.
  repeat constructor. now apply IH.
Qed.

(** X23. Under ['euclidean'] [PatternMatcher.calculate_similarity] of a
    pattern of finite values with itself is exactly 1.0, on the
    accelerated path and on the plain one. *)
Theorem a_pattern_matches_itself :
  forall (L : Libraries) (self : PatternMatcher.Config)
         (pattern : PatternMatcher.Pattern),
    PatternMatcher.method self = "euclidean" ->
    Forall (fun x => PrimFloat.is_finite x = true) (PatternMatcher.flatten pattern) ->
    PatternMatcher.calculate_similarity self pattern pattern = Ok 1%float.
Proof.
  intros L self p Hm Hf. unfold PatternMatcher.calculate_similarity. rewrite Hm.
  change (String.eqb "euclidean" "correlation") with false.
  change (String.eqb "euclidean" "euclidean") with true. cbv iota.
  assert (E : PatternMatcher.euclidean_similarity p p = Ok 1%float).
  { unfold PatternMatcher.euclidean_similarity, PatternMatcher.broadcast.
    rewrite Nat.eqb_refl. simpl. unfold PatternMatcher.linalg_norm.
    rewrite np_sum_zeros; [reflexivity|].
    now apply map_square_zeros, flatten_sub_self. }
  destruct (PatternMatcher.use_gpu self); exact E.
Qed.

(** X23, on the last three example bars. *)
Lemma a_pattern_matches_itself_witness :
  PatternMatcher.calculate_similarity (L := Reference.libraries) matcher
    last_pattern last_pattern = Ok 1%float.
Proof.
  apply (a_pattern_matches_itself Reference.libraries matcher last_pattern).
  - reflexivity.
  - vm_compute. repeat constructor.
Defined.

(** * Further properties of [calculate_statistics] *)

(** X24. On a result with rows whose future returns are numbers,
    [calculate_statistics] reports as ['count'] the number of rows and
    as ['min_return'] and ['max_return'] two of the stored returns,
    with every stored return between them. *)
Theorem statistics_bound_the_returns :
  forall rows : list CandlePatternMatcher.Match,
    rows <> [] ->
    (forall r, In r rows ->
       PrimFloat.is_nan (CandlePatternMatcher.future_return_pct r) = false) ->
    let stats := CandlePatternMatcher.calculate_statistics rows in
    exists least greatest,
      CandlePatternMatcher.dict_get stats "count"
      = Some (CandlePatternMatcher.PyInt (Z.of_nat (length rows)))
      /\ CandlePatternMatcher.dict_get stats "min_return"
         = Some (CandlePatternMatcher.PyFloat least)
      /\ CandlePatternMatcher.dict_get stats "max_return"
         = Some (CandlePatternMatcher.PyFloat greatest)
      /\ (forall r, In r rows ->
            (least <=? CandlePatternMatcher.future_return_pct r)%float = true
            /\ (CandlePatternMatcher.future_return_pct r <=? greatest)%float = true)
      /\ (exists r, In r rows /\ CandlePatternMatcher.future_return_pct r = least)
      /\ (exists r, In r rows /\ CandlePatternMatcher.future_return_pct r = greatest).
Proof.
  intros rows Hne Hnum stats.
  set (returns := map CandlePatternMatcher.future_return_pct rows).
  assert (Hr : returns <> []) by (unfold returns; destruct rows; [contradiction|discriminate]).
  assert (Hall : Forall (fun y => PrimFloat.is_nan y = false) returns).
  { apply Forall_forall. intros y Hy. apply in_map_iff in Hy.
    destruct Hy as (r & <- & Hin). now apply Hnum. }
  destruct (series_extremes returns Hr Hall) as (Hmin & Hle & Hmax & Hge).
  exists (series_min returns), (series_max returns).
  subst stats. unfold CandlePatternMatcher.calculate_statistics.
  destruct rows as [|r0 rest]; [contradiction|].
  change (Nat.eqb (length (r0 :: rest)) 0) with false. cbv iota.
  rewrite length_map. fold returns.
  split; [reflexivity|]. split; [reflexivity|]. split; [reflexivity|].
  rewrite Forall_forall in Hle, Hge.
  split; [|split].
  - intros r Hin. split; [apply Hle|apply Hge]; unfold returns; now apply in_map.
  - apply in_map_iff in Hmin. destruct Hmin as (r & E & Hin). now exists r.
  - apply in_map_iff in Hmax. destruct Hmax as (r & E & Hin). now exists r.
Qed.

(** X24, on the five candidates of the ten example bars. *)
Lemma statistics_bound_the_returns_witness :
  exists rows tw,
    CandlePatternMatcher.find_similar_patterns (L := Reference.libraries)
      prices (-1) 3 2 10 0%float "euclidean" "minmax" 0 = Ok (rows, tw)
    /\ exists least greatest,
         CandlePatternMatcher.dict_get
           (CandlePatternMatcher.calculate_statistics rows) "count"
         = Some (CandlePatternMatcher.PyInt 5)
         /\ CandlePatternMatcher.dict_get
              (CandlePatternMatcher.calculate_statistics rows) "min_return"
            = Some (CandlePatternMatcher.PyFloat least)
         /\ CandlePatternMatcher.dict_get
              (CandlePatternMatcher.calculate_statistics rows) "max_return"
            = Some (CandlePatternMatcher.PyFloat greatest)
         /\ forall r, In r rows ->
              (least <=? CandlePatternMatcher.future_return_pct r)%float = true
              /\ (CandlePatternMatcher.future_return_pct r <=? greatest)%float = true.
Proof.
  eexists; eexists. split; [vm_compute; reflexivity|].
  match goal with
  | |- context [CandlePatternMatcher.calculate_statistics ?rows] =>
      destruct (statistics_bound_the_returns rows ltac:(discriminate))
        as (least & greatest & Hc & Hmin & Hmax & Hb & _)
  end.
  - intros r Hin. simpl in Hin.
    destruct Hin as [<-|[<-|[<-|[<-|[<-|[]]]]]]; reflexivity.
  - exists least, greatest. split; [exact Hc|]. split; [exact Hmin|].
    split; [exact Hmax|exact Hb].
Defined.

(** * [print_statistics] on the statistics of a result *)

(** X25. [print_statistics] never fails on what [calculate_statistics]
    returns: on the statistics of an empty result it prints the one
    line of its notice, on any other its fourteen lines, and it raises
    nothing.  On a dict that is not empty and lacks ['count'] it
    raises [KeyError] once the three lines of the heading are
    printed. *)
Theorem statistics_are_printed_in_full :
  forall (format : CandlePatternMatcher.PyValue -> string -> string)
         (rows : list CandlePatternMatcher.Match),
    let printed :=
      Visualizer.print_statistics format
        (CandlePatternMatcher.calculate_statistics rows) in
    snd printed = Ok tt
    /\ (rows = [] -> fst printed = ["統計情報がありません"])
    /\ (rows <> [] -> length (fst printed) = 14%nat)
    /\ (forall stats : CandlePatternMatcher.PyDict,
          stats <> [] ->
          CandlePatternMatcher.dict_get stats "count" = None ->
          Visualizer.print_statistics format stats
          = ([Visualizer.repeat_string "=" 70;
              "類似パターン後のリターン統計分析";
              Visualizer.repeat_string "=" 70], Raise KeyError)).
Proof.
  intros format rows printed. subst printed.
  split; [|split; [|split]].
  - destruct rows; reflexivity.
  - intros ->. reflexivity.
  - intros Hne. destruct rows; [contradiction|reflexivity].
  - intros stats Hne Hc. destruct stats as [|kv t]; [contradiction|].
    unfold Visualizer.print_statistics.
    cbn [Visualizer.print Visualizer.print_field snd fst app].
    unfold Visualizer.getitem at 1. rewrite Hc. reflexivity.
Qed.

(** X25, on the statistics of no candidate and of one, and on a dict
    without a count. *)
Lemma statistics_are_printed_in_full_witness :
  Visualizer.print_statistics Plain.format
    (CandlePatternMatcher.calculate_statistics [])
  = (["統計情報がありません"], Ok tt)
  /\ length (fst (Visualizer.print_statistics Plain.format
                    (CandlePatternMatcher.calculate_statistics [lone_candidate])))
     = 14%nat
  /\ snd (Visualizer.print_statistics Plain.format [("mean_return",
            CandlePatternMatcher.PyFloat 1%float)])
     = Raise KeyError.
Proof.
  destruct (statistics_are_printed_in_full Plain.format []) as (Hok & Hnil & _).
  destruct (statistics_are_printed_in_full Plain.format [lone_candidate])
    as (_ & _ & Hfull & Hmiss).
  split; [|split].
  - rewrite <- (Hnil eq_refl), <- Hok. now destruct (Visualizer.print_statistics _ _).
  - apply Hfull. discriminate.
  - now rewrite Hmiss.
Defined.

(** * The settings *)

Module SettingsFacts.

Import Settings.

Lemma dict_get_set_same (items : list (string * Value)) (k : string) (v : Value) :
  dict_get (dict_set items k v) k = Some v.
Proof.
  induction items as [|[k0 v0] t IH]; simpl.
  - now rewrite String.eqb_refl.
  - destruct (String.eqb k0 k) eqn:E; simpl; rewrite E; [reflexivity|exact IH].
Qed.

Lemma split_nonempty (key : string) : split key <> [].
Proof.
  induction key as [|c rest IH]; [discriminate|].
  cbn -[String.eqb].
  destruct (String.eqb (String c "") "."); [discriminate|].
  destruct (split rest); discriminate.
Qed.

Lemma split_path (key : string) :
  split key = (removelast (split key) ++ [last (split key) ""])%list.
Proof. apply app_removelast_last, split_nonempty. Qed.

(** After the assignment the path leads to the value. *)
Lemma walk_assign (keys : list string) (last : string) (value : Value) :
  forall config config',
    assign config keys last value = Updated config' ->
    walk config' (keys ++ [last]) = Some value.
Proof.
  induction keys as [|k rest IH]; intros config config' H.
  - destruct config; try discriminate. simpl in H. inversion H; subst.
    simpl. now rewrite dict_get_set_same.
  - destruct config; try discriminate. simpl in H.
    destruct (assign _ rest last value) as [child'|] eqn:E; [|discriminate].
    inversion H; subst. simpl. rewrite dict_get_set_same. eapply IH, E.
Qed.

End SettingsFacts.

(** X26. A setting that [Config.set] has stored is the value
    [Config.get] returns for the same dotted key, whatever the default;
    the dicts missing on the way have been created. *)
Theorem a_setting_reads_back :
  forall (config config' : Settings.Value) (key : string)
         (value default : Settings.Value),
    Settings.set config key value = Settings.Updated config' ->
    Settings.get config' key default = value.
Proof.
  intros config config' key value default H.
  unfold Settings.set in H. cbv zeta in H.
  unfold Settings.get. rewrite SettingsFacts.split_path.
  now rewrite (SettingsFacts.walk_assign _ _ _ _ _ H).
Qed.

(** X26, on settings that hold the debug mode only. *)
Lemma a_setting_reads_back_witness :
  exists config',
    Settings.set (Settings.VDict [("debug", Settings.VDict [("mode", Settings.VBool true)])])
      "analysis.pattern_matching.top_n" (Settings.VInt 5)
    = Settings.Updated config'
    /\ Settings.top_n config' = Settings.VInt 5.
Proof.
  eexists. split; [reflexivity|].
  apply (a_setting_reads_back
           (Settings.VDict [("debug", Settings.VDict [("mode", Settings.VBool true)])])
           _ "analysis.pattern_matching.top_n" (Settings.VInt 5) (Settings.VInt 15)).
  reflexivity.
Defined.

(** X28. When the settings are no mapping (an empty YAML file loads as
    [None]) every [get] returns its default, so the window size, the
    lookahead, [top_n] and the threshold are 20, 10, 15 and 0.7, and
    every [set] raises [TypeError]. *)
Theorem settings_that_are_no_mapping :
  forall config : Settings.Value,
    (forall items, config <> Settings.VDict items) ->
    (forall key default, Settings.get config key default = default)
    /\ (forall key value, Settings.set config key value = Settings.TypeError)
    /\ Settings.window_size config = Settings.VInt 20
    /\ Settings.lookahead config = Settings.VInt 10
    /\ Settings.top_n config = Settings.VInt 15
    /\ Settings.min_similarity config = Settings.VFloat 0.7.
Proof.
  intros config Hno.
  assert (Hget : forall key default, Settings.get config key default = default).
  { intros key default. unfold Settings.get.
    destruct (Settings.split key) as [|k rest] eqn:E;
      [now apply SettingsFacts.split_nonempty in E|].
    destruct config; try reflexivity. now destruct (Hno items). }
  split; [exact Hget|]. split.
  - intros key value. unfold Settings.set. cbv zeta.
    destruct config; try (destruct (removelast _); reflexivity).
    now destruct (Hno items).
  - repeat split; apply Hget.
Qed.

(** X28, on the settings of an empty file. *)
Lemma settings_that_are_no_mapping_witness :
  Settings.top_n Settings.VNone = Settings.VInt 15
  /\ Settings.set Settings.VNone "debug.mode" (Settings.VBool true)
     = Settings.TypeError.
Proof.
  destruct (settings_that_are_no_mapping Settings.VNone ltac:(discriminate))
    as (_ & Hset & _ & _ & Htop & _).
  split; [exact Htop|apply Hset].
Defined.

(** * The utilities *)

Lemma slices_partition {A : Type} (l : list A) (k : Z) :
  (iloc_slice l 0 k ++ iloc_slice l k (Z.of_nat (length l)))%list = l.
Proof.
  unfold iloc_slice.
  set (n := Z.of_nat (length l)).
  assert (E0 : slice_bound n 0 = 0).
  { unfold slice_bound. change (0 <? 0) with false. cbv iota. lia. }
  assert (En : slice_bound n n = n).
  { unfold slice_bound. destruct (n <? 0) eqn:E; lia. }
  pose proof (slice_bound_range n k ltac:(lia)) as Hk.
  rewrite E0, En. simpl skipn. rewrite Z.sub_0_r.
  replace (firstn (Z.to_nat (n - slice_bound n k)) (skipn (Z.to_nat (slice_bound n k)) l))
    with (skipn (Z.to_nat (slice_bound n k)) l).
  - apply firstn_skipn.
  - symmetry. apply firstn_all2. rewrite length_skipn. lia.
Qed.

(** X29. Whatever the ratio, the two frames [split_train_test] returns
    are the frame cut in two: the training rows followed by the test
    rows are the rows of the frame, in order, none lost and none
    twice (also for a ratio below 0 or above 1). *)
Theorem the_split_loses_no_row :
  forall (A : Type) (df train_df test_df : list A) (train_ratio : float),
    Utils.split_train_test df train_ratio = Utils.Returns (train_df, test_df) ->
    (train_df ++ test_df)%list = df
    /\ (length train_df + length test_df = length df)%nat.
Proof.
  intros A df train_df test_df ratio H. unfold Utils.split_train_test in H.
  destruct (Utils.int_of_float _) as [k|e]; [|discriminate].
  inversion H; subst; clear H.
  pose proof (slices_partition df k) as Hp.
  split; [exact Hp|]. rewrite <- length_app. now rewrite Hp.
Qed.

(** X29, on the ten example bars with a ratio of 0.8. *)
Lemma the_split_loses_no_row_witness :
  Utils.split_train_test prices 0.8%float
  = Utils.Returns (iloc_slice prices 0 8, iloc_slice prices 8 10)
  /\ (iloc_slice prices 0 8 ++ iloc_slice prices 8 10)%list = prices.
Proof.
  split; [vm_compute; reflexivity|].
  apply (the_split_loses_no_row Bar prices _ _ 0.8%float).
  vm_compute; reflexivity.
Defined.

(** X30. [calculate_sharpe_ratio] raises [ZeroDivisionError] for
    [periods = 0], and on fewer than two returns it returns [nan], not
    0.0: the sample standard deviation is [nan], which is not equal to
    zero. *)
Theorem sharpe_ratio_needs_two_returns :
  forall (returns : list float) (risk_free_rate : float) (periods : Z),
    (periods = 0 ->
     Utils.calculate_sharpe_ratio returns risk_free_rate periods
     = Utils.Raises Utils.ZeroDivisionError)
    /\ (periods <> 0 -> (length returns <= 1)%nat ->
        Utils.calculate_sharpe_ratio returns risk_free_rate periods
        = Utils.Returns PrimFloat.nan).
Proof.
  intros returns rf periods. unfold Utils.calculate_sharpe_ratio. split.
  - intros ->. reflexivity.
  - intros Hp Hl. destruct (periods =? 0) eqn:E; [apply Z.eqb_eq in E; contradiction|].
    assert (Hs : series_std
                   (map (fun r => (r - rf / Utils.float_of_Z periods)%float) returns)
                 = PrimFloat.nan).
    { destruct returns as [|x [|y t]]; [reflexivity| |simpl in Hl; lia].
      apply Statistics.series_std_single. }
    rewrite Hs. change (PrimFloat.nan =? 0)%float with false. cbv iota.
    now rewrite div_nan.
Qed.

(** X30, on a single return. *)
Lemma sharpe_ratio_needs_two_returns_witness :
  Utils.calculate_sharpe_ratio [0.01%float] 0%float 0
  = Utils.Raises Utils.ZeroDivisionError
  /\ Utils.calculate_sharpe_ratio [0.01%float] 0%float 252
     = Utils.Returns PrimFloat.nan.
Proof.
  destruct (sharpe_ratio_needs_two_returns [0.01%float] 0%float 0) as [Hz _].
  destruct (sharpe_ratio_needs_two_returns [0.01%float] 0%float 252) as [_ Hn].
  split; [apply Hz; reflexivity|apply Hn; [discriminate|simpl; lia]].
Defined.
